(** * Travara: the travel planner's orchestration logic, embedded and verified

    The development follows the five source files:
    - [PyStr]           the Python string operations the code relies on;
    - [OpenAIService]   services/openai_service.py;
    - [OllamaService]   services/ollama_service.py;
    - [PlacesService]   services/places_service.py;
    - [WeatherService]  services/weather_service.py;
    - [App]             app.py ([initialize_services] and [main]).

    Python strings are carried as byte strings (UTF-8).  [strip] removes
    the white space of Unicode, in its UTF-8 form.  [lower] acts on the
    ASCII letters, which is all the tests of the code can see (see [lower]).
    [title] is computed for ASCII text and taken from the world for any other
    text, since it follows the Unicode character database. *)

From Stdlib Require Import String Ascii List Bool ZArith Lia DecimalString.
Import ListNotations.
Open Scope string_scope.

(* ===================================================================== *)
(** ** Python strings *)
(* ===================================================================== *)

Module PyStr.

Definition nl : string := String (ascii_of_nat 10) EmptyString.
Definition dq : string := String (ascii_of_nat 34) EmptyString.

Definition code (c : ascii) : nat := nat_of_ascii c.

Definition is_upper (c : ascii) : bool := Nat.leb 65 (code c) && Nat.leb (code c) 90.
Definition is_lower (c : ascii) : bool := Nat.leb 97 (code c) && Nat.leb (code c) 122.
Definition is_cased (c : ascii) : bool := is_upper c || is_lower c.

Definition lower_char (c : ascii) : ascii :=
  if is_upper c then ascii_of_nat (code c + 32) else c.
Definition upper_char (c : ascii) : ascii :=
  if is_lower c then ascii_of_nat (code c - 32) else c.

(** The white space of [str.strip] and [str.isspace]: U+0009 to U+000D,
    U+001C to U+001F, U+0020, U+0085, U+00A0, U+1680, U+2000 to U+200A,
    U+2028, U+2029, U+202F, U+205F and U+3000.  In UTF-8 the first ten are
    one byte each; U+0085 and U+00A0 are C2 85 and C2 A0; the others are
    E1 9A 80, E2 80 80 to E2 80 8A, E2 80 A8, E2 80 A9, E2 80 AF, E2 81 9F
    and E3 80 80.  A byte of a longer character is never the first byte of
    another one, so that reading these bytes at the start of a text, or at
    the start of what is left of it, reads characters. *)

(** White space of one byte: TAB, LF, VT, FF, CR, FS, GS, RS, US and the
    space. *)
Definition is_space1 (c : ascii) : bool :=
  let n := code c in
  (Nat.leb 9 n && Nat.leb n 13) || (Nat.leb 28 n && Nat.leb n 32).

(** White space of two bytes: U+0085 and U+00A0. *)
Definition is_space2 (c1 c2 : ascii) : bool :=
  Nat.eqb (code c1) 194 && (Nat.eqb (code c2) 133 || Nat.eqb (code c2) 160).

(** White space of three bytes: U+1680, U+2000 to U+200A, U+2028, U+2029,
    U+202F, U+205F and U+3000. *)
Definition is_space3 (c1 c2 c3 : ascii) : bool :=
  (Nat.eqb (code c1) 225 && Nat.eqb (code c2) 154 && Nat.eqb (code c3) 128)
  || (Nat.eqb (code c1) 226 && Nat.eqb (code c2) 128
      && ((Nat.leb 128 (code c3) && Nat.leb (code c3) 138)
          || Nat.eqb (code c3) 168 || Nat.eqb (code c3) 169 || Nat.eqb (code c3) 175))
  || (Nat.eqb (code c1) 226 && Nat.eqb (code c2) 129 && Nat.eqb (code c3) 159)
  || (Nat.eqb (code c1) 227 && Nat.eqb (code c2) 128 && Nat.eqb (code c3) 128).

(** What follows the white-space character a text starts with, when it
    starts with one. *)
Definition after_space (s : string) : option string :=
  match s with
  | String c1 r1 =>
      if is_space1 c1 then Some r1
      else
        match r1 with
        | String c2 r2 =>
            if is_space2 c1 c2 then Some r2
            else
              match r2 with
              | String c3 r3 => if is_space3 c1 c2 c3 then Some r3 else None
              | EmptyString => None
              end
        | EmptyString => None
        end
  | EmptyString => None
  end.

(** [s.lower()] on the ASCII letters; the other bytes are left as they
    are.  The code tests a lowered line against "day ", "**day ", "# day "
    and "day" only, and no character outside ASCII is lowered by Python to
    a letter of "day", to a space, to "*" or to "#" (the two that are
    lowered into ASCII, U+0130 and U+212A, give "i" and "k"); these tests
    therefore have the outcome they have in Python. *)
Fixpoint lower (s : string) : string :=
  match s with
  | EmptyString => EmptyString
  | String c r => String (lower_char c) (lower r)
  end.

(** [s.lstrip()]: the white-space characters at the start are dropped. *)
Fixpoint lstrip (s : string) : string :=
  match s with
  | String c1 r1 =>
      if is_space1 c1 then lstrip r1
      else
        match r1 with
        | String c2 r2 =>
            if is_space2 c1 c2 then lstrip r2
            else
              match r2 with
              | String c3 r3 => if is_space3 c1 c2 c3 then lstrip r3 else s
              | EmptyString => s
              end
        | EmptyString => s
        end
  | EmptyString => EmptyString
  end.

(** [s.rstrip()]: the text up to the point after which there is white
    space only. *)
Fixpoint rstrip (s : string) : string :=
  match s with
  | EmptyString => EmptyString
  | String c r =>
      match lstrip s with
      | EmptyString => EmptyString
      | _ => String c (rstrip r)
      end
  end.

(** [s.strip()] *)
Definition strip (s : string) : string := rstrip (lstrip s).

(** [s.startswith(p)] *)
Definition startswith (s p : string) : bool := String.prefix p s.

(** [sub in s] *)
Fixpoint contains (sub s : string) : bool :=
  String.prefix sub s ||
  match s with
  | EmptyString => false
  | String _ r => contains sub r
  end.

(** [s.replace(old, new)] for a non-empty [old]: occurrences are taken
    left to right and do not overlap.  [skip] counts the characters of a
    matched occurrence still to be dropped. *)
Fixpoint replace_from (old new s : string) (skip : nat) : string :=
  match s with
  | EmptyString => EmptyString
  | String c r =>
      match skip with
      | S k => replace_from old new r k
      | O =>
          if String.prefix old s
          then new ++ replace_from old new r (String.length old - 1)
          else String c (replace_from old new r 0)
      end
  end.

Definition replace (s old new : string) : string := replace_from old new s 0.

(** [s.split('\n')] *)
Fixpoint split_nl (s : string) : list string :=
  match s with
  | EmptyString => [EmptyString]
  | String c r =>
      if Ascii.eqb c (ascii_of_nat 10) then EmptyString :: split_nl r
      else match split_nl r with
           | l :: ls => String c l :: ls
           | [] => [String c EmptyString]
           end
  end.

(** [sep.join(parts)] *)
Definition join (sep : string) (parts : list string) : string :=
  String.concat sep parts.

(** The text is ASCII. *)
Definition is_ascii (s : string) : bool :=
  forallb (fun c => Nat.ltb (code c) 128) (list_ascii_of_string s).

(** [s.title()] for ASCII text: a letter that follows a letter is lowered,
    any other letter is raised. *)
Fixpoint title_from (previous_is_cased : bool) (s : string) : string :=
  match s with
  | EmptyString => EmptyString
  | String c r =>
      String (if previous_is_cased then lower_char c else upper_char c)
             (title_from (is_cased c) r)
  end.

Definition title_ascii (s : string) : string := title_from false s.

(** [s * n] for an integer [n] *)
Fixpoint repeat_nat (s : string) (n : nat) : string :=
  match n with
  | O => EmptyString
  | S k => s ++ repeat_nat s k
  end.

Definition repeat (s : string) (n : Z) : string := repeat_nat s (Z.to_nat n).

(** [str(n)] for an integer *)
Definition of_Z (n : Z) : string := NilZero.string_of_int (Z.to_int n).

(** Truth value of a string: non-empty. *)
Definition truthy (s : string) : bool :=
  match s with EmptyString => false | _ => true end.

End PyStr.

(* ===================================================================== *)
(** ** Python values and exceptions *)
(* ===================================================================== *)

(** Scalars that travel through the JSON payloads and the f-strings.  A
    float is carried by its textual form; no arithmetic is done on it. *)
Inductive pyval : Type :=
| PyNone
| PyBool (b : bool)
| PyInt (n : Z)
| PyFloat (repr : string)
| PyStr (s : string).

(** [str(v)], which is also what [f"{v}"] renders. *)
Definition py_str (v : pyval) : string :=
  match v with
  | PyNone => "None"
  | PyBool true => "True"
  | PyBool false => "False"
  | PyInt n => PyStr.of_Z n
  | PyFloat repr => repr
  | PyStr s => s
  end.

(** [type(v).__name__] *)
Definition type_name (v : pyval) : string :=
  match v with
  | PyNone => "NoneType"
  | PyBool _ => "bool"
  | PyInt _ => "int"
  | PyFloat _ => "float"
  | PyStr _ => "str"
  end.

(** [v != s] for a string literal [s]. *)
Definition py_ne_str (v : pyval) (s : string) : bool :=
  match v with
  | PyStr t => negb (String.eqb t s)
  | _ => true
  end.

(** The exception classes the code raises, catches or can meet.  All of
    them derive from [Exception]; [ETimeout] and [EConnection] derive from
    [requests.exceptions.RequestException]. *)
Inductive exn_class : Type :=
| EValueError
| ETimeout
| EConnection
| ERequestException
| EKeyError
| EIndexError
| EAttributeError
| EOverflowError
| EMemoryError
| EException.

Record exn : Type := Exn { exn_cls : exn_class; exn_msg : string }.

(** What calling the method [name] raises on a value that has no such
    method. *)
Definition no_attribute (v : pyval) (name : string) : exn :=
  Exn EAttributeError ("'" ++ type_name v ++ "' object has no attribute '" ++ name ++ "'").

(** [isinstance(e, ValueError)] *)
Definition is_ValueError (e : exn) : bool :=
  match exn_cls e with EValueError => true | _ => false end.

(** [isinstance(e, requests.exceptions.Timeout)] *)
Definition is_Timeout (e : exn) : bool :=
  match exn_cls e with ETimeout => true | _ => false end.

(** [isinstance(e, requests.exceptions.RequestException)] *)
Definition is_RequestException (e : exn) : bool :=
  match exn_cls e with
  | ETimeout | EConnection | ERequestException => true
  | _ => false
  end.

(** What a [requests] call gives back: it raises, or it returns a response
    with a status code, a body text and the outcome of [.json()]. *)
Inductive http_result (A : Type) : Type :=
| HttpRaised (e : exn)
| HttpResponse (status_code : Z) (text : string) (json : exn + A).
Arguments HttpRaised {A} e.
Arguments HttpResponse {A} status_code text json.

(* ===================================================================== *)
(** ** Effects: the calls that leave the process and the widgets drawn *)
(* ===================================================================== *)

Inductive event : Type :=
(* outbound calls *)
| OllamaTags (base_url : string)
| OllamaChat (base_url model system_prompt prompt : string)
| OpenAIChat (model system_prompt prompt : string)
| PlacesGeocode (destination : string)
| PlacesNearby (lat lng : pyval) (type_ : string)
| WeatherGeocode (q : string)
| WeatherCurrent (lat lon : pyval)
| WeatherForecast (lat lon : pyval)
(* standard output *)
| Print (text : string)
(* Streamlit output *)
| StMarkdown (body : string)
| StHeader (body : string)
| StSubheader (body : string)
| StCaption (body : string)
| StWarning (body : string)
| StError (body : string)
| StSuccess (body : string)
| StInfo (body : string)
| StSpinner (text : string)
| StExpander (label body : string).

(** A provider-generation call: the chat request of either backend. *)
Definition is_generation (e : event) : bool :=
  match e with
  | OllamaChat _ _ _ _ | OpenAIChat _ _ _ => true
  | _ => false
  end.

(** An enrichment call: any request of the places or the weather client. *)
Definition is_enrichment (e : event) : bool :=
  match e with
  | PlacesGeocode _ | PlacesNearby _ _ _
  | WeatherGeocode _ | WeatherCurrent _ _ | WeatherForecast _ _ => true
  | _ => false
  end.

(** A call that goes to the network. *)
Definition is_network (e : event) : bool :=
  match e with
  | OllamaTags _ => true
  | _ => is_generation e || is_enrichment e
  end.

(** The headers under which [main] draws its results: the itinerary, the
    weather block and the places block each start with one of them. *)
Definition opens_result (e : event) : bool :=
  match e with
  | StHeader body =>
      String.eqb body "📅 Your Travel Itinerary"
      || String.eqb body "🌤️ Weather Information"
      || String.eqb body "📍 Recommended Places"
  | _ => false
  end.

Definition trace := list event.

Definition count (p : event -> bool) (t : trace) : nat :=
  List.length (List.filter p t).

(** Computations: started at a clock value (the number of events so far),
    they return a value or raise, and list the events they caused.  Events
    caused before an exception stay. *)
Definition M (A : Type) : Type := nat -> (exn + A) * trace.

Definition ret {A} (a : A) : M A := fun _ => (inr a, []).

Definition bind {A B} (c : M A) (f : A -> M B) : M B :=
  fun n =>
    match c n with
    | (inl e, t) => (inl e, t)
    | (inr a, t) =>
        let '(r, t') := f a (n + List.length t) in (r, (t ++ t')%list)
    end.

Definition raise {A} (e : exn) : M A := fun _ => (inl e, []).

(** [try: c  except Exception as e: h e] *)
Definition try_except {A} (c : M A) (h : exn -> M A) : M A :=
  fun n =>
    match c n with
    | (inl e, t) =>
        let '(r, t') := h e (n + List.length t) in (r, (t ++ t')%list)
    | (inr a, t) => (inr a, t)
    end.

Definition emit (e : event) : M unit := fun _ => (inr tt, [e]).

(** An outbound call: the event is recorded and the answer is the one the
    world gives at this point of the run. *)
Definition call {R} (e : event) (answer : nat -> R) : M R :=
  fun n => (inr (answer n), [e]).

(** Lifting a Python lookup that raises when the key or index is absent. *)
Definition lookup {A} (cls : exn_class) (key : string) (o : option A) : M A :=
  match o with
  | Some a => ret a
  | None => raise (Exn cls key)
  end.

Declare Scope py_scope.
Delimit Scope py_scope with py.
Notation "x <- c ;; k" := (bind c (fun x => k))
  (at level 61, c at next level, right associativity) : py_scope.
Notation "c ;; k" := (bind c (fun _ => k))
  (at level 61, right associativity) : py_scope.
Open Scope py_scope.

(** [for x in xs: body x] *)
Fixpoint for_each {A} (xs : list A) (body : A -> M unit) : M unit :=
  match xs with
  | [] => ret tt
  | x :: rest => body x ;; for_each rest body
  end.

Definition events_of {A} (c : M A) : trace := snd (c 0).
Definition result_of {A} (c : M A) : exn + A := fst (c 0).

(* ===================================================================== *)
(** ** The outside world *)
(* ===================================================================== *)

(** Payloads of the third-party APIs, as far as the code reads them.  An
    absent key is [None]; reading it with [d[k]] raises [KeyError]. *)

(** OpenAI chat completion: [response.choices], each with its
    [message.content]. *)
Definition openai_completion := list (option string).

(** Ollama [/api/chat]: [{"message": {"content": ...}}]. *)
Record ollama_message := { om_content : option pyval }.
Record ollama_chat := { oc_message : option ollama_message }.

(** Google geocoding: [result['geometry']['location']['lat' | 'lng']]. *)
Record gm_location := { gm_lat : option pyval; gm_lng : option pyval }.
Record gm_geometry := { gm_location_of : option gm_location }.
Record gm_geocode := { gm_geometry_of : option gm_geometry }.

(** Google nearby search: [{'results': [place, ...]}]. *)
Record gm_place := {
  gp_name : option pyval;
  gp_rating : option pyval;
  gp_vicinity : option pyval;
  gp_price_level : option pyval;
  gp_place_id : option pyval
}.
Record gm_nearby := { gn_results : option (list gm_place) }.

(** OpenWeather geocoding, current weather and forecast. *)
Record ow_geo := { og_lat : option pyval; og_lon : option pyval }.
Record ow_main := { owm_temp : option pyval; owm_humidity : option pyval }.
Record ow_condition := { owc_description : option pyval }.
Record ow_wind := { oww_speed : option pyval }.
Record ow_current := {
  ow_main_of : option ow_main;
  ow_weather_of : option (list ow_condition);
  ow_wind_of : option ow_wind
}.
Definition ow_forecast := string.

(** The environment and the remote services.  A remote answer may depend on
    the moment of the call (the clock) and on the request; the liveness
    probe of the local model is made once, when the registry is built.  Of
    the Python runtime the world holds what the code depends on and the
    embedding does not compute: [str.title] on text that is not ASCII, the
    largest [Py_ssize_t] ([sys.maxsize]), and whether a string of a given
    number of characters can be allocated at a given moment. *)
Record World := {
  getenv : string -> option string;
  openai_OpenAI : (string -> option string) -> string -> option exn;
  openai_chat_create : nat -> string -> string -> string -> exn + openai_completion;
  requests_get_tags : string -> http_result unit;
  requests_post_chat : nat -> string -> string -> string -> string -> http_result ollama_chat;
  googlemaps_Client : string -> option exn;
  gmaps_geocode : nat -> string -> exn + list gm_geocode;
  gmaps_places_nearby : nat -> pyval -> pyval -> string -> exn + gm_nearby;
  requests_get_geo : nat -> string -> http_result (list ow_geo);
  requests_get_weather : nat -> pyval -> pyval -> http_result ow_current;
  requests_get_forecast : nat -> pyval -> pyval -> http_result (option ow_forecast);
  (* the Python runtime *)
  unicode_title : string -> string;
  sys_maxsize : Z;
  allocates : nat -> Z -> bool
}.

(** [s.title()].  For ASCII text it is computed; for any other text it
    follows the Unicode character database, and is what the runtime gives. *)
Definition str_title (w : World) (s : string) : string :=
  if PyStr.is_ascii s then PyStr.title_ascii s else unicode_title w s.

(** [s * n] for a string [s] of one character.  A count that does not fit
    [Py_ssize_t] raises [OverflowError]; a count below one gives the empty
    string and the count one gives [s]; otherwise a string of [n] characters
    is allocated, which raises [MemoryError] when the runtime cannot. *)
Definition str_repeat (w : World) (s : string) (n : Z) : M string :=
  fun clock =>
    if (n <? - sys_maxsize w - 1)%Z || (sys_maxsize w <? n)%Z then
      (inl (Exn EOverflowError "cannot fit 'int' into an index-sized integer"), [])
    else if (n <? 1)%Z then (inr "", [])
    else if (n =? 1)%Z then (inr s, [])
    else if allocates w clock n then (inr (PyStr.repeat s n), [])
    else (inl (Exn EMemoryError ""), []).

(** [os.getenv(name, default)] *)
Definition getenv_default (w : World) (name default : string) : string :=
  match getenv w name with
  | Some v => v
  | None => default
  end.

(** [not api_key] for the result of [os.getenv]. *)
Definition key_falsy (api_key : option string) : bool :=
  match api_key with
  | None => true
  | Some k => negb (PyStr.truthy k)
  end.

(** Raising what a library call raised, or going on with its value. *)
Definition lift {A} (r : exn + A) : M A :=
  match r with
  | inl e => raise e
  | inr a => ret a
  end.

(** [requests.get(...)] / [requests.post(...)]: raises or gives a response;
    the response is its status, text and [.json()] outcome. *)
Definition response_of {A} (r : http_result A) : M (Z * string * (exn + A)) :=
  match r with
  | HttpRaised e => raise e
  | HttpResponse status text json => ret (status, text, json)
  end.

(** [xs[:limit]] *)
Definition slice_to {A} (xs : list A) (limit : Z) : list A :=
  if (0 <=? limit)%Z then firstn (Z.to_nat limit) xs
  else firstn (Z.to_nat (Z.of_nat (List.length xs) + limit)) xs.

(** [d.get(key, default)] on an optional field. *)
Definition get {A} (field : option A) (default : A) : A :=
  match field with
  | Some a => a
  | None => default
  end.

(* ===================================================================== *)
(** ** services/openai_service.py *)
(* ===================================================================== *)

Module OpenAIService.

Record t := { api_key : string; model : string }.

Definition placeholder : string := "your_openai_api_key_here".

Definition proxy_vars : list string :=
  ["HTTP_PROXY"; "HTTPS_PROXY"; "http_proxy"; "https_proxy"; "ALL_PROXY"; "all_proxy"].

(** The environment the client constructor sees: the proxy variables are
    deleted before it runs and put back in the [finally] clause. *)
Definition without_proxies (env : string -> option string) : string -> option string :=
  fun var => if existsb (String.eqb var) proxy_vars then None else env var.

(** [OpenAIService.__init__] *)
Definition init (w : World) : M t :=
  let api_key := getenv w "OPENAI_API_KEY" in
  if key_falsy api_key || String.eqb (get api_key "") placeholder then
    raise (Exn EValueError "OPENAI_API_KEY not found in environment variables")
  else
    try_except
      (match openai_OpenAI w (without_proxies (getenv w)) (get api_key "") with
       | Some e => raise e
       | None => ret {| api_key := get api_key ""; model := "gpt-3.5-turbo" |}
       end)
      (fun e => raise (Exn EValueError
                  ("Failed to initialize OpenAI client: " ++ exn_msg e))).

Definition interests_str (interests : list string) : string :=
  match interests with
  | [] => "general travel"
  | _ => PyStr.join ", " interests
  end.

Definition prompt (source destination start_date end_date : string)
    (duration : Z) (budget : string) (interests : list string)
    (travel_type : string) : string :=
  PyStr.join PyStr.nl
    [ "You are an expert travel planner. Create a detailed " ++ PyStr.of_Z duration
        ++ "-day travel itinerary for a trip from " ++ source ++ " to " ++ destination ++ ".";
      "";
      "Travel Details:";
      "- Travel Dates: " ++ start_date ++ " to " ++ end_date;
      "- Budget Level: " ++ budget;
      "- Interests: " ++ interests_str interests;
      "- Travel Type: " ++ travel_type;
      "";
      "Please provide a day-wise itinerary that includes:";
      "1. Daily schedule with time slots (morning, afternoon, evening)";
      "2. Specific activities and attractions to visit";
      "3. Estimated daily expenses in USD (based on " ++ budget ++ " budget)";
      "4. Food recommendations (breakfast, lunch, dinner) with local specialties";
      "5. Local travel tips";
      "6. Safety tips specific to " ++ destination;
      "";
      "Format the response clearly with:";
      "- Day 1, Day 2, etc. as headers";
      "- Use bullet points for activities";
      "- Keep it concise but informative";
      "- Make it practical and actionable";
      "";
      "Focus on authentic experiences that match the traveler's interests and budget level." ].

Definition system_prompt : string :=
  "You are a professional travel planner with expertise in creating detailed, practical, and budget-conscious itineraries.".

(** [OpenAIService.generate_itinerary] *)
Definition generate_itinerary (w : World) (self : t)
    (source destination start_date end_date : string) (duration : Z)
    (budget : string) (interests : list string) (travel_type : string) : M string :=
  let prompt := prompt source destination start_date end_date duration
                       budget interests travel_type in
  try_except
    (response <- call (OpenAIChat (model self) system_prompt prompt)
                      (fun n => openai_chat_create w n (model self) system_prompt prompt) ;;
     choices <- lift response ;;
     content <- lookup EIndexError "list index out of range" (hd_error choices) ;;
     text <- lookup EAttributeError "'NoneType' object has no attribute 'strip'" content ;;
     ret (PyStr.strip text))
    (fun e => raise (Exn EException ("Error generating itinerary: " ++ exn_msg e))).

End OpenAIService.

(* ===================================================================== *)
(** ** services/ollama_service.py *)
(* ===================================================================== *)

Module OllamaService.

Record t := { base_url : string; model : string }.

(** [OllamaService.__init__]: the liveness probe is a GET of
    [{base_url}/api/tags]; only [RequestException] is caught. *)
Definition init (w : World) : M t :=
  let base_url := getenv_default w "OLLAMA_BASE_URL" "http://localhost:11434" in
  let model := getenv_default w "OLLAMA_MODEL" "llama3.2" in
  try_except
    (got <- call (OllamaTags base_url)
                 (fun _ => requests_get_tags w (base_url ++ "/api/tags")) ;;
     response <- response_of got ;;
     let '(status_code, _, _) := response in
     if negb (status_code =? 200)%Z then
       raise (Exn EValueError ("Ollama server not responding at " ++ base_url))
     else ret tt)
    (fun e =>
       if is_RequestException e then
         raise (Exn EValueError
                  ("Cannot connect to Ollama at " ++ base_url
                   ++ ". Make sure Ollama is running: " ++ exn_msg e))
       else raise e) ;;
  ret {| base_url := base_url; model := model |}.

Definition interests_str (interests : list string) : string :=
  match interests with
  | [] => "general travel"
  | _ => PyStr.join ", " interests
  end.

Definition prompt (source destination start_date end_date : string)
    (duration : Z) (budget : string) (interests : list string)
    (travel_type : string) : string :=
  PyStr.join PyStr.nl
    [ "You are an expert travel planner. Create a detailed " ++ PyStr.of_Z duration
        ++ "-day travel itinerary for a trip from " ++ source ++ " to " ++ destination ++ ".";
      "";
      "Travel Details:";
      "- Travel Dates: " ++ start_date ++ " to " ++ end_date;
      "- Budget Level: " ++ budget;
      "- Interests: " ++ interests_str interests;
      "- Travel Type: " ++ travel_type;
      "";
      "Please provide a day-wise itinerary that includes:";
      "1. Daily schedule with time slots (morning, afternoon, evening)";
      "2. Specific activities and attractions to visit";
      "3. Estimated daily expenses in USD (based on " ++ budget ++ " budget)";
      "4. Food recommendations (breakfast, lunch, dinner) with local specialties";
      "5. Local travel tips";
      "6. Safety tips specific to " ++ destination;
      "";
      "Format the response clearly with:";
      "- Day 1, Day 2, etc. as headers";
      "- Use bullet points for activities";
      "- Keep it concise but informative";
      "- Make it practical and actionable";
      "";
      "Focus on authentic experiences that match the traveler's interests and budget level." ].

Definition system_prompt : string :=
  "You are a professional travel planner with expertise in creating detailed, practical, and budget-conscious itineraries.".

(** [OllamaService.generate_itinerary] *)
Definition generate_itinerary (w : World) (self : t)
    (source destination start_date end_date : string) (duration : Z)
    (budget : string) (interests : list string) (travel_type : string) : M string :=
  let prompt := prompt source destination start_date end_date duration
                       budget interests travel_type in
  try_except
    (got <- call (OllamaChat (base_url self) (model self) system_prompt prompt)
                 (fun n => requests_post_chat w n (base_url self ++ "/api/chat")
                             (model self) system_prompt prompt) ;;
     response <- response_of got ;;
     let '(status_code, text, json) := response in
     if negb (status_code =? 200)%Z then
       raise (Exn EException
                ("Ollama API error: " ++ PyStr.of_Z status_code ++ " - " ++ text))
     else
       result <- lift json ;;
       match get (om_content (get (oc_message result) {| om_content := None |}))
                 (PyStr "") with
       | PyStr content => ret (PyStr.strip content)
       | content => raise (no_attribute content "strip")
       end)
    (fun e =>
       if is_Timeout e then
         raise (Exn EException
                  "Ollama request timed out. The model might be too slow or not responding.")
       else if is_RequestException e then
         raise (Exn EException ("Error connecting to Ollama: " ++ exn_msg e))
       else
         raise (Exn EException ("Error generating itinerary: " ++ exn_msg e))).

End OllamaService.

(* ===================================================================== *)
(** ** services/places_service.py *)
(* ===================================================================== *)

Module PlacesService.

Record t := { client_key : string }.

Definition placeholder : string := "your_google_places_api_key_here".

(** A result dictionary, in insertion order. *)
Definition dict := list (string * pyval).

Fixpoint dict_get (d : dict) (key : string) : option pyval :=
  match d with
  | [] => None
  | (k, v) :: rest => if String.eqb k key then Some v else dict_get rest key
  end.

(** [PlacesService.__init__] *)
Definition init (w : World) : M t :=
  let api_key := getenv w "GOOGLE_PLACES_API_KEY" in
  if key_falsy api_key || String.eqb (get api_key "") placeholder then
    raise (Exn EValueError "GOOGLE_PLACES_API_KEY not found in environment variables")
  else
    try_except
      (match googlemaps_Client w (get api_key "") with
       | Some e => raise e
       | None => ret {| client_key := get api_key "" |}
       end)
      (fun e => raise (Exn EValueError
                  ("Failed to initialize Google Places client: " ++ exn_msg e))).

(** The entry built for an attraction or a cafe. *)
Definition plain_entry (place : gm_place) : dict :=
  [ ("name", get (gp_name place) (PyStr "Unknown"));
    ("rating", get (gp_rating place) (PyStr "N/A"));
    ("address", get (gp_vicinity place) (PyStr "Address not available"));
    ("place_id", get (gp_place_id place) (PyStr "")) ].

(** The entry built for a restaurant. *)
Definition restaurant_entry (place : gm_place) : dict :=
  [ ("name", get (gp_name place) (PyStr "Unknown"));
    ("rating", get (gp_rating place) (PyStr "N/A"));
    ("address", get (gp_vicinity place) (PyStr "Address not available"));
    ("price_level", get (gp_price_level place) (PyStr "N/A"));
    ("place_id", get (gp_place_id place) (PyStr "")) ].

(** The body the three search methods share: geocode, then a nearby
    search of the given type within 5 km ranked by prominence, all inside
    one [try] whose handler prints and returns the empty list. *)
Definition search (w : World) (self : t) (destination : string) (limit : Z)
    (type_ : string) (entry : gm_place -> dict) (what : string) : M (list dict) :=
  try_except
    (answer <- call (PlacesGeocode destination)
                    (fun n => gmaps_geocode w n destination) ;;
     geocode_result <- lift answer ;;
     match geocode_result with
     | [] => ret []
     | first :: _ =>
         geometry <- lookup EKeyError "'geometry'" (gm_geometry_of first) ;;
         location <- lookup EKeyError "'location'" (gm_location_of geometry) ;;
         lat <- lookup EKeyError "'lat'" (gm_lat location) ;;
         lng <- lookup EKeyError "'lng'" (gm_lng location) ;;
         answer <- call (PlacesNearby lat lng type_)
                        (fun n => gmaps_places_nearby w n lat lng type_) ;;
         places_result <- lift answer ;;
         ret (map entry (slice_to (get (gn_results places_result) []) limit))
     end)
    (fun e =>
       emit (Print ("Error fetching " ++ what ++ ": " ++ exn_msg e)) ;;
       ret []).

(** [PlacesService.get_attractions] *)
Definition get_attractions (w : World) (self : t) (destination : string)
    (limit : Z) : M (list dict) :=
  search w self destination limit "tourist_attraction" plain_entry "attractions".

(** [PlacesService.get_restaurants] *)
Definition get_restaurants (w : World) (self : t) (destination : string)
    (limit : Z) : M (list dict) :=
  search w self destination limit "restaurant" restaurant_entry "restaurants".

(** [PlacesService.get_cafes] *)
Definition get_cafes (w : World) (self : t) (destination : string)
    (limit : Z) : M (list dict) :=
  search w self destination limit "cafe" plain_entry "cafes".

(** The three categories of the geo-enrichment client. *)
Inductive category := Attraction | Restaurant | Cafe.

Definition get_by (c : category) :
    World -> t -> string -> Z -> M (list dict) :=
  match c with
  | Attraction => get_attractions
  | Restaurant => get_restaurants
  | Cafe => get_cafes
  end.

End PlacesService.

(* ===================================================================== *)
(** ** services/weather_service.py *)
(* ===================================================================== *)

Module WeatherService.

Record t := { api_key : option string; base_url : string }.

(** The dictionaries [get_weather_summary] builds and
    [format_weather_summary] reads; an absent key is [None]. *)
Record current_dict := {
  temperature : option pyval;
  description : option pyval;
  humidity : option pyval;
  wind_speed : option pyval
}.

Record weather_dict := {
  current : option current_dict;
  forecast : option (option ow_forecast);
  location : option pyval
}.

Definition empty_current : current_dict :=
  {| temperature := None; description := None; humidity := None; wind_speed := None |}.

(** [not weather_data]: [None] or the empty dictionary. *)
Definition falsy (weather_data : option weather_dict) : bool :=
  match weather_data with
  | None => true
  | Some d =>
      match current d, forecast d, location d with
      | None, None, None => true
      | _, _, _ => false
      end
  end.

(** [WeatherService.__init__] *)
Definition init (w : World) : M t :=
  ret {| api_key := getenv w "OPENWEATHER_API_KEY";
         base_url := "http://api.openweathermap.org/data/2.5" |}.

(** [WeatherService.get_weather_summary]; the two dates are not read. *)
Definition get_weather_summary (w : World) (self : t) (destination : string)
    (start_date end_date : Z) : M (option weather_dict) :=
  if key_falsy (api_key self) then ret None
  else
    try_except
      (got <- call (WeatherGeocode destination)
                   (fun n => requests_get_geo w n destination) ;;
       geocode_response <- response_of got ;;
       let '(geo_status, _, geo_json) := geocode_response in
       if negb (geo_status =? 200)%Z then ret None
       else
         geocode_data <- lift geo_json ;;
         match geocode_data with
         | [] => ret None
         | first :: _ =>
             lat <- lookup EKeyError "'lat'" (og_lat first) ;;
             lon <- lookup EKeyError "'lon'" (og_lon first) ;;
             got <- call (WeatherCurrent lat lon)
                         (fun n => requests_get_weather w n lat lon) ;;
             weather_response <- response_of got ;;
             let '(weather_status, _, weather_json) := weather_response in
             if negb (weather_status =? 200)%Z then ret None
             else
               weather_data <- lift weather_json ;;
               got <- call (WeatherForecast lat lon)
                           (fun n => requests_get_forecast w n lat lon) ;;
               forecast_response <- response_of got ;;
               let '(forecast_status, _, forecast_json) := forecast_response in
               forecast_data <-
                 (if (forecast_status =? 200)%Z then lift forecast_json
                  else ret None) ;;
               main <- lookup EKeyError "'main'" (ow_main_of weather_data) ;;
               temp <- lookup EKeyError "'temp'" (owm_temp main) ;;
               conditions <- lookup EKeyError "'weather'" (ow_weather_of weather_data) ;;
               condition <- lookup EIndexError "list index out of range"
                                   (hd_error conditions) ;;
               descr <- lookup EKeyError "'description'" (owc_description condition) ;;
               humid <- lookup EKeyError "'humidity'" (owm_humidity main) ;;
               ret (Some
                 {| current := Some
                      {| temperature := Some temp;
                         description := Some descr;
                         humidity := Some humid;
                         wind_speed :=
                           Some (get (oww_speed (get (ow_wind_of weather_data)
                                                     {| oww_speed := None |}))
                                     (PyInt 0)) |};
                    forecast := Some forecast_data;
                    location := Some (PyStr destination) |})
         end)
      (fun e =>
         emit (Print ("Error fetching weather: " ++ exn_msg e)) ;;
         ret None).

(** [v.title()] on a value read from the dictionary: only a string has
    the method. *)
Definition py_title (w : World) (v : pyval) : M string :=
  match v with
  | PyStr s => ret (str_title w s)
  | _ => raise (no_attribute v "title")
  end.

(** [WeatherService.format_weather_summary] *)
Definition format_weather_summary (w : World) (weather_data : option weather_dict) : M string :=
  if falsy weather_data then ret "Weather information unavailable."
  else
    let d := get weather_data {| current := None; forecast := None; location := None |} in
    let current := get (current d) empty_current in
    let location := get (location d) (PyStr "Unknown") in
    let summary := "**Weather in " ++ py_str location ++ ":**" ++ PyStr.nl ++ PyStr.nl in
    let summary := summary ++ "ğŸŒ¡ï¸ Temperature: "
                     ++ py_str (get (temperature current) (PyStr "N/A")) ++ "Â°C" ++ PyStr.nl in
    conditions <- py_title w (get (description current) (PyStr "N/A")) ;;
    let summary := summary ++ "â˜ï¸ Conditions: " ++ conditions ++ PyStr.nl in
    let summary := summary ++ "ğŸ’§ Humidity: "
                     ++ py_str (get (humidity current) (PyStr "N/A")) ++ "%" ++ PyStr.nl in
    let summary := summary ++ "ğŸ’¨ Wind Speed: "
                     ++ py_str (get (wind_speed current) (PyStr "N/A")) ++ " m/s" ++ PyStr.nl in
    ret summary.

End WeatherService.

(* ===================================================================== *)
(** ** app.py *)
(* ===================================================================== *)

Module App.

(** [utils.helpers] is imported by app.py; its three functions that [main]
    calls are taken as parameters.  A date is its day number. *)
Record Helpers := {
  calculate_trip_duration : Z -> Z -> Z;
  format_date : Z -> string;
  validate_dates : Z -> Z -> bool * string
}.

(** Modelled from the spec: [validate_dates] of utils/helpers.py, which is
    not among the sources.  The data model states the invariant "end date
    >= start date (enforced before any provider call)" and the error
    taxonomy asks for a message naming the violated constraint. *)
Definition validate_dates_spec (start_dt end_dt : Z) : bool * string :=
  if (end_dt <? start_dt)%Z
  then (false, "End date must not be before start date.")
  else (true, "").

(** Modelled from the spec: [calculate_trip_duration] of utils/helpers.py,
    "duration = inclusive day count derived from the date pair". *)
Definition calculate_trip_duration_spec (start_dt end_dt : Z) : Z :=
  (end_dt - start_dt + 1)%Z.

(** The [services] dictionary: its four keys are always set. *)
Record Services := {
  openai : option OpenAIService.t;
  ollama : option OllamaService.t;
  places : option PlacesService.t;
  weather : option WeatherService.t
}.

Definition truthy {A} (o : option A) : bool :=
  match o with Some _ => true | None => false end.

(** One [try: services[k] = ctor()  except ...: errors.append(..);
    services[k] = None] block. *)
Definition attempt {A} (ctor : M A) (describe : exn -> string)
    (errors : list string) : M (option A * list string) :=
  try_except
    (s <- ctor ;; ret (Some s, errors))
    (fun e => ret (None, (errors ++ [describe e])%list)).

Definition describe_openai (e : exn) : string :=
  if is_ValueError e then
    let error_msg := exn_msg e in
    if PyStr.contains "not found" error_msg
       || PyStr.contains "your_openai_api_key_here" error_msg
    then "OpenAI: API key not configured. Please add your OPENAI_API_KEY to the .env file."
    else "OpenAI: " ++ error_msg
  else "OpenAI: " ++ exn_msg e.

Definition describe_ollama (e : exn) : string :=
  if is_ValueError e then
    let error_msg := exn_msg e in
    if PyStr.contains "Cannot connect" error_msg
       || PyStr.contains "not responding" error_msg
    then "Ollama: " ++ error_msg
    else "Ollama: " ++ error_msg
  else "Ollama: " ++ exn_msg e.

Definition describe_places (e : exn) : string :=
  if is_ValueError e then
    let error_msg := exn_msg e in
    if PyStr.contains "not found" error_msg
       || PyStr.contains "your_google_places_api_key_here" error_msg
    then "Google Places: API key not configured. Please add your GOOGLE_PLACES_API_KEY to the .env file."
    else "Google Places: " ++ error_msg
  else "Google Places: " ++ exn_msg e.

(** [initialize_services] *)
Definition initialize_services (w : World) : M (Services * list string) :=
  let errors : list string := [] in
  r <- attempt (OpenAIService.init w) describe_openai errors ;;
  let '(openai, errors) := r in
  r <- attempt (OllamaService.init w) describe_ollama errors ;;
  let '(ollama, errors) := r in
  r <- attempt (PlacesService.init w) describe_places errors ;;
  let '(places, errors) := r in
  weather <- try_except (s <- WeatherService.init w ;; ret (Some s))
                        (fun _ => ret None) ;;
  ret ({| openai := openai; ollama := ollama; places := places; weather := weather |},
       errors).

(** *** The itinerary formatter (the display part of [main]) *)

(** The check behind [has_day_markers]. *)
Definition is_day_marker (line : string) : bool :=
  let l := PyStr.strip (PyStr.lower line) in
  PyStr.startswith l "day " || PyStr.startswith l "**day " || PyStr.startswith l "# day ".

Definition has_day_markers (lines : list string) : bool :=
  existsb is_day_marker lines.

(** The check made on each line while splitting. *)
Definition starts_section (line : string) : bool :=
  let line_lower := PyStr.strip (PyStr.lower line) in
  PyStr.startswith line_lower "day "
  || PyStr.startswith line_lower "**day "
  || PyStr.startswith line_lower "# day "
  || (PyStr.startswith (PyStr.strip line) "#" && PyStr.contains "day" line_lower).

(** The label made from a header line. *)
Definition section_label (line : string) : string :=
  PyStr.strip (PyStr.replace (PyStr.replace (PyStr.strip line) "#" "") "**" "").

(** The splitting loop: [current_day], [current_content] and the
    expanders drawn so far. *)
Fixpoint split_days (lines : list string) (current_day : option string)
    (current_content : list string) : list event :=
  match lines with
  | [] =>
      match current_day with
      | Some day =>
          if PyStr.truthy day
          then [StExpander day (PyStr.join PyStr.nl current_content)]
          else []
      | None => []
      end
  | line :: rest =>
      if starts_section line then
        (match current_day with
         | Some day => [StExpander day (PyStr.join PyStr.nl current_content)]
         | None => []
         end ++ split_days rest (Some (section_label line)) [])%list
      else
        match current_day with
        | None => split_days rest (Some "Overview") (current_content ++ [line])%list
        | Some day => split_days rest (Some day) (current_content ++ [line])%list
        end
  end.

(** What is drawn for an itinerary text. *)
Definition show_itinerary (itinerary_text : string) : list event :=
  let lines := PyStr.split_nl itinerary_text in
  if has_day_markers lines then split_days lines None []
  else [StMarkdown itinerary_text].

(** The sections of an itinerary as (label, body) pairs, for the texts
    that are split. *)
Definition sections_of (t : list event) : list (string * string) :=
  flat_map (fun e => match e with
                     | StExpander label body => [(label, body)]
                     | _ => []
                     end) t.

Definition emit_all (t : list event) : M unit := for_each t emit.

(** *** [main] *)

(** The values the widgets return in one run of the script. *)
Record Inputs := {
  source : string;
  destination : string;
  start_date : Z;
  end_date : Z;
  budget : string;
  interests : list string;
  travel_type : string;
  radio_choice : nat;
  generate_button : bool
}.

Definition no_service_warning : string :=
  "No AI service available. Please configure OpenAI or start Ollama.".
Definition no_service_error : string :=
  "❌ No AI service available. Please configure OpenAI or start Ollama.".
Definition missing_city_error : string :=
  "❌ Please fill in both source and destination cities.".

(** The options offered by the radio button. *)
Definition ai_service_options (services : Services) : list string :=
  ((if truthy (ollama services) then ["Ollama (Local)"] else [])
   ++ (if truthy (openai services) then ["OpenAI"] else []))%list.

(** [st.radio(label, options, index)]: the option the user picked, the
    one at [index] when nothing else was picked. *)
Definition st_radio (options : list string) (index choice : nat) : string :=
  nth choice options (nth index options "").

(** The sidebar; it returns [ai_service]. *)
Definition sidebar (services : Services) (inp : Inputs) : M (option string) :=
  emit (StHeader "📝 Trip Details") ;;
  emit (StMarkdown "---") ;;
  emit (StSubheader "🤖 AI Service") ;;
  let options := ai_service_options services in
  match options with
  | [] => emit (StWarning no_service_warning) ;; ret None
  | _ =>
      let default_index := 0 in
      let default_index :=
        if existsb (String.eqb "Ollama (Local)") options then 0 else default_index in
      ret (Some (st_radio options default_index (radio_choice inp)))
  end.

(** The provider object picked for a run. *)
Inductive provider :=
| Local (s : OllamaService.t)
| Hosted (s : OpenAIService.t).

Definition generate_with (w : World) (p : provider)
    (source destination start_date end_date : string) (duration : Z)
    (budget : string) (interests : list string) (travel_type : string) : M string :=
  match p with
  | Local s => OllamaService.generate_itinerary w s source destination
                 start_date end_date duration budget interests travel_type
  | Hosted s => OpenAIService.generate_itinerary w s source destination
                  start_date end_date duration budget interests travel_type
  end.

(** [d[key]] *)
Definition item (d : PlacesService.dict) (key : string) : M pyval :=
  lookup EKeyError key (PlacesService.dict_get d key).

Definition rating_str (d : PlacesService.dict) : string :=
  let rating := get (PlacesService.dict_get d "rating") (PyStr "N/A") in
  if py_ne_str rating "N/A" then "⭐ " ++ py_str rating else "".

(** ["💰" * price_level if isinstance(price_level, int) else ""]; a
    [bool] is an [int]. *)
Definition price_str (w : World) (d : PlacesService.dict) : M string :=
  match get (PlacesService.dict_get d "price_level") (PyStr "") with
  | PyInt n => str_repeat w "💰" n
  | PyBool b => str_repeat w "💰" (if b then 1 else 0)
  | _ => ret ""
  end.

Definition show_plain (d : PlacesService.dict) : M unit :=
  name <- item d "name" ;;
  emit (StMarkdown ("**" ++ py_str name ++ "** " ++ rating_str d)) ;;
  address <- item d "address" ;;
  emit (StCaption ("📍 " ++ py_str address)).

Definition show_restaurant (w : World) (d : PlacesService.dict) : M unit :=
  price <- price_str w d ;;
  name <- item d "name" ;;
  emit (StMarkdown ("**" ++ py_str name ++ "** " ++ rating_str d ++ " " ++ price)) ;;
  address <- item d "address" ;;
  emit (StCaption ("📍 " ++ py_str address)).

Definition show_list (title : string) (found : list PlacesService.dict)
    (show : PlacesService.dict -> M unit) : M unit :=
  match found with
  | [] => ret tt
  | _ => emit (StSubheader title) ;; for_each found show
  end.

(** The weather block of [main]. *)
Definition show_weather (w : World) (services : Services)
    (destination : string) (start_dt end_dt : Z) : M unit :=
  match weather services with
  | Some ws =>
      if negb (key_falsy (WeatherService.api_key ws)) then
        emit (StMarkdown "---") ;;
        emit (StHeader "🌤️ Weather Information") ;;
        emit (StSpinner "Fetching weather data...") ;;
        weather_data <- WeatherService.get_weather_summary w ws destination start_dt end_dt ;;
        if negb (WeatherService.falsy weather_data) then
          weather_summary <- WeatherService.format_weather_summary w weather_data ;;
          emit (StMarkdown weather_summary)
        else ret tt
      else ret tt
  | None => ret tt
  end.

(** The places block of [main]. *)
Definition show_places (w : World) (services : Services) (destination : string) : M unit :=
  match places services with
  | Some ps =>
      emit (StMarkdown "---") ;;
      emit (StHeader "📍 Recommended Places") ;;
      emit (StSpinner "Fetching places recommendations...") ;;
      attractions <- PlacesService.get_attractions w ps destination 5 ;;
      show_list "🏛️ Top Attractions" attractions show_plain ;;
      restaurants <- PlacesService.get_restaurants w ps destination 5 ;;
      show_list "🍽️ Top Restaurants" restaurants (show_restaurant w) ;;
      cafes <- PlacesService.get_cafes w ps destination 5 ;;
      show_list "☕ Top Cafes" cafes show_plain
  | None => ret tt
  end.

(** The body of [if generate_button:]. *)
Definition generate (w : World) (h : Helpers) (services : Services)
    (ai_service : option string) (inp : Inputs) : M unit :=
  if negb (PyStr.truthy (source inp)) || negb (PyStr.truthy (destination inp)) then
    emit (StError missing_city_error)
  else
    let start_dt := start_date inp in
    let end_dt := end_date inp in
    let '(is_valid, error_msg) := validate_dates h start_dt end_dt in
    if negb is_valid then emit (StError ("❌ " ++ error_msg))
    else
      match ai_service with
      | None => emit (StError no_service_error)
      | Some chosen =>
          if negb (PyStr.truthy chosen) then emit (StError no_service_error)
          else
            let '(ai_service_obj, service_name) :=
              if String.eqb chosen "Ollama (Local)"
              then (option_map Local (ollama services), "Ollama")
              else (option_map Hosted (openai services), "OpenAI") in
            match ai_service_obj with
            | None =>
                emit (StError ("❌ " ++ service_name
                               ++ " service is not available. Please check your configuration."))
            | Some obj =>
                let duration := calculate_trip_duration h start_dt end_dt in
                emit (StSuccess ("✅ Planning a " ++ PyStr.of_Z duration ++ "-day trip from "
                                 ++ source inp ++ " to " ++ destination inp
                                 ++ " using " ++ service_name)) ;;
                emit (StSpinner ("🤖 " ++ service_name
                                 ++ " is generating your personalized itinerary...")) ;;
                generated <-
                  try_except
                    (itinerary <- generate_with w obj (source inp) (destination inp)
                                    (format_date h start_dt) (format_date h end_dt)
                                    duration (budget inp) (interests inp) (travel_type inp) ;;
                     ret (Some itinerary))
                    (fun e =>
                       emit (StError ("❌ Error generating itinerary: " ++ exn_msg e)) ;;
                       ret None) ;;
                match generated with
                | None => ret tt
                | Some itinerary =>
                    emit (StMarkdown "---") ;;
                    emit (StHeader "📅 Your Travel Itinerary") ;;
                    emit_all (show_itinerary itinerary) ;;
                    show_weather w services (destination inp) start_dt end_dt ;;
                    show_places w services (destination inp)
                end
            end
      end.

Definition how_it_works : string :=
  PyStr.join PyStr.nl
    [ "";
      "            **AI Travel Planner** helps you create personalized travel itineraries:";
      "            ";
      "            1. **Enter your trip details** in the sidebar:";
      "               - Source and destination cities";
      "               - Travel dates";
      "               - Budget level";
      "               - Your interests";
      "               - Travel type";
      "            ";
      "            2. **Click " ++ PyStr.dq ++ "Generate Itinerary" ++ PyStr.dq
        ++ "** to create your personalized plan";
      "            ";
      "            3. **Get comprehensive recommendations**:";
      "               - Day-wise detailed schedule";
      "               - Estimated expenses";
      "               - Food suggestions";
      "               - Top attractions, restaurants, and cafes";
      "               - Weather information";
      "               - Local tips and safety advice";
      "            ";
      "            The AI considers your preferences, budget, and travel style to create the perfect itinerary for you!";
      "            " ].

(** The [else] branch: the welcome message. *)
Definition welcome : M unit :=
  emit (StInfo "👈 Fill in the trip details in the sidebar and click 'Generate Itinerary' to get started!") ;;
  emit (StExpander "📖 How it works" how_it_works).

(** [main] up to the test of [generate_button]: the page header, the
    registry, the warnings for the services that failed, the sidebar. *)
Definition prelude (w : World) (inp : Inputs) : M (Services * option string) :=
  emit (StMarkdown ("<p class=" ++ PyStr.dq ++ "main-header" ++ PyStr.dq
                    ++ ">✈️ AI Travel Planner</p>")) ;;
  emit (StMarkdown ("<p class=" ++ PyStr.dq ++ "sub-header" ++ PyStr.dq
                    ++ ">Generate personalized travel itineraries powered by AI</p>")) ;;
  registry <- initialize_services w ;;
  let '(services, service_errors) := registry in
  match service_errors with
  | [] => ret tt
  | _ =>
      emit (StWarning "⚠️ Some services are unavailable. Please check your API keys in the .env file.") ;;
      for_each service_errors (fun error => emit (StError error))
  end ;;
  ai_service <- sidebar services inp ;;
  ret (services, ai_service).

(** [main] *)
Definition main (w : World) (h : Helpers) (inp : Inputs) : M unit :=
  before <- prelude w inp ;;
  let '(services, ai_service) := before in
  if generate_button inp then generate w h services ai_service inp
  else welcome.

End App.

(* ===================================================================== *)
(** ** Vocabulary of the statements *)
(* ===================================================================== *)

(** [sub] occurs in [s]. *)
Definition occurs_in (sub s : string) : Prop :=
  exists before after, s = before ++ sub ++ after.

(** The itinerary texts used as examples. *)
Module Texts.

Definition two_days : string :=
  "Day 1" ++ PyStr.nl ++ "Visit museum" ++ PyStr.nl
  ++ "Day 2" ++ PyStr.nl ++ "Relax at beach".

Definition coast : string := "A lovely single-day trip to the coast.".

Definition holiday : string := "Day 1" ++ PyStr.nl ++ "# Holiday tips".

End Texts.

(** *** The registry and the part of a run that precedes the button *)

(** The base URL the local client probes. *)
Definition probe_url (w : World) : string :=
  getenv_default w "OLLAMA_BASE_URL" "http://localhost:11434".

(** The slot a constructor fills. *)
Definition slot {S} (r : (exn + S) * trace) : option S :=
  match fst r with
  | inr s => Some s
  | inl _ => None
  end.

(** What a failed constructor adds to the list of errors. *)
Definition complaint {S} (describe : exn -> string) (r : (exn + S) * trace) : list string :=
  match fst r with
  | inr _ => []
  | inl e => [describe e]
  end.

Definition registry_services (w : World) : App.Services :=
  {| App.openai := slot (OpenAIService.init w 0);
     App.ollama := slot (OllamaService.init w 0);
     App.places := slot (PlacesService.init w 0);
     App.weather := slot (WeatherService.init w 0) |}.

Definition registry_errors (w : World) : list string :=
  (complaint App.describe_openai (OpenAIService.init w 0)
   ++ complaint App.describe_ollama (OllamaService.init w 0)
   ++ complaint App.describe_places (PlacesService.init w 0))%list.

Definition page_header : trace :=
  [ StMarkdown ("<p class=" ++ PyStr.dq ++ "main-header" ++ PyStr.dq
                ++ ">✈️ AI Travel Planner</p>");
    StMarkdown ("<p class=" ++ PyStr.dq ++ "sub-header" ++ PyStr.dq
                ++ ">Generate personalized travel itineraries powered by AI</p>") ].

Definition service_warnings (errors : list string) : trace :=
  match errors with
  | [] => []
  | _ => StWarning "⚠️ Some services are unavailable. Please check your API keys in the .env file."
         :: map StError errors
  end.

Definition sidebar_events (services : App.Services) : trace :=
  ([ StHeader "📝 Trip Details"; StMarkdown "---"; StSubheader "🤖 AI Service" ]
   ++ match App.ai_service_options services with
      | [] => [StWarning App.no_service_warning]
      | _ => []
      end)%list.

(** The value of [ai_service] after the sidebar. *)
Definition picked (services : App.Services) (inp : App.Inputs) : option string :=
  match App.ai_service_options services with
  | [] => None
  | options => Some (App.st_radio options 0 (App.radio_choice inp))
  end.

(** Everything a run of [main] causes before it looks at the button. *)
Definition prelude_events (w : World) : trace :=
  (page_header ++ [OllamaTags (probe_url w)]
   ++ service_warnings (registry_errors w)
   ++ sidebar_events (registry_services w))%list.


(** *** Sample worlds, helpers and inputs *)

Module Samples.

(** The runtime of the sample worlds is a 64-bit one in which a string of
    up to a million characters can be allocated; their texts are ASCII, so
    that [unicode_title] is not reached. *)

Definition refused : exn := Exn EConnection "connection refused".
Definition timed_out : exn := Exn ETimeout "read timed out".

(** No credential is set and nothing can be reached. *)
Definition offline : World := {|
  getenv := fun _ => None;
  openai_OpenAI := fun _ _ => None;
  openai_chat_create := fun _ _ _ _ => inl refused;
  requests_get_tags := fun _ => HttpRaised refused;
  requests_post_chat := fun _ _ _ _ _ => HttpRaised refused;
  googlemaps_Client := fun _ => None;
  gmaps_geocode := fun _ _ => inl refused;
  gmaps_places_nearby := fun _ _ _ _ => inl refused;
  requests_get_geo := fun _ _ => HttpRaised refused;
  requests_get_weather := fun _ _ _ => HttpRaised refused;
  requests_get_forecast := fun _ _ _ => HttpRaised refused;
  unicode_title := fun s => s;
  sys_maxsize := 9223372036854775807;
  allocates := fun _ n => (n <=? 1000000)%Z
|}.

(** The .env file still holds the placeholder of the template; the local
    model answers its probe. *)
Definition placeholder_env : World := {|
  getenv := fun name =>
    if String.eqb name "OPENAI_API_KEY" then Some "your_openai_api_key_here" else None;
  openai_OpenAI := fun _ _ => None;
  openai_chat_create := fun _ _ _ _ => inl refused;
  requests_get_tags := fun _ => HttpResponse 200 "{}" (inr tt);
  requests_post_chat := fun _ _ _ _ _ => HttpRaised timed_out;
  googlemaps_Client := fun _ => None;
  gmaps_geocode := fun _ _ => inl refused;
  gmaps_places_nearby := fun _ _ _ _ => inl refused;
  requests_get_geo := fun _ _ => HttpRaised refused;
  requests_get_weather := fun _ _ _ => HttpRaised refused;
  requests_get_forecast := fun _ _ _ => HttpRaised refused;
  unicode_title := fun s => s;
  sys_maxsize := 9223372036854775807;
  allocates := fun _ n => (n <=? 1000000)%Z
|}.

Definition paris : ow_geo :=
  {| og_lat := Some (PyFloat "48.8589"); og_lon := Some (PyFloat "2.32") |}.

Definition mild : ow_current :=
  {| ow_main_of := Some {| owm_temp := Some (PyFloat "18.4");
                           owm_humidity := Some (PyInt 62) |};
     ow_weather_of := Some [ {| owc_description := Some (PyStr "light rain") |} ];
     ow_wind_of := Some {| oww_speed := Some (PyFloat "3.6") |} |}.

(** Weather credential set; geocoding and current conditions answer; the
    forecast request answers as given. *)
Definition weather_world (forecast : http_result (option ow_forecast)) : World := {|
  getenv := fun name =>
    if String.eqb name "OPENWEATHER_API_KEY" then Some "owm-key" else None;
  openai_OpenAI := fun _ _ => None;
  openai_chat_create := fun _ _ _ _ => inl refused;
  requests_get_tags := fun _ => HttpRaised refused;
  requests_post_chat := fun _ _ _ _ _ => HttpRaised refused;
  googlemaps_Client := fun _ => None;
  gmaps_geocode := fun _ _ => inr [];
  gmaps_places_nearby := fun _ _ _ _ => inl refused;
  requests_get_geo := fun _ _ => HttpResponse 200 "[...]" (inr [paris]);
  requests_get_weather := fun _ _ _ => HttpResponse 200 "{...}" (inr mild);
  requests_get_forecast := fun _ _ _ => forecast;
  unicode_title := fun s => s;
  sys_maxsize := 9223372036854775807;
  allocates := fun _ n => (n <=? 1000000)%Z
|}.

Definition forecast_times_out : World := weather_world (HttpRaised timed_out).

Definition forecast_unavailable : World :=
  weather_world (HttpResponse 503 "Service Unavailable" (inl (Exn EValueError "no JSON"))).

Definition weather_client : WeatherService.t :=
  {| WeatherService.api_key := Some "owm-key";
     WeatherService.base_url := "http://api.openweathermap.org/data/2.5" |}.

Definition weather_client_without_key : WeatherService.t :=
  {| WeatherService.api_key := None;
     WeatherService.base_url := "http://api.openweathermap.org/data/2.5" |}.

Definition places_client : PlacesService.t := {| PlacesService.client_key := "AIza-key" |}.

Definition louvre : gm_geocode :=
  {| gm_geometry_of :=
       Some {| gm_location_of :=
                 Some {| gm_lat := Some (PyFloat "48.8606");
                         gm_lng := Some (PyFloat "2.3376") |} |} |}.

(** Geocoding answers; the nearby search fails. *)
Definition nearby_fails : World := {|
  getenv := fun _ => None;
  openai_OpenAI := fun _ _ => None;
  openai_chat_create := fun _ _ _ _ => inl refused;
  requests_get_tags := fun _ => HttpRaised refused;
  requests_post_chat := fun _ _ _ _ _ => HttpRaised refused;
  googlemaps_Client := fun _ => None;
  gmaps_geocode := fun _ _ => inr [louvre];
  gmaps_places_nearby := fun _ _ _ _ => inl timed_out;
  requests_get_geo := fun _ _ => HttpRaised refused;
  requests_get_weather := fun _ _ _ => HttpRaised refused;
  requests_get_forecast := fun _ _ _ => HttpRaised refused;
  unicode_title := fun s => s;
  sys_maxsize := 9223372036854775807;
  allocates := fun _ n => (n <=? 1000000)%Z
|}.

Definition bistro : gm_place :=
  {| gp_name := Some (PyStr "Chez Janou");
     gp_rating := Some (PyFloat "4.5");
     gp_vicinity := Some (PyStr "2 Rue Roger Verlomme, Paris");
     gp_price_level := Some (PyInt 2);
     gp_place_id := Some (PyStr "ChIJ-bistro") |}.

(** The local model, the places client and the weather client are
    configured and answer; the hosted model has no key and the forecast is
    out of service. *)
Definition all_up : World := {|
  getenv := fun name =>
    if String.eqb name "OPENWEATHER_API_KEY" then Some "owm-key"
    else if String.eqb name "GOOGLE_PLACES_API_KEY" then Some "AIza-key"
    else None;
  openai_OpenAI := fun _ _ => None;
  openai_chat_create := fun _ _ _ _ => inl refused;
  requests_get_tags := fun _ => HttpResponse 200 "{}" (inr tt);
  requests_post_chat := fun _ _ _ _ _ =>
    HttpResponse 200 "{...}"
      (inr {| oc_message := Some {| om_content := Some (PyStr Texts.two_days) |} |});
  googlemaps_Client := fun _ => None;
  gmaps_geocode := fun _ _ => inr [louvre];
  gmaps_places_nearby := fun _ _ _ type_ =>
    if String.eqb type_ "restaurant" then inr {| gn_results := Some [bistro] |}
    else inr {| gn_results := None |};
  requests_get_geo := fun _ _ => HttpResponse 200 "[...]" (inr [paris]);
  requests_get_weather := fun _ _ _ => HttpResponse 200 "{...}" (inr mild);
  requests_get_forecast := fun _ _ _ =>
    HttpResponse 503 "Service Unavailable" (inl (Exn EValueError "no JSON"));
  unicode_title := fun s => s;
  sys_maxsize := 9223372036854775807;
  allocates := fun _ n => (n <=? 1000000)%Z
|}.

Definition helpers : App.Helpers := {|
  App.calculate_trip_duration := App.calculate_trip_duration_spec;
  App.format_date := PyStr.of_Z;
  App.validate_dates := App.validate_dates_spec
|}.

Definition trip : App.Inputs := {|
  App.source := "New York";
  App.destination := "Paris, France";
  App.start_date := 739000;
  App.end_date := 739007;
  App.budget := "medium";
  App.interests := ["culture"; "food"];
  App.travel_type := "solo";
  App.radio_choice := 0;
  App.generate_button := true
|}.

Definition trip_without_source : App.Inputs := {|
  App.source := "";
  App.destination := "Paris, France";
  App.start_date := 739000;
  App.end_date := 739007;
  App.budget := "medium";
  App.interests := ["culture"; "food"];
  App.travel_type := "solo";
  App.radio_choice := 0;
  App.generate_button := true
|}.

Definition trip_backwards : App.Inputs := {|
  App.source := "New York";
  App.destination := "Paris, France";
  App.start_date := 739007;
  App.end_date := 739000;
  App.budget := "medium";
  App.interests := ["culture"; "food"];
  App.travel_type := "solo";
  App.radio_choice := 0;
  App.generate_button := true
|}.

Definition partial_summary : WeatherService.weather_dict := {|
  WeatherService.current :=
    Some {| WeatherService.temperature := None;
            WeatherService.description := None;
            WeatherService.humidity := Some (PyInt 62);
            WeatherService.wind_speed := None |};
  WeatherService.forecast := Some None;
  WeatherService.location := Some (PyStr "Paris")
|}.

End Samples.

(** *** Reading the answers of the places and weather services *)

(** The [type] a category is searched with. *)
Definition place_type (c : PlacesService.category) : string :=
  match c with
  | PlacesService.Attraction => "tourist_attraction"
  | PlacesService.Restaurant => "restaurant"
  | PlacesService.Cafe => "cafe"
  end.

(** The word a category's error message is printed with. *)
Definition place_label (c : PlacesService.category) : string :=
  match c with
  | PlacesService.Attraction => "attractions"
  | PlacesService.Restaurant => "restaurants"
  | PlacesService.Cafe => "cafes"
  end.

(** The coordinate pair of a geocoding result, when all its keys are there. *)
Definition coordinates (g : gm_geocode) : option (pyval * pyval) :=
  match gm_geometry_of g with
  | Some geometry =>
      match gm_location_of geometry with
      | Some location =>
          match gm_lat location, gm_lng location with
          | Some lat, Some lng => Some (lat, lng)
          | _, _ => None
          end
      | None => None
      end
  | None => None
  end.

(** A geocoding attempt of the weather client that does not give a
    coordinate pair: the request raises, the status is not 200, the body is
    not JSON, the list is empty or its first entry lacks a key. *)
Definition weather_geocode_fails (r : http_result (list ow_geo)) : Prop :=
  match r with
  | HttpRaised _ => True
  | HttpResponse status _ json =>
      status <> 200%Z
      \/ match json with
         | inl _ => True
         | inr [] => True
         | inr (first :: _) => og_lat first = None \/ og_lon first = None
         end
  end.

(** A geocoding attempt of the weather client that gives [lat], [lon]. *)
Definition weather_geocode_gives (r : http_result (list ow_geo)) (lat lon : pyval) : Prop :=
  exists text first rest,
    r = HttpResponse 200 text (inr (first :: rest))
    /\ og_lat first = Some lat /\ og_lon first = Some lon.

(** A fetch that fails: the request raises, the status is not 200 or the
    body is not JSON. *)
Definition fetch_fails {A} (r : http_result A) : Prop :=
  match r with
  | HttpRaised _ => True
  | HttpResponse status _ json =>
      status <> 200%Z \/ exists e, json = inl e
  end.

(** The current-conditions block read from a payload that has every key
    the code indexes. *)
Definition current_of (p : ow_current) : option WeatherService.current_dict :=
  match ow_main_of p, ow_weather_of p with
  | Some main, Some (condition :: _) =>
      match owm_temp main, owc_description condition, owm_humidity main with
      | Some temp, Some descr, Some humid =>
          Some {| WeatherService.temperature := Some temp;
                  WeatherService.description := Some descr;
                  WeatherService.humidity := Some humid;
                  WeatherService.wind_speed :=
                    Some (get (oww_speed (get (ow_wind_of p) {| oww_speed := None |}))
                              (PyInt 0)) |}
      | _, _, _ => None
      end
  | _, _ => None
  end.

(** A current-conditions fetch that fails: the request raises, the status
    is not 200, the body is not JSON, or the payload lacks a key the code
    indexes. *)
Definition weather_fetch_fails (r : http_result ow_current) : Prop :=
  match r with
  | HttpRaised _ => True
  | HttpResponse status _ json =>
      status <> 200%Z
      \/ match json with
         | inl _ => True
         | inr payload => current_of payload = None
         end
  end.

(** A current-conditions fetch that succeeds with the block [c]. *)
Definition weather_fetch_gives (r : http_result ow_current)
    (c : WeatherService.current_dict) : Prop :=
  exists text payload,
    r = HttpResponse 200 text (inr payload) /\ current_of payload = Some c.

(** The sentence of the specification on the forecast, as it is written:
    whenever geocoding and the current-conditions fetch succeed and only the
    forecast fetch fails, a summary is returned, with the current
    conditions and without forecast. *)
Definition forecast_failure_always_degrades : Prop :=
  forall (w : World) (self : WeatherService.t) (destination : string)
         (start_date end_date : Z) (n : nat) (lat lon : pyval)
         (c : WeatherService.current_dict),
    key_falsy (WeatherService.api_key self) = false ->
    weather_geocode_gives (requests_get_geo w n destination) lat lon ->
    weather_fetch_gives (requests_get_weather w (n + 1) lat lon) c ->
    fetch_fails (requests_get_forecast w (n + 2) lat lon) ->
    exists summary,
      fst (WeatherService.get_weather_summary w self destination start_date end_date n)
      = inr (Some summary)
      /\ WeatherService.current summary = Some c
      /\ WeatherService.forecast summary = Some None.

(** A description that [format_weather_summary] can title-case: absent, or
    a string. *)
Definition textual (description : option pyval) : bool :=
  match description with
  | None | Some (PyStr _) => true
  | Some _ => false
  end.

(** What is shown for a field: its text, or the placeholder. *)
Definition shown (field : option pyval) : string :=
  match field with
  | Some v => py_str v
  | None => "N/A"
  end.

Definition shown_title (w : World) (field : option pyval) : string :=
  match field with
  | Some (PyStr s) => str_title w s
  | _ => "N/A"
  end.

(** The description a summary carries, if any. *)
Definition description_of (weather_data : option WeatherService.weather_dict) : option pyval :=
  match weather_data with
  | Some d =>
      match WeatherService.current d with
      | Some c => WeatherService.description c
      | None => None
      end
  | None => None
  end.

(** The block [format_weather_summary] renders, line by line. *)
Definition weather_block (w : World) (d : WeatherService.weather_dict) : string :=
  let c := get (WeatherService.current d) WeatherService.empty_current in
  PyStr.join PyStr.nl
    [ "**Weather in " ++ py_str (get (WeatherService.location d) (PyStr "Unknown")) ++ ":**";
      "";
      "ğŸŒ¡ï¸ Temperature: " ++ shown (WeatherService.temperature c) ++ "Â°C";
      "â˜ï¸ Conditions: " ++ shown_title w (WeatherService.description c);
      "ğŸ’§ Humidity: " ++ shown (WeatherService.humidity c) ++ "%";
      "ğŸ’¨ Wind Speed: " ++ shown (WeatherService.wind_speed c) ++ " m/s";
      "" ].

(** The sentence of the specification on formatting, as it is written: the
    operation never fails, whatever summary it is given. *)
Definition formatting_never_fails : Prop :=
  forall (w : World) (weather_data : option WeatherService.weather_dict) (n : nat),
    exists text t,
      WeatherService.format_weather_summary w weather_data n = (inr text, t).

(** The sentence of the specification on validation, as it is written: a
    request with an empty source, an empty destination or an end date
    before its start date is rejected before any network call is made, so
    the run that rejects it holds no network call at all. *)
Definition rejected_before_any_network_call : Prop :=
  forall (w : World) (h : App.Helpers) (inp : App.Inputs),
    App.validate_dates h = App.validate_dates_spec ->
    App.generate_button inp = true ->
    App.source inp = "" \/ App.destination inp = ""
    \/ (App.end_date inp < App.start_date inp)%Z ->
    count is_network (events_of (App.main w h inp)) = 0.

(** *** Lines, characters and sections *)

(** The characters of a string. *)
Definition chars (s : string) : list ascii := list_ascii_of_string s.

(** No line feed in the string. *)
Definition one_line (s : string) : Prop := ~ In (ascii_of_nat 10) (chars s).

(** Some character of the string satisfies [p]. *)
Definition has_char (p : ascii -> bool) (s : string) : bool := existsb p (chars s).

(** A byte that is no part of white space: an ASCII byte that is not
    white space itself. *)
Definition plain (c : ascii) : bool :=
  negb (PyStr.is_space1 c) && Nat.ltb (PyStr.code c) 128.

(** The letter d, in either case. *)
Definition is_d (c : ascii) : bool := Ascii.eqb (PyStr.lower_char c) "d"%char.

(** The labels the splitting loop is due to show for a list of lines:
    "Overview" when the first line is not a header, then the label of each
    header line in the order of the text. *)
Definition due_labels (lines : list string) : list string :=
  (match lines with
   | first :: _ => if App.starts_section first then [] else ["Overview"]
   | [] => []
   end ++ map App.section_label (filter App.starts_section lines))%list.

(** The lines of the bodies of the sections drawn, blank lines left out. *)
Definition body_lines (t : trace) : list string :=
  filter PyStr.truthy (flat_map (fun s => PyStr.split_nl (snd s)) (App.sections_of t)).

(** An expander. *)
Definition is_expander (e : event) : bool :=
  match e with
  | StExpander _ _ => true
  | _ => false
  end.

(** The number of error lines a slot accounts for. *)
Definition failed {S} (slot : option S) : nat :=
  match slot with Some _ => 0 | None => 1 end.

(** *** Bounds on what a computation causes *)

(** A weather request. *)
Definition is_weather_call (e : event) : bool :=
  match e with
  | WeatherGeocode _ | WeatherCurrent _ _ | WeatherForecast _ _ => true
  | _ => false
  end.

(** A places request. *)
Definition is_places_call (e : event) : bool :=
  match e with
  | PlacesGeocode _ | PlacesNearby _ _ _ => true
  | _ => false
  end.

(** At most [k] of the events a computation causes satisfy [p], whenever
    it is started. *)
Definition bounded {A} (p : event -> bool) (k : nat) (c : M A) : Prop :=
  forall n, count p (snd (c n)) <= k.

(** Whatever a computation raises satisfies [Q]. *)
Definition raises_only {A} (Q : exn -> Prop) (c : M A) : Prop :=
  forall n e t, c n = (inl e, t) -> Q e.

(** [p] holds of outbound calls only. *)
Definition quiet (p : event -> bool) : Prop :=
  forall e, is_network e = false -> p e = false.

(** The failure of [.title()] on a description that is not a string. *)
Definition title_failure (e : exn) : Prop :=
  exists v, textual (Some v) = false /\ e = no_attribute v "title".

(** The failures of the repetition of the price sign: a count that does
    not fit [Py_ssize_t], or a string that cannot be allocated. *)
Definition repeat_failure (e : exn) : Prop :=
  e = Exn EOverflowError "cannot fit 'int' into an index-sized integer"
  \/ e = Exn EMemoryError "".

(** An entry [main] can display: the keys it indexes are there. *)
Definition displayable (d : PlacesService.dict) : Prop :=
  PlacesService.dict_get d "name" <> None
  /\ PlacesService.dict_get d "rating" <> None
  /\ PlacesService.dict_get d "address" <> None
  /\ PlacesService.dict_get d "place_id" <> None.

(** A request that passes the checks of [main]. *)
Definition valid_request (h : App.Helpers) (inp : App.Inputs) : Prop :=
  App.source inp <> "" /\ App.destination inp <> ""
  /\ fst (App.validate_dates h (App.start_date inp) (App.end_date inp)) = true.

(** The provider object [main] ends up with for a selection. *)
Definition provider_of (services : App.Services) (chosen : string) : option App.provider :=
  if String.eqb chosen "Ollama (Local)"
  then option_map App.Local (App.ollama services)
  else option_map App.Hosted (App.openai services).

(** The name [main] shows for a selection. *)
Definition service_name_of (chosen : string) : string :=
  if String.eqb chosen "Ollama (Local)" then "Ollama" else "OpenAI".

(** What [main] draws before it calls the provider. *)
Definition announcement (h : App.Helpers) (inp : App.Inputs) (chosen : string) : trace :=
  [ StSuccess ("✅ Planning a "
               ++ PyStr.of_Z (App.calculate_trip_duration h (App.start_date inp)
                                (App.end_date inp))
               ++ "-day trip from " ++ App.source inp ++ " to " ++ App.destination inp
               ++ " using " ++ service_name_of chosen);
    StSpinner ("🤖 " ++ service_name_of chosen
               ++ " is generating your personalized itinerary...") ].

(** The call [main] makes to the provider. *)
Definition generation (w : World) (h : App.Helpers) (inp : App.Inputs)
    (p : App.provider) : M string :=
  App.generate_with w p (App.source inp) (App.destination inp)
    (App.format_date h (App.start_date inp)) (App.format_date h (App.end_date inp))
    (App.calculate_trip_duration h (App.start_date inp) (App.end_date inp))
    (App.budget inp) (App.interests inp) (App.travel_type inp).

(** The two blocks [main] adds below the itinerary: the weather, then the
    places. *)
Definition enrichment (w : World) (services : App.Services) (inp : App.Inputs) : M unit :=
  App.show_weather w services (App.destination inp) (App.start_date inp) (App.end_date inp) ;;
  App.show_places w services (App.destination inp).

(** What [main] does with a generated itinerary: the itinerary, then the
    weather block, then the places block. *)
Definition results (w : World) (services : App.Services) (inp : App.Inputs)
    (itinerary : string) : M unit :=
  emit (StMarkdown "---") ;;
  emit (StHeader "📅 Your Travel Itinerary") ;;
  App.emit_all (App.show_itinerary itinerary) ;;
  enrichment w services inp.

(** The provider call as a run of [main] makes it: after the events of
    the prelude and the two lines of the announcement. *)
Definition provider_call (w : World) (h : App.Helpers) (inp : App.Inputs)
    (p : App.provider) : (exn + string) * trace :=
  generation w h inp p (List.length (prelude_events w) + 2).

(** The header [main] draws above the itinerary. *)
Definition itinerary_header : trace :=
  [StMarkdown "---"; StHeader "📅 Your Travel Itinerary"].

(** What [main] draws when the button was not pressed. *)
Definition welcome_events : trace :=
  [ StInfo "👈 Fill in the trip details in the sidebar and click 'Generate Itinerary' to get started!";
    StExpander "📖 How it works" App.how_it_works ].

(** *** Further sample worlds, inputs and texts *)

Module Cases.

(** An itinerary with an introduction and two kinds of day header. *)
Definition guide : string :=
  PyStr.join PyStr.nl
    [ "Welcome to Paris"; ""; "## Day 1: Arrival"; "- Louvre"; "**Day 2**"; "- Versailles" ].

(** The local model answers its probe; its chat reply carries no message. *)
Definition silent_model : World := {|
  getenv := fun _ => None;
  openai_OpenAI := fun _ _ => None;
  openai_chat_create := fun _ _ _ _ => inl Samples.refused;
  requests_get_tags := fun _ => HttpResponse 200 "{}" (inr tt);
  requests_post_chat := fun _ _ _ _ _ =>
    HttpResponse 200 "{}" (inr {| oc_message := None |});
  googlemaps_Client := fun _ => None;
  gmaps_geocode := fun _ _ => inl Samples.refused;
  gmaps_places_nearby := fun _ _ _ _ => inl Samples.refused;
  requests_get_geo := fun _ _ => HttpRaised Samples.refused;
  requests_get_weather := fun _ _ _ => HttpRaised Samples.refused;
  requests_get_forecast := fun _ _ _ => HttpRaised Samples.refused;
  unicode_title := fun s => s;
  sys_maxsize := 9223372036854775807;
  allocates := fun _ n => (n <=? 1000000)%Z
|}.

Definition local_client : OllamaService.t :=
  {| OllamaService.base_url := "http://localhost:11434"; OllamaService.model := "llama3.2" |}.

(** A hosted key is set; the client library fails to start with a message
    of its own that holds the words "not found". *)
Definition missing_module : exn := Exn EException "module 'httpx' not found".

Definition broken_client : World := {|
  getenv := fun name => if String.eqb name "OPENAI_API_KEY" then Some "sk-live" else None;
  openai_OpenAI := fun _ _ => Some missing_module;
  openai_chat_create := fun _ _ _ _ => inl Samples.refused;
  requests_get_tags := fun _ => HttpRaised Samples.refused;
  requests_post_chat := fun _ _ _ _ _ => HttpRaised Samples.refused;
  googlemaps_Client := fun _ => None;
  gmaps_geocode := fun _ _ => inl Samples.refused;
  gmaps_places_nearby := fun _ _ _ _ => inl Samples.refused;
  requests_get_geo := fun _ _ => HttpRaised Samples.refused;
  requests_get_weather := fun _ _ _ => HttpRaised Samples.refused;
  requests_get_forecast := fun _ _ _ => HttpRaised Samples.refused;
  unicode_title := fun s => s;
  sys_maxsize := 9223372036854775807;
  allocates := fun _ n => (n <=? 1000000)%Z
|}.

(** Current conditions whose description is JSON null. *)
Definition unnamed_sky : ow_current :=
  {| ow_main_of := Some {| owm_temp := Some (PyFloat "18.4");
                           owm_humidity := Some (PyInt 62) |};
     ow_weather_of := Some [ {| owc_description := Some PyNone |} ];
     ow_wind_of := None |}.

(** Everything is configured and answers; the description of the current
    conditions is null. *)
Definition null_description : World := {|
  getenv := getenv Samples.all_up;
  openai_OpenAI := openai_OpenAI Samples.all_up;
  openai_chat_create := openai_chat_create Samples.all_up;
  requests_get_tags := requests_get_tags Samples.all_up;
  requests_post_chat := requests_post_chat Samples.all_up;
  googlemaps_Client := googlemaps_Client Samples.all_up;
  gmaps_geocode := gmaps_geocode Samples.all_up;
  gmaps_places_nearby := gmaps_places_nearby Samples.all_up;
  requests_get_geo := requests_get_geo Samples.all_up;
  requests_get_weather := fun _ _ _ => HttpResponse 200 "{...}" (inr unnamed_sky);
  requests_get_forecast := requests_get_forecast Samples.all_up;
  unicode_title := fun s => s;
  sys_maxsize := 9223372036854775807;
  allocates := fun _ n => (n <=? 1000000)%Z
|}.

(** The summary that world's answers make. *)
Definition null_summary : WeatherService.weather_dict := {|
  WeatherService.current :=
    Some {| WeatherService.temperature := Some (PyFloat "18.4");
            WeatherService.description := Some PyNone;
            WeatherService.humidity := Some (PyInt 62);
            WeatherService.wind_speed := Some (PyInt 0) |};
  WeatherService.forecast := Some None;
  WeatherService.location := Some (PyStr "Paris")
|}.

(** A restaurant whose price level does not fit [Py_ssize_t]. *)
Definition costly : gm_place :=
  {| gp_name := Some (PyStr "Le Grand Prix");
     gp_rating := Some (PyFloat "4.9");
     gp_vicinity := Some (PyStr "1 Place Vendome, Paris");
     gp_price_level := Some (PyInt 9223372036854775808);
     gp_place_id := Some (PyStr "ChIJ-costly") |}.

(** No weather key; the places client answers, with that restaurant. *)
Definition huge_price_level : World := {|
  getenv := fun name =>
    if String.eqb name "GOOGLE_PLACES_API_KEY" then Some "AIza-key" else None;
  openai_OpenAI := openai_OpenAI Samples.all_up;
  openai_chat_create := openai_chat_create Samples.all_up;
  requests_get_tags := requests_get_tags Samples.all_up;
  requests_post_chat := requests_post_chat Samples.all_up;
  googlemaps_Client := googlemaps_Client Samples.all_up;
  gmaps_geocode := gmaps_geocode Samples.all_up;
  gmaps_places_nearby := fun _ _ _ type_ =>
    if String.eqb type_ "restaurant" then inr {| gn_results := Some [costly] |}
    else inr {| gn_results := None |};
  requests_get_geo := requests_get_geo Samples.all_up;
  requests_get_weather := requests_get_weather Samples.all_up;
  requests_get_forecast := requests_get_forecast Samples.all_up;
  unicode_title := unicode_title Samples.all_up;
  sys_maxsize := sys_maxsize Samples.all_up;
  allocates := allocates Samples.all_up
|}.

(** The no-break space, U+00A0. *)
Definition nbsp : string := String (ascii_of_nat 194) (String (ascii_of_nat 160) "").

(** The em space, U+2003, and the zero-width space, U+200B; the second is
    no white space for [str.strip]. *)
Definition em_space : string :=
  String (ascii_of_nat 226) (String (ascii_of_nat 128) (String (ascii_of_nat 131) "")).
Definition zero_width_space : string :=
  String (ascii_of_nat 226) (String (ascii_of_nat 128) (String (ascii_of_nat 139) "")).

(** An introduction, then a day header that follows a no-break space. *)
Definition intro : string :=
  "Intro" ++ PyStr.nl ++ nbsp ++ "Day 1" ++ PyStr.nl ++ "Visit museum".

(** Two days, the second header following a no-break space. *)
Definition indented : string :=
  "Day 1" ++ PyStr.nl ++ "Visit museum" ++ PyStr.nl
  ++ nbsp ++ "Day 2" ++ PyStr.nl ++ "Relax at beach".

(** The widgets as they are when the page is first opened. *)
Definition idle : App.Inputs := {|
  App.source := "";
  App.destination := "";
  App.start_date := 739000;
  App.end_date := 739007;
  App.budget := "medium";
  App.interests := ["culture"; "food"];
  App.travel_type := "solo";
  App.radio_choice := 0;
  App.generate_button := false
|}.

End Cases.

(* ===================================================================== *)
(** ** The itinerary formatter *)
(* ===================================================================== *)

Section Formatter.

Lemma has_day_markers_false (lines : list string) :
  Forall (fun line => App.is_day_marker line = false) lines ->
  App.has_day_markers lines = false.
Proof.
  unfold App.has_day_markers.
  induction 1 as [| line rest Hline _ IH]; simpl.
  - reflexivity.
  - now rewrite Hline, IH.
Qed.

Lemma is_day_marker_prefixes (line : string) :
  let l := PyStr.strip (PyStr.lower line) in
  PyStr.startswith l "day " = false ->
  PyStr.startswith l "**day " = false ->
  PyStr.startswith l "# day " = false ->
  App.is_day_marker line = false.
Proof.
  intros l H1 H2 H3. unfold App.is_day_marker. fold l.
  now rewrite H1, H2, H3.
Qed.

End Formatter.

(** C6: the text "Day 1\nVisit museum\nDay 2\nRelax at beach" is drawn as
    exactly two sections, "Day 1" holding the single line "Visit museum" and
    "Day 2" holding the single line "Relax at beach". *)
Theorem C6_two_day_sections :
  App.show_itinerary Texts.two_days
  = [StExpander "Day 1" "Visit museum"; StExpander "Day 2" "Relax at beach"]
  /\ App.sections_of (App.show_itinerary Texts.two_days)
     = [("Day 1", "Visit museum"); ("Day 2", "Relax at beach")]
  /\ map (fun s => PyStr.split_nl (snd s))
         (App.sections_of (App.show_itinerary Texts.two_days))
     = [["Visit museum"]; ["Relax at beach"]].
Proof. repeat split; vm_compute; reflexivity. Qed.

(** C7: when no line of the text, lowered and stripped, begins with "day ",
    "**day " or "# day ", nothing is split: the whole text is drawn once,
    unchanged, and no section (so no "Overview" heading) is made. *)
Theorem C7_unsectioned_text_passes_through (itinerary_text : string) :
  Forall (fun line =>
            let l := PyStr.strip (PyStr.lower line) in
            PyStr.startswith l "day " = false
            /\ PyStr.startswith l "**day " = false
            /\ PyStr.startswith l "# day " = false)
         (PyStr.split_nl itinerary_text) ->
  App.show_itinerary itinerary_text = [StMarkdown itinerary_text]
  /\ List.length (App.show_itinerary itinerary_text) = 1
  /\ App.sections_of (App.show_itinerary itinerary_text) = []
  /\ forall body, ~ In (StExpander "Overview" body) (App.show_itinerary itinerary_text).
Proof.
  intros Hlines.
  assert (Hshow : App.show_itinerary itinerary_text = [StMarkdown itinerary_text]).
  { unfold App.show_itinerary.
    rewrite has_day_markers_false; [reflexivity |].
    eapply Forall_impl; [| exact Hlines].
    intros line (H1 & H2 & H3). now apply is_day_marker_prefixes. }
  rewrite Hshow. repeat split.
  intros body [Hin | []]. discriminate Hin.
Qed.

Lemma C7_witness :
  App.show_itinerary Texts.coast = [StMarkdown Texts.coast]
  /\ List.length (App.show_itinerary Texts.coast) = 1
  /\ App.sections_of (App.show_itinerary Texts.coast) = []
  /\ forall body, ~ In (StExpander "Overview" body) (App.show_itinerary Texts.coast).
Proof.
  apply (C7_unsectioned_text_passes_through Texts.coast).
  vm_compute. repeat constructor.
Defined.

(** The white space stripped is that of Unicode: a marker that follows a
    no-break space is a marker, and its text is split. *)
Lemma marker_after_no_break_space :
  App.has_day_markers (PyStr.split_nl Cases.intro) = true
  /\ App.show_itinerary Cases.intro
     = [StExpander "Overview" "Intro"; StExpander "Day 1" "Visit museum"].
Proof. split; vm_compute; reflexivity. Qed.

(** C10: while splitting, a line is a section header when it passes the
    detection check or when, stripped, it starts with "#" and its lowered
    text contains "day"; the second test accepts lines the detection check
    rejects, such as "# Holiday tips", and the text made of the lines
    "Day 1" and "# Holiday tips" gets a section labelled "Holiday tips",
    which does not begin with "Day". *)
Theorem C10_splitting_accepts_more_headers :
  (forall line,
      App.starts_section line
      = App.is_day_marker line
        || (PyStr.startswith (PyStr.strip line) "#"
            && PyStr.contains "day" (PyStr.strip (PyStr.lower line))))
  /\ (App.is_day_marker "# Holiday tips" = false
      /\ App.starts_section "# Holiday tips" = true)
  /\ App.has_day_markers (PyStr.split_nl Texts.holiday) = true
  /\ App.show_itinerary Texts.holiday
     = [StExpander "Day 1" ""; StExpander "Holiday tips" ""]
  /\ PyStr.startswith "Holiday tips" "Day" = false.
Proof.
  split.
  - intros line. reflexivity.
  - repeat split; vm_compute; reflexivity.
Qed.

(* ===================================================================== *)
(** ** The prompt of the two providers *)
(* ===================================================================== *)

Section Prompt.

Lemma app_assoc_string (a b c : string) : (a ++ b) ++ c = a ++ b ++ c.
Proof. induction a as [| ch a IH]; simpl; [reflexivity | now rewrite IH]. Qed.

Lemma occurs_in_here (sub : string) : occurs_in sub sub.
Proof.
  exists "", "". simpl.
  induction sub as [| ch sub IH]; simpl; [reflexivity | now rewrite <- IH].
Qed.

Lemma occurs_in_left (sub a b : string) : occurs_in sub a -> occurs_in sub (a ++ b).
Proof.
  intros (before & after & ->). exists before, (after ++ b).
  now rewrite !app_assoc_string.
Qed.

Lemma occurs_in_right (sub a b : string) : occurs_in sub b -> occurs_in sub (a ++ b).
Proof.
  intros (before & after & ->). exists (a ++ before), after.
  now rewrite !app_assoc_string.
Qed.

(** Each variant makes one request, which carries its system prompt and
    its rendering of the trip. *)
Lemma ollama_sends_its_prompt (w : World) (self : OllamaService.t)
    (source destination start_date end_date : string) (duration : Z)
    (budget : string) (interests : list string) (travel_type : string) (n : nat) :
  snd (OllamaService.generate_itinerary w self source destination start_date end_date
         duration budget interests travel_type n)
  = [OllamaChat (OllamaService.base_url self) (OllamaService.model self)
       OllamaService.system_prompt
       (OllamaService.prompt source destination start_date end_date
          duration budget interests travel_type)].
Proof.
  unfold OllamaService.generate_itinerary.
  generalize (OllamaService.prompt source destination start_date end_date
                duration budget interests travel_type) as prompt.
  intros prompt.
  unfold try_except, bind, call, response_of, lift, raise, ret.
  destruct (requests_post_chat w n _ _ _ _) as [e | status text json]; cbn [List.length].
  - destruct (is_Timeout e); [reflexivity |]. destruct (is_RequestException e); reflexivity.
  - destruct (negb (status =? 200)%Z); [reflexivity |].
    destruct json as [e | result]; cbn [List.length].
    + destruct (is_Timeout e); [reflexivity |]. destruct (is_RequestException e); reflexivity.
    + destruct (get (om_content _) _); reflexivity.
Qed.

Lemma openai_sends_its_prompt (w : World) (self : OpenAIService.t)
    (source destination start_date end_date : string) (duration : Z)
    (budget : string) (interests : list string) (travel_type : string) (n : nat) :
  snd (OpenAIService.generate_itinerary w self source destination start_date end_date
         duration budget interests travel_type n)
  = [OpenAIChat (OpenAIService.model self) OpenAIService.system_prompt
       (OpenAIService.prompt source destination start_date end_date
          duration budget interests travel_type)].
Proof.
  unfold OpenAIService.generate_itinerary.
  generalize (OpenAIService.prompt source destination start_date end_date
                duration budget interests travel_type) as prompt.
  intros prompt.
  unfold try_except, bind, call, lift, lookup, raise, ret.
  destruct (openai_chat_create w n _ _ _) as [e | choices]; cbn [List.length]; [reflexivity |].
  destruct choices as [| [content |] rest]; reflexivity.
Qed.

End Prompt.

(** Looks for [sub] among the pieces of an append tree. *)
Ltac find_piece :=
  first [ apply occurs_in_here
        | apply occurs_in_left; find_piece
        | apply occurs_in_right; find_piece ].

(** C8: for the same trip fields the local and the hosted variant build the
    same user prompt and the same system prompt, and these are what each
    sends in its one request; both join the interests with ", " and write
    "general travel" for no interests; the prompt holds the duration, the
    source, the destination, the date range, the budget level and the
    travel type. *)
Theorem C8_both_variants_render_the_same_prompt
    (w : World) (local_client : OllamaService.t) (hosted_client : OpenAIService.t)
    (source destination start_date end_date : string) (duration : Z)
    (budget : string) (interests : list string) (travel_type : string) (n : nat) :
  let local := OllamaService.prompt source destination start_date end_date
                 duration budget interests travel_type in
  let hosted := OpenAIService.prompt source destination start_date end_date
                  duration budget interests travel_type in
  local = hosted
  /\ OllamaService.system_prompt = OpenAIService.system_prompt
  /\ snd (OllamaService.generate_itinerary w local_client source destination
            start_date end_date duration budget interests travel_type n)
     = [OllamaChat (OllamaService.base_url local_client) (OllamaService.model local_client)
          OllamaService.system_prompt local]
  /\ snd (OpenAIService.generate_itinerary w hosted_client source destination
            start_date end_date duration budget interests travel_type n)
     = [OpenAIChat (OpenAIService.model hosted_client) OpenAIService.system_prompt hosted]
  /\ OllamaService.interests_str [] = "general travel"
  /\ OpenAIService.interests_str [] = "general travel"
  /\ (interests <> [] ->
      OllamaService.interests_str interests = PyStr.join ", " interests
      /\ OpenAIService.interests_str interests = PyStr.join ", " interests)
  /\ occurs_in ("- Interests: " ++ OpenAIService.interests_str interests) hosted
  /\ occurs_in (PyStr.of_Z duration ++ "-day travel itinerary") hosted
  /\ occurs_in ("from " ++ source ++ " to " ++ destination) hosted
  /\ occurs_in ("- Travel Dates: " ++ start_date ++ " to " ++ end_date) hosted
  /\ occurs_in ("- Budget Level: " ++ budget) hosted
  /\ occurs_in ("- Travel Type: " ++ travel_type) hosted.
Proof.
  intros local hosted.
  split; [reflexivity |].
  split; [reflexivity |].
  split; [apply ollama_sends_its_prompt |].
  split; [apply openai_sends_its_prompt |].
  split; [reflexivity |].
  split; [reflexivity |].
  split.
  { intros Hne. destruct interests; [contradiction | split; reflexivity]. }
  subst hosted. unfold OpenAIService.prompt, PyStr.join.
  cbn [String.concat].
  repeat split.
  - find_piece.
  - apply occurs_in_left.
    exists "You are an expert travel planner. Create a detailed ",
           (" for a trip from " ++ source ++ " to " ++ destination ++ ".").
    now rewrite !app_assoc_string.
  - apply occurs_in_left.
    exists ("You are an expert travel planner. Create a detailed "
            ++ PyStr.of_Z duration ++ "-day travel itinerary for a trip "), ".".
    now rewrite !app_assoc_string.
  - find_piece.
  - find_piece.
  - find_piece.
Qed.

Lemma C8_witness :
  OllamaService.interests_str ["culture"; "food"] = "culture, food"
  /\ OpenAIService.interests_str ["culture"; "food"] = "culture, food".
Proof.
  pose proof (C8_both_variants_render_the_same_prompt
                Samples.all_up
                {| OllamaService.base_url := "http://localhost:11434";
                   OllamaService.model := "llama3.2" |}
                {| OpenAIService.api_key := "sk-key";
                   OpenAIService.model := "gpt-3.5-turbo" |}
                "New York" "Paris" "March 01, 2025" "March 07, 2025" 7
                "medium" ["culture"; "food"] "solo" 0) as H.
  cbv zeta in H.
  destruct H as (_ & _ & _ & _ & _ & _ & H & _).
  apply H. discriminate.
Defined.

(* ===================================================================== *)
(** ** Running computations *)
(* ===================================================================== *)

Section Runs.

Context {A B : Type}.

Lemma bind_returned (c : M A) (f : A -> M B) (n : nat) (a : A) (t : trace) :
  c n = (inr a, t) ->
  bind c f n = (fst (f a (n + List.length t)), (t ++ snd (f a (n + List.length t)))%list).
Proof.
  intros H. unfold bind. rewrite H.
  now destruct (f a (n + List.length t)).
Qed.

End Runs.

Lemma for_each_emit {A} (f : A -> event) (xs : list A) (n : nat) :
  for_each xs (fun x => emit (f x)) n = (inr tt, map f xs).
Proof.
  revert n. induction xs as [| x rest IH]; intros n; simpl.
  - reflexivity.
  - unfold bind, emit. simpl. now rewrite IH.
Qed.

Lemma count_app (p : event -> bool) (t u : trace) :
  count p (t ++ u)%list = count p t + count p u.
Proof. unfold count. now rewrite filter_app, length_app. Qed.

Lemma count_zero_iff (p : event -> bool) (t : trace) :
  count p t = 0 <-> Forall (fun e => p e = false) t.
Proof.
  unfold count. induction t as [| e t IH]; simpl.
  - split; [constructor | reflexivity].
  - destruct (p e) eqn:He; simpl.
    + split; [discriminate | intros H; inversion H; congruence].
    + rewrite IH. split; [now constructor | intros H; now inversion H].
Qed.

(* ===================================================================== *)
(** ** The service registry *)
(* ===================================================================== *)

Section Registry.

Variable w : World.

Lemma openai_init_events (n : nat) : snd (OpenAIService.init w n) = [].
Proof.
  unfold OpenAIService.init, try_except, raise, ret.
  destruct (key_falsy _ || _); [reflexivity |].
  destruct (openai_OpenAI w _ _); reflexivity.
Qed.

Lemma places_init_events (n : nat) : snd (PlacesService.init w n) = [].
Proof.
  unfold PlacesService.init, try_except, raise, ret.
  destruct (key_falsy _ || _); [reflexivity |].
  destruct (googlemaps_Client w _); reflexivity.
Qed.

Lemma ollama_init_events (n : nat) :
  snd (OllamaService.init w n) = [OllamaTags (probe_url w)].
Proof.
  unfold OllamaService.init, bind, try_except, call, response_of, raise, ret.
  fold (probe_url w).
  destruct (requests_get_tags w _) as [e | status text json]; simpl.
  - destruct (is_RequestException e); reflexivity.
  - destruct (negb (status =? 200)%Z); reflexivity.
Qed.

Lemma openai_init_clock (n : nat) : OpenAIService.init w n = OpenAIService.init w 0.
Proof.
  unfold OpenAIService.init, try_except, raise, ret.
  destruct (key_falsy _ || _); [reflexivity |].
  destruct (openai_OpenAI w _ _); reflexivity.
Qed.

Lemma places_init_clock (n : nat) : PlacesService.init w n = PlacesService.init w 0.
Proof.
  unfold PlacesService.init, try_except, raise, ret.
  destruct (key_falsy _ || _); [reflexivity |].
  destruct (googlemaps_Client w _); reflexivity.
Qed.

Lemma ollama_init_clock (n : nat) : OllamaService.init w n = OllamaService.init w 0.
Proof.
  unfold OllamaService.init, bind, try_except, call, response_of, raise, ret.
  destruct (requests_get_tags w _) as [e | status text json]; simpl.
  - destruct (is_RequestException e); reflexivity.
  - destruct (negb (status =? 200)%Z); reflexivity.
Qed.

Lemma attempt_run {S} (ctor : M S) (describe : exn -> string)
    (errors : list string) (n : nat) :
  App.attempt ctor describe errors n
  = match ctor n with
    | (inl e, t) => (inr (None, (errors ++ [describe e])%list), t)
    | (inr s, t) => (inr (Some s, errors), t)
    end.
Proof.
  unfold App.attempt, try_except, bind, ret.
  destruct (ctor n) as [[e | s] t]; simpl; now rewrite app_nil_r.
Qed.

(** [initialize_services] never raises; it makes the liveness probe and
    nothing else. *)
Lemma initialize_services_run (n : nat) :
  App.initialize_services w n
  = (inr (registry_services w, registry_errors w), [OllamaTags (probe_url w)]).
Proof.
  unfold App.initialize_services, registry_services, registry_errors, slot, complaint.
  unfold bind at 1. rewrite attempt_run, openai_init_clock.
  pose proof (openai_init_events 0) as Ho.
  destruct (OpenAIService.init w 0) as [[eo | so] to]; simpl in Ho; subst to;
    cbn [List.length fst snd app];
    unfold bind at 1; rewrite attempt_run, ollama_init_clock;
    pose proof (ollama_init_events 0) as Hl;
    destruct (OllamaService.init w 0) as [[el | sl] tl]; simpl in Hl; subst tl;
    cbn [List.length fst snd app];
    unfold bind at 1; rewrite attempt_run, places_init_clock;
    pose proof (places_init_events 0) as Hp;
    destruct (PlacesService.init w 0) as [[ep | sp] tp]; simpl in Hp; subst tp;
    reflexivity.
Qed.

End Registry.

(* ===================================================================== *)
(** ** The orchestrator *)
(* ===================================================================== *)

Section Orchestrator.

Variable w : World.
Variable h : App.Helpers.

Lemma sidebar_run (services : App.Services) (inp : App.Inputs) (n : nat) :
  App.sidebar services inp n = (inr (picked services inp), sidebar_events services).
Proof.
  unfold App.sidebar, picked, sidebar_events, bind, emit, ret.
  destruct (App.ai_service_options services) as [| o rest].
  - reflexivity.
  - destruct (existsb (String.eqb "Ollama (Local)") (o :: rest)); reflexivity.
Qed.

Lemma service_warnings_run (errors : list string) (n : nat) :
  match errors with
  | [] => ret tt
  | _ =>
      emit (StWarning "⚠️ Some services are unavailable. Please check your API keys in the .env file.") ;;
      for_each errors (fun error => emit (StError error))
  end n = (inr tt, service_warnings errors).
Proof.
  destruct errors as [| e rest]; [reflexivity |].
  unfold bind, emit. cbn [List.length].
  rewrite (for_each_emit StError). reflexivity.
Qed.

Lemma prelude_run (inp : App.Inputs) (n : nat) :
  App.prelude w inp n
  = (inr (registry_services w, picked (registry_services w) inp), prelude_events w).
Proof.
  unfold App.prelude, prelude_events, page_header.
  unfold bind at 1. unfold emit at 1. cbn beta iota.
  unfold bind at 1. unfold emit at 1. cbn beta iota.
  unfold bind at 1. rewrite initialize_services_run. cbn beta iota.
  unfold bind at 1. rewrite service_warnings_run.
  unfold bind at 1. rewrite sidebar_run. cbn beta iota.
  unfold ret. cbn [app]. rewrite app_nil_r. reflexivity.
Qed.

Lemma main_run (inp : App.Inputs) (n : nat) :
  App.main w h inp n
  = let services := registry_services w in
    let k := if App.generate_button inp
             then App.generate w h services (picked services inp) inp
             else App.welcome in
    (fst (k (n + List.length (prelude_events w))),
     (prelude_events w ++ snd (k (n + List.length (prelude_events w))))%list).
Proof.
  unfold App.main. cbv zeta.
  erewrite bind_returned by apply prelude_run.
  reflexivity.
Qed.

(** The three ways the [if generate_button:] block stops before choosing
    a provider object. *)
Lemma generate_rejects_missing_city (services : App.Services)
    (ai_service : option string) (inp : App.Inputs) (n : nat) :
  App.source inp = "" \/ App.destination inp = "" ->
  App.generate w h services ai_service inp n = (inr tt, [StError App.missing_city_error]).
Proof.
  intros Hcity. unfold App.generate.
  destruct Hcity as [-> | ->]; simpl; [reflexivity |].
  now rewrite orb_true_r.
Qed.

Lemma generate_rejects_dates (services : App.Services)
    (ai_service : option string) (inp : App.Inputs) (n : nat) :
  App.source inp <> "" -> App.destination inp <> "" ->
  fst (App.validate_dates h (App.start_date inp) (App.end_date inp)) = false ->
  App.generate w h services ai_service inp n
  = (inr tt,
     [StError ("❌ " ++ snd (App.validate_dates h (App.start_date inp) (App.end_date inp)))]).
Proof.
  intros Hs Hd Hv. unfold App.generate.
  destruct (App.source inp); [contradiction |].
  destruct (App.destination inp); [contradiction |].
  cbn [PyStr.truthy negb orb].
  destruct (App.validate_dates h _ _) as [is_valid error_msg].
  simpl in Hv. subst is_valid. reflexivity.
Qed.

Lemma generate_without_provider (services : App.Services)
    (inp : App.Inputs) (n : nat) :
  App.source inp <> "" -> App.destination inp <> "" ->
  fst (App.validate_dates h (App.start_date inp) (App.end_date inp)) = true ->
  App.generate w h services None inp n = (inr tt, [StError App.no_service_error]).
Proof.
  intros Hs Hd Hv. unfold App.generate.
  destruct (App.source inp); [contradiction |].
  destruct (App.destination inp); [contradiction |].
  cbn [PyStr.truthy negb orb].
  destruct (App.validate_dates h _ _) as [is_valid error_msg].
  simpl in Hv. subst is_valid. reflexivity.
Qed.

Lemma string_empty_dec (s : string) : {s = ""} + {s <> ""}.
Proof. destruct s; [left; reflexivity | right; discriminate]. Qed.

(** The events before the button hold the probe and no other call. *)
Lemma prelude_calls :
  Forall (fun e => is_network e = true -> e = OllamaTags (probe_url w)) (prelude_events w)
  /\ count is_generation (prelude_events w) = 0
  /\ count is_enrichment (prelude_events w) = 0.
Proof.
  assert (Hw : forall errors, Forall (fun e => is_network e = false) (service_warnings errors)).
  { intros errors. destruct errors as [| e rest]; [constructor |].
    unfold service_warnings. constructor; [reflexivity |].
    apply Forall_forall. intros x Hx. apply in_map_iff in Hx.
    destruct Hx as (y & <- & _). reflexivity. }
  assert (Hs : forall services, Forall (fun e => is_network e = false) (sidebar_events services)).
  { intros services. unfold sidebar_events.
    destruct (App.ai_service_options services); simpl; repeat constructor. }
  assert (Hall : Forall (fun e => is_network e = true -> e = OllamaTags (probe_url w))
                        (prelude_events w)).
  { unfold prelude_events.
    apply Forall_app; split.
    { unfold page_header. repeat constructor; intros H; discriminate H. }
    apply Forall_app; split.
    { repeat constructor. }
    apply Forall_app; split.
    - eapply Forall_impl; [| apply Hw]. simpl. congruence.
    - eapply Forall_impl; [| apply Hs]. simpl. congruence. }
  split; [exact Hall |].
  split; apply count_zero_iff; (eapply Forall_impl; [| exact Hall]);
    intros e He; simpl in He.
  - destruct (is_generation e) eqn:Hg; [| reflexivity].
    assert (Hn : is_network e = true) by (destruct e; simpl in *; congruence).
    rewrite (He Hn) in Hg. discriminate.
  - destruct (is_enrichment e) eqn:Hg; [| reflexivity].
    assert (Hn : is_network e = true) by (destruct e; simpl in *; congruence).
    rewrite (He Hn) in Hg. discriminate.
Qed.

(** Nothing of the results is drawn before the button is looked at. *)
Lemma prelude_draws_no_result : count opens_result (prelude_events w) = 0.
Proof.
  apply count_zero_iff. unfold prelude_events.
  apply Forall_app; split; [unfold page_header; repeat constructor |].
  apply Forall_app; split; [repeat constructor |].
  apply Forall_app; split.
  - destruct (registry_errors w) as [| e rest]; [constructor |].
    unfold service_warnings. constructor; [reflexivity |].
    apply Forall_forall. intros x Hx. apply in_map_iff in Hx.
    destruct Hx as (y & <- & _). reflexivity.
  - unfold sidebar_events.
    destruct (App.ai_service_options (registry_services w));
      repeat constructor.
Qed.

End Orchestrator.

(** C2: when OPENAI_API_KEY is unset or holds the placeholder
    "your_openai_api_key_here", the hosted client's constructor raises the
    configuration error (a [ValueError]); [initialize_services] returns all
    the same, with the failure recorded among the errors and the hosted slot
    set to [None]; "OpenAI" is not among the options of the radio button and
    is never the selected service. *)
Theorem C2_missing_hosted_credential (w : World) (inp : App.Inputs) :
  getenv w "OPENAI_API_KEY" = None
  \/ getenv w "OPENAI_API_KEY" = Some "your_openai_api_key_here" ->
  (forall n, OpenAIService.init w n
             = (inl (Exn EValueError "OPENAI_API_KEY not found in environment variables"), []))
  /\ exists services errors,
       (forall n, App.initialize_services w n
                  = (inr (services, errors), [OllamaTags (probe_url w)]))
       /\ App.openai services = None
       /\ In "OpenAI: API key not configured. Please add your OPENAI_API_KEY to the .env file."
             errors
       /\ ~ In "OpenAI" (App.ai_service_options services)
       /\ forall n, fst (App.sidebar services inp n) <> inr (Some "OpenAI").
Proof.
  intros Hkey.
  assert (Hinit : forall n, OpenAIService.init w n
            = (inl (Exn EValueError "OPENAI_API_KEY not found in environment variables"), [])).
  { intros n. unfold OpenAIService.init.
    destruct Hkey as [-> | ->]; reflexivity. }
  split; [exact Hinit |].
  exists (registry_services w), (registry_errors w).
  assert (Hslot : App.openai (registry_services w) = None).
  { unfold registry_services, slot. cbn [App.openai]. now rewrite Hinit. }
  assert (Hopts : ~ In "OpenAI" (App.ai_service_options (registry_services w))).
  { unfold App.ai_service_options. rewrite Hslot. cbn [App.truthy].
    rewrite app_nil_r.
    destruct (App.truthy _); [| intros []].
    intros [Heq | []]. discriminate Heq. }
  split; [apply initialize_services_run |].
  split; [exact Hslot |].
  split.
  { unfold registry_errors, complaint. rewrite Hinit. cbn [fst].
    apply in_or_app. left. left. reflexivity. }
  split; [exact Hopts |].
  intros n. rewrite sidebar_run. cbn [fst]. unfold picked.
  destruct (App.ai_service_options (registry_services w)) as [| o rest] eqn:Ho;
    [discriminate |].
  intros Heq. injection Heq as Heq. apply Hopts. rewrite <- Heq.
  unfold App.st_radio.
  destruct (nth_in_or_default (App.radio_choice inp) (o :: rest) (nth 0 (o :: rest) ""))
    as [Hin | Hdef]; [exact Hin |].
  rewrite Hdef. left. reflexivity.
Qed.

Lemma C2_witness :
  (getenv Samples.placeholder_env "OPENAI_API_KEY" = None
   \/ getenv Samples.placeholder_env "OPENAI_API_KEY" = Some "your_openai_api_key_here")
  /\ forall n, OpenAIService.init Samples.placeholder_env n
               = (inl (Exn EValueError "OPENAI_API_KEY not found in environment variables"), []).
Proof.
  assert (Hkey : getenv Samples.placeholder_env "OPENAI_API_KEY" = None
                 \/ getenv Samples.placeholder_env "OPENAI_API_KEY"
                    = Some "your_openai_api_key_here") by (right; reflexivity).
  split; [exact Hkey |].
  exact (proj1 (C2_missing_hosted_credential Samples.placeholder_env Samples.trip Hkey)).
Defined.

(** A run that goes through: one generation call, the three weather
    requests and the six places requests, and the three result headers. *)
Lemma complete_run_is_counted :
  let t := events_of (App.main Samples.all_up Samples.helpers Samples.trip) in
  result_of (App.main Samples.all_up Samples.helpers Samples.trip) = inr tt
  /\ count is_generation t = 1
  /\ count is_enrichment t = 9
  /\ count opens_result t = 3
  /\ App.sections_of t = [("Day 1", "Visit museum"); ("Day 2", "Relax at beach")]
  /\ In (StMarkdown "**Chez Janou** ⭐ 4.5 💰💰") t.
Proof.
  cbv zeta. repeat split; try (vm_compute; reflexivity).
  vm_compute. tauto.
Qed.

(** A run that stops on an error right after the prelude makes no
    generation call and no enrichment call and draws no result; its only
    request is the probe of the registry. *)
Lemma stopped_run_calls (w : World) (msg : string) :
  let t := (prelude_events w ++ [StError msg])%list in
  count is_generation t = 0
  /\ count is_enrichment t = 0
  /\ count opens_result t = 0
  /\ Forall (fun e => is_network e = true -> e = OllamaTags (probe_url w)) t.
Proof.
  cbv zeta. destruct (prelude_calls w) as (Hnet & Hgen & Henr).
  rewrite !count_app, Hgen, Henr, prelude_draws_no_result.
  repeat split.
  apply Forall_app; split; [exact Hnet |].
  repeat constructor. intros H; discriminate H.
Qed.

(** C1: when the registry holds neither the local nor the hosted client,
    every press of the generate button ends in an error: the sidebar has
    warned that no AI service is available, no generation call and no
    enrichment call is made, and for a valid request the error is the
    no-service error. *)
Theorem C1_no_provider_available
    (w : World) (h : App.Helpers) (inp : App.Inputs)
    (services : App.Services) (errors : list string) :
  result_of (App.initialize_services w) = inr (services, errors) ->
  App.ollama services = None ->
  App.openai services = None ->
  App.generate_button inp = true ->
  exists msg,
    App.main w h inp 0 = (inr tt, (prelude_events w ++ [StError msg])%list)
    /\ In (StWarning App.no_service_warning) (prelude_events w)
    /\ (msg = App.no_service_error
        \/ msg = App.missing_city_error
        \/ msg = "❌ " ++ snd (App.validate_dates h (App.start_date inp) (App.end_date inp)))
    /\ (App.source inp <> "" -> App.destination inp <> "" ->
        fst (App.validate_dates h (App.start_date inp) (App.end_date inp)) = true ->
        msg = App.no_service_error)
    /\ count is_generation (events_of (App.main w h inp)) = 0
    /\ count is_enrichment (events_of (App.main w h inp)) = 0
    /\ count opens_result (events_of (App.main w h inp)) = 0.
Proof.
  intros Hreg Hollama Hopenai Hbutton.
  unfold result_of in Hreg. rewrite initialize_services_run in Hreg.
  cbn [fst] in Hreg. injection Hreg as Hs He.
  assert (Hopts : App.ai_service_options (registry_services w) = []).
  { unfold App.ai_service_options. rewrite Hs, Hollama, Hopenai. reflexivity. }
  assert (Hpick : picked (registry_services w) inp = None).
  { unfold picked. now rewrite Hopts. }
  assert (Hwarn : In (StWarning App.no_service_warning) (prelude_events w)).
  { unfold prelude_events, sidebar_events. rewrite Hopts.
    apply in_or_app. right.
    apply (in_or_app [OllamaTags (probe_url w)]). right.
    apply in_or_app. right.
    apply in_or_app. right. left. reflexivity. }
  assert (Hrun : exists msg,
             App.generate w h (registry_services w) None inp (List.length (prelude_events w))
             = (inr tt, [StError msg])
             /\ (msg = App.no_service_error
                 \/ msg = App.missing_city_error
                 \/ msg = "❌ " ++ snd (App.validate_dates h (App.start_date inp)
                                          (App.end_date inp)))
             /\ (App.source inp <> "" -> App.destination inp <> "" ->
                 fst (App.validate_dates h (App.start_date inp) (App.end_date inp)) = true ->
                 msg = App.no_service_error)).
  { destruct (string_empty_dec (App.source inp)) as [Hsrc | Hsrc].
    { exists App.missing_city_error. split; [| split].
      - apply generate_rejects_missing_city. now left.
      - auto.
      - intros Hne. contradiction. }
    destruct (string_empty_dec (App.destination inp)) as [Hdst | Hdst].
    { exists App.missing_city_error. split; [| split].
      - apply generate_rejects_missing_city. now right.
      - auto.
      - intros _ Hne. contradiction. }
    destruct (fst (App.validate_dates h (App.start_date inp) (App.end_date inp))) eqn:Hv.
    - exists App.no_service_error. split; [| split].
      + now apply generate_without_provider.
      + auto.
      + reflexivity.
    - exists ("❌ " ++ snd (App.validate_dates h (App.start_date inp) (App.end_date inp))).
      split; [| split].
      + now apply generate_rejects_dates.
      + auto.
      + intros _ _ Hne. discriminate Hne. }
  destruct Hrun as (msg & Hgen & Hkind & Hvalid).
  assert (Hmain : App.main w h inp 0
                  = (inr tt, (prelude_events w ++ [StError msg])%list)).
  { rewrite main_run. cbv zeta. rewrite Hbutton, Hpick.
    cbn [Nat.add]. now rewrite Hgen. }
  exists msg.
  split; [exact Hmain |].
  split; [exact Hwarn |].
  split; [exact Hkind |].
  split; [exact Hvalid |].
  unfold events_of. rewrite Hmain. cbn [snd].
  destruct (stopped_run_calls w msg) as (Hg & He' & Hr & _).
  repeat split; assumption.
Qed.

Lemma C1_witness :
  result_of (App.initialize_services Samples.offline)
  = inr (registry_services Samples.offline, registry_errors Samples.offline)
  /\ App.generate_button Samples.trip = true
  /\ exists msg,
       App.main Samples.offline Samples.helpers Samples.trip 0
       = (inr tt, (prelude_events Samples.offline ++ [StError msg])%list)
       /\ In (StWarning App.no_service_warning) (prelude_events Samples.offline)
       /\ (msg = App.no_service_error
           \/ msg = App.missing_city_error
           \/ msg = "❌ " ++ snd (App.validate_dates Samples.helpers
                                    (App.start_date Samples.trip) (App.end_date Samples.trip)))
       /\ (App.source Samples.trip <> "" -> App.destination Samples.trip <> "" ->
           fst (App.validate_dates Samples.helpers
                  (App.start_date Samples.trip) (App.end_date Samples.trip)) = true ->
           msg = App.no_service_error)
       /\ count is_generation (events_of (App.main Samples.offline Samples.helpers Samples.trip)) = 0
       /\ count is_enrichment (events_of (App.main Samples.offline Samples.helpers Samples.trip)) = 0
       /\ count opens_result (events_of (App.main Samples.offline Samples.helpers Samples.trip)) = 0.
Proof.
  split; [reflexivity |].
  split; [reflexivity |].
  apply (C1_no_provider_available Samples.offline Samples.helpers Samples.trip
           (registry_services Samples.offline) (registry_errors Samples.offline));
    reflexivity.
Defined.

(** C3, as the code has it: a request whose source is empty, whose
    destination is empty or whose end date is before its start date is
    turned down with one error that names the failed check; the run stops
    there, so no generation call and no enrichment call is made and nothing
    of an itinerary or of the enrichment sections is drawn.  The run is not
    free of network calls: [main] builds the registry first, and the one
    request of the run is the liveness probe made while doing so. *)
Theorem C3_invalid_request_is_rejected
    (w : World) (h : App.Helpers) (inp : App.Inputs) :
  App.validate_dates h = App.validate_dates_spec ->
  App.generate_button inp = true ->
  App.source inp = "" \/ App.destination inp = ""
  \/ (App.end_date inp < App.start_date inp)%Z ->
  exists msg,
    App.main w h inp 0 = (inr tt, (prelude_events w ++ [StError msg])%list)
    /\ (App.source inp = "" \/ App.destination inp = "" -> msg = App.missing_city_error)
    /\ (App.source inp <> "" -> App.destination inp <> "" ->
        msg = "❌ End date must not be before start date.")
    /\ count is_generation (events_of (App.main w h inp)) = 0
    /\ count is_enrichment (events_of (App.main w h inp)) = 0
    /\ count opens_result (events_of (App.main w h inp)) = 0
    /\ Forall (fun e => is_network e = true -> e = OllamaTags (probe_url w))
              (events_of (App.main w h inp)).
Proof.
  intros Hhelper Hbutton Hbad.
  assert (Hrun : exists msg,
             (forall services ai_service n,
                 App.generate w h services ai_service inp n = (inr tt, [StError msg]))
             /\ (App.source inp = "" \/ App.destination inp = "" ->
                 msg = App.missing_city_error)
             /\ (App.source inp <> "" -> App.destination inp <> "" ->
                 msg = "❌ End date must not be before start date.")).
  { destruct (string_empty_dec (App.source inp)) as [Hsrc | Hsrc].
    { exists App.missing_city_error. split; [| split].
      - intros. apply generate_rejects_missing_city. now left.
      - reflexivity.
      - intros Hne. contradiction. }
    destruct (string_empty_dec (App.destination inp)) as [Hdst | Hdst].
    { exists App.missing_city_error. split; [| split].
      - intros. apply generate_rejects_missing_city. now right.
      - reflexivity.
      - intros _ Hne. contradiction. }
    destruct Hbad as [Hbad | [Hbad | Hbad]]; try contradiction.
    assert (Hv : App.validate_dates h (App.start_date inp) (App.end_date inp)
                 = (false, "End date must not be before start date.")).
    { rewrite Hhelper. unfold App.validate_dates_spec.
      apply Z.ltb_lt in Hbad. now rewrite Hbad. }
    exists "❌ End date must not be before start date.". split; [| split].
    - intros. rewrite generate_rejects_dates; try assumption.
      + now rewrite Hv.
      + now rewrite Hv.
    - intros [Hne | Hne]; contradiction.
    - reflexivity. }
  destruct Hrun as (msg & Hgen & Hcity & Hdates).
  assert (Hmain : App.main w h inp 0
                  = (inr tt, (prelude_events w ++ [StError msg])%list)).
  { rewrite main_run. cbv zeta. rewrite Hbutton. now rewrite Hgen. }
  exists msg.
  split; [exact Hmain |].
  split; [exact Hcity |].
  split; [exact Hdates |].
  unfold events_of. rewrite Hmain. cbn [snd].
  apply stopped_run_calls.
Qed.

Lemma C3_witness :
  App.validate_dates Samples.helpers = App.validate_dates_spec
  /\ App.generate_button Samples.trip_backwards = true
  /\ (App.end_date Samples.trip_backwards < App.start_date Samples.trip_backwards)%Z
  /\ exists msg,
       App.main Samples.placeholder_env Samples.helpers Samples.trip_backwards 0
       = (inr tt, (prelude_events Samples.placeholder_env ++ [StError msg])%list)
       /\ (App.source Samples.trip_backwards = ""
           \/ App.destination Samples.trip_backwards = "" -> msg = App.missing_city_error)
       /\ (App.source Samples.trip_backwards <> "" ->
           App.destination Samples.trip_backwards <> "" ->
           msg = "❌ End date must not be before start date.")
       /\ count is_generation
            (events_of (App.main Samples.placeholder_env Samples.helpers Samples.trip_backwards)) = 0
       /\ count is_enrichment
            (events_of (App.main Samples.placeholder_env Samples.helpers Samples.trip_backwards)) = 0
       /\ count opens_result
            (events_of (App.main Samples.placeholder_env Samples.helpers Samples.trip_backwards)) = 0
       /\ Forall (fun e => is_network e = true -> e = OllamaTags (probe_url Samples.placeholder_env))
            (events_of (App.main Samples.placeholder_env Samples.helpers Samples.trip_backwards)).
Proof.
  split; [reflexivity |].
  split; [reflexivity |].
  split; [reflexivity |].
  apply (C3_invalid_request_is_rejected
           Samples.placeholder_env Samples.helpers Samples.trip_backwards);
    [reflexivity | reflexivity | right; right; reflexivity].
Defined.

(** C3, as the specification words it, fails: the run that rejects a request
    without source has already asked the local model's server for its tags. *)
Lemma C3_probe_precedes_rejection :
  App.main Samples.placeholder_env Samples.helpers Samples.trip_without_source 0
  = (inr tt,
     [ StMarkdown ("<p class=" ++ PyStr.dq ++ "main-header" ++ PyStr.dq
                   ++ ">✈️ AI Travel Planner</p>");
       StMarkdown ("<p class=" ++ PyStr.dq ++ "sub-header" ++ PyStr.dq
                   ++ ">Generate personalized travel itineraries powered by AI</p>");
       OllamaTags "http://localhost:11434";
       StWarning "⚠️ Some services are unavailable. Please check your API keys in the .env file.";
       StError "OpenAI: API key not configured. Please add your OPENAI_API_KEY to the .env file.";
       StError "Google Places: API key not configured. Please add your GOOGLE_PLACES_API_KEY to the .env file.";
       StHeader "📝 Trip Details";
       StMarkdown "---";
       StSubheader "🤖 AI Service";
       StError "❌ Please fill in both source and destination cities." ])
  /\ is_network (OllamaTags "http://localhost:11434") = true
  /\ count is_network
       (events_of (App.main Samples.placeholder_env Samples.helpers
                     Samples.trip_without_source)) = 1
  /\ ~ rejected_before_any_network_call.
Proof.
  split; [vm_compute; reflexivity |].
  split; [reflexivity |].
  split; [vm_compute; reflexivity |].
  intros Hspec.
  specialize (Hspec Samples.placeholder_env Samples.helpers Samples.trip_without_source
                eq_refl eq_refl (or_introl eq_refl)).
  vm_compute in Hspec. discriminate Hspec.
Qed.

(* ===================================================================== *)
(** ** The enrichment clients *)
(* ===================================================================== *)

Section BestEffort.

Context {A : Type}.

(** A [try] whose handler always returns never raises. *)
Lemma try_except_total (c : M A) (h : exn -> M A) (n : nat) :
  (forall e m, exists a t, h e m = (inr a, t)) ->
  exists a t, try_except c h n = (inr a, t).
Proof.
  intros Hh. unfold try_except.
  destruct (c n) as [[e | a] t].
  - destruct (Hh e (n + List.length t)) as (a & t' & ->). eauto.
  - eauto.
Qed.

End BestEffort.

Section Places.

Variable w : World.
Variable self : PlacesService.t.
Variable destination : string.
Variable limit : Z.

Lemma search_never_raises (type_ : string) (entry : gm_place -> PlacesService.dict)
    (what : string) (n : nat) :
  exists found t,
    PlacesService.search w self destination limit type_ entry what n = (inr found, t).
Proof.
  unfold PlacesService.search. apply try_except_total.
  intros e m. unfold bind, emit, ret. simpl. eauto.
Qed.

Lemma search_no_match (type_ : string) (entry : gm_place -> PlacesService.dict)
    (what : string) (n : nat) :
  gmaps_geocode w n destination = inr [] ->
  PlacesService.search w self destination limit type_ entry what n
  = (inr [], [PlacesGeocode destination]).
Proof.
  intros Hgeo.
  unfold PlacesService.search, try_except, bind, call, lift, ret.
  rewrite Hgeo. reflexivity.
Qed.

Lemma search_geocode_fault (type_ : string) (entry : gm_place -> PlacesService.dict)
    (what : string) (n : nat) (e : exn) :
  gmaps_geocode w n destination = inl e ->
  PlacesService.search w self destination limit type_ entry what n
  = (inr [], [PlacesGeocode destination;
              Print ("Error fetching " ++ what ++ ": " ++ exn_msg e)]).
Proof.
  intros Hgeo.
  unfold PlacesService.search, try_except, bind, call, lift, raise, emit, ret.
  rewrite Hgeo. reflexivity.
Qed.

Lemma search_nearby_fault (type_ : string) (entry : gm_place -> PlacesService.dict)
    (what : string) (n : nat) (first : gm_geocode) (rest : list gm_geocode)
    (lat lng : pyval) (e : exn) :
  gmaps_geocode w n destination = inr (first :: rest) ->
  coordinates first = Some (lat, lng) ->
  gmaps_places_nearby w (n + 1) lat lng type_ = inl e ->
  PlacesService.search w self destination limit type_ entry what n
  = (inr [], [PlacesGeocode destination; PlacesNearby lat lng type_;
              Print ("Error fetching " ++ what ++ ": " ++ exn_msg e)]).
Proof.
  intros Hgeo Hcoord Hnear.
  unfold coordinates in Hcoord.
  destruct (gm_geometry_of first) as [geometry |] eqn:Hg; [| discriminate].
  destruct (gm_location_of geometry) as [location |] eqn:Hl; [| discriminate].
  destruct (gm_lat location) as [lat' |] eqn:Hlat; [| discriminate].
  destruct (gm_lng location) as [lng' |] eqn:Hlng; [| discriminate].
  injection Hcoord as -> ->.
  unfold PlacesService.search, try_except, bind, call, lift, lookup, raise, emit, ret.
  rewrite Hgeo. cbn [List.length]. rewrite Hg, Hl, Hlat, Hlng.
  cbn [List.length]. rewrite !Nat.add_0_r, Hnear. reflexivity.
Qed.

(** The search gives the empty list unless both calls answered and the
    geocoding result had its coordinates. *)
Lemma search_cases (type_ : string) (entry : gm_place -> PlacesService.dict)
    (what : string) (n : nat) :
  fst (PlacesService.search w self destination limit type_ entry what n) = inr []
  \/ exists first rest lat lng answer,
       gmaps_geocode w n destination = inr (first :: rest)
       /\ coordinates first = Some (lat, lng)
       /\ gmaps_places_nearby w (n + 1) lat lng type_ = inr answer
       /\ fst (PlacesService.search w self destination limit type_ entry what n)
          = inr (map entry (slice_to (get (gn_results answer) []) limit)).
Proof.
  unfold PlacesService.search, try_except, bind, call, lift, lookup, raise, emit, ret.
  destruct (gmaps_geocode w n destination) as [e | [| first rest]] eqn:Hgeo;
    cbn [List.length]; [now left | now left |].
  destruct (gm_geometry_of first) as [geometry |] eqn:Hg; [| now left].
  destruct (gm_location_of geometry) as [location |] eqn:Hl; [| now left].
  destruct (gm_lat location) as [lat |] eqn:Hlat; [| now left].
  destruct (gm_lng location) as [lng |] eqn:Hlng; [| now left].
  cbn [List.length]. rewrite !Nat.add_0_r.
  destruct (gmaps_places_nearby w (n + 1) lat lng type_) as [e | answer] eqn:Hnear;
    [now left |].
  right. exists first, rest, lat, lng, answer.
  split; [reflexivity |].
  split; [unfold coordinates; now rewrite Hg, Hl, Hlat, Hlng |].
  split; [exact Hnear | reflexivity].
Qed.
Lemma get_by_is_search (c : PlacesService.category) :
  PlacesService.get_by c w self destination limit
  = PlacesService.search w self destination limit (place_type c)
      (match c with
       | PlacesService.Restaurant => PlacesService.restaurant_entry
       | _ => PlacesService.plain_entry
       end)
      (place_label c).
Proof. destruct c; reflexivity. Qed.

End Places.

(** C5: for each of the three categories the search returns a list and
    never raises; a destination that geocodes to no result gives the empty
    list after the one geocoding call; a fault of the geocoding call, and a
    fault of the nearby search, is caught, printed and turned into the empty
    list; in all, the list is empty unless both calls answered. *)
Theorem C5_places_search_is_best_effort
    (w : World) (self : PlacesService.t) (destination : string) (limit : Z)
    (c : PlacesService.category) (n : nat) :
  (exists found t,
      PlacesService.get_by c w self destination limit n = (inr found, t))
  /\ (gmaps_geocode w n destination = inr [] ->
      PlacesService.get_by c w self destination limit n
      = (inr [], [PlacesGeocode destination]))
  /\ (forall e,
         gmaps_geocode w n destination = inl e ->
         PlacesService.get_by c w self destination limit n
         = (inr [], [PlacesGeocode destination;
                     Print ("Error fetching " ++ place_label c ++ ": " ++ exn_msg e)]))
  /\ (forall first rest lat lng e,
         gmaps_geocode w n destination = inr (first :: rest) ->
         coordinates first = Some (lat, lng) ->
         gmaps_places_nearby w (n + 1) lat lng (place_type c) = inl e ->
         PlacesService.get_by c w self destination limit n
         = (inr [], [PlacesGeocode destination; PlacesNearby lat lng (place_type c);
                     Print ("Error fetching " ++ place_label c ++ ": " ++ exn_msg e)]))
  /\ (fst (PlacesService.get_by c w self destination limit n) = inr []
      \/ exists first rest lat lng answer,
           gmaps_geocode w n destination = inr (first :: rest)
           /\ coordinates first = Some (lat, lng)
           /\ gmaps_places_nearby w (n + 1) lat lng (place_type c) = inr answer).
Proof.
  rewrite get_by_is_search.
  split; [apply search_never_raises |].
  split; [apply search_no_match |].
  split; [intros e; apply search_geocode_fault |].
  split; [intros first rest lat lng e; apply search_nearby_fault |].
  destruct (search_cases w self destination limit (place_type c)
              (match c with
               | PlacesService.Restaurant => PlacesService.restaurant_entry
               | _ => PlacesService.plain_entry
               end) (place_label c) n)
    as [Hempty | (first & rest & lat & lng & answer & Hgeo & Hcoord & Hnear & _)].
  - now left.
  - right. exists first, rest, lat, lng, answer. auto.
Qed.

Lemma C5_witness :
  PlacesService.get_by PlacesService.Attraction
    (Samples.weather_world (HttpRaised Samples.refused))
    Samples.places_client "Atlantis" 5 0
  = (inr [], [PlacesGeocode "Atlantis"])
  /\ PlacesService.get_by PlacesService.Restaurant Samples.offline
       Samples.places_client "Paris" 5 0
     = (inr [], [PlacesGeocode "Paris";
                 Print "Error fetching restaurants: connection refused"])
  /\ PlacesService.get_by PlacesService.Cafe Samples.nearby_fails
       Samples.places_client "Paris" 5 0
     = (inr [], [PlacesGeocode "Paris";
                 PlacesNearby (PyFloat "48.8606") (PyFloat "2.3376") "cafe";
                 Print "Error fetching cafes: read timed out"]).
Proof.
  split; [| split].
  - apply (C5_places_search_is_best_effort
             (Samples.weather_world (HttpRaised Samples.refused))
             Samples.places_client "Atlantis" 5 PlacesService.Attraction 0).
    reflexivity.
  - apply (proj1 (proj2 (proj2 (C5_places_search_is_best_effort
             Samples.offline Samples.places_client "Paris" 5 PlacesService.Restaurant 0)))
             Samples.refused).
    reflexivity.
  - apply (proj1 (proj2 (proj2 (proj2 (C5_places_search_is_best_effort
             Samples.nearby_fails Samples.places_client "Paris" 5 PlacesService.Cafe 0))))
             Samples.louvre [] (PyFloat "48.8606") (PyFloat "2.3376") Samples.timed_out);
      reflexivity.
Defined.

Ltac weather_unfold :=
  unfold WeatherService.get_weather_summary, try_except, bind, call,
    response_of, lift, lookup, raise, emit, ret.

Section Weather.

Variable w : World.
Variable self : WeatherService.t.
Variable destination : string.
Variables start_date end_date : Z.

Lemma summary_never_raises (n : nat) :
  exists r t,
    WeatherService.get_weather_summary w self destination start_date end_date n
    = (inr r, t).
Proof.
  unfold WeatherService.get_weather_summary.
  destruct (key_falsy _); [unfold ret; eauto |].
  apply try_except_total. intros e m. unfold bind, emit, ret. simpl. eauto.
Qed.

Lemma summary_without_key (n : nat) :
  key_falsy (WeatherService.api_key self) = true ->
  WeatherService.get_weather_summary w self destination start_date end_date n
  = (inr None, []).
Proof. intros Hkey. unfold WeatherService.get_weather_summary. now rewrite Hkey. Qed.

Lemma summary_geocode_fails (n : nat) :
  key_falsy (WeatherService.api_key self) = false ->
  weather_geocode_fails (requests_get_geo w n destination) ->
  fst (WeatherService.get_weather_summary w self destination start_date end_date n) = inr None.
Proof.
  intros Hkey Hfail. weather_unfold. rewrite Hkey.
  destruct (requests_get_geo w n destination) as [e | status text json]; [reflexivity |].
  simpl in Hfail. cbn [List.length].
  destruct (status =? 200)%Z eqn:Hst; [| reflexivity].
  apply Z.eqb_eq in Hst. destruct Hfail as [Hne | Hjson]; [contradiction |].
  destruct json as [e | [| first rest]]; try reflexivity.
  cbn beta iota. 
  destruct Hjson as [-> | Hlon].
  - reflexivity.
  - destruct (og_lat first); [| reflexivity]. rewrite Hlon. reflexivity.
Qed.

Lemma summary_current_fails (n : nat) (lat lon : pyval) :
  key_falsy (WeatherService.api_key self) = false ->
  weather_geocode_gives (requests_get_geo w n destination) lat lon ->
  weather_fetch_fails (requests_get_weather w (n + 1) lat lon) ->
  fst (WeatherService.get_weather_summary w self destination start_date end_date n) = inr None.
Proof.
  intros Hkey (text & first & rest & Hgeo & Hlat & Hlon) Hfail.
  weather_unfold. rewrite Hkey, Hgeo. cbn [List.length Z.eqb Pos.eqb negb].
  rewrite Hlat, Hlon. cbn [List.length]. rewrite !Nat.add_0_r.
  destruct (requests_get_weather w (n + 1) lat lon) as [e | status wtext json];
    [reflexivity |].
  simpl in Hfail. cbn [List.length].
  destruct (status =? 200)%Z eqn:Hst; [| reflexivity].
  apply Z.eqb_eq in Hst. destruct Hfail as [Hne | Hjson]; [contradiction |].
  destruct json as [e | payload]; [reflexivity |].
  cbn [negb List.length].
  destruct (requests_get_forecast w _ lat lon) as [e | fstatus ftext fjson];
    [reflexivity |].
  cbn [List.length].
  unfold current_of in Hjson.
  destruct (fstatus =? 200)%Z; [destruct fjson as [e | forecast_data]; [reflexivity |] |];
    cbn [List.length];
    (destruct (ow_main_of payload) as [main |]; [| reflexivity]);
    cbn [List.length];
    (destruct (owm_temp main) as [temp |]; [| reflexivity]);
    cbn [List.length];
    (destruct (ow_weather_of payload) as [[| condition conditions] |]; try reflexivity);
    cbn [hd_error List.length];
    (destruct (owc_description condition) as [descr |]; [| reflexivity]);
    cbn [List.length];
    (destruct (owm_humidity main) as [humid |]; [| reflexivity]);
    discriminate Hjson.
Qed.

Lemma summary_forecast (n : nat) (lat lon : pyval) (c : WeatherService.current_dict) :
  key_falsy (WeatherService.api_key self) = false ->
  weather_geocode_gives (requests_get_geo w n destination) lat lon ->
  weather_fetch_gives (requests_get_weather w (n + 1) lat lon) c ->
  fst (WeatherService.get_weather_summary w self destination start_date end_date n)
  = match requests_get_forecast w (n + 2) lat lon with
    | HttpRaised _ => inr None
    | HttpResponse status _ json =>
        if (status =? 200)%Z then
          match json with
          | inl _ => inr None
          | inr forecast_data =>
              inr (Some {| WeatherService.current := Some c;
                           WeatherService.forecast := Some forecast_data;
                           WeatherService.location := Some (PyStr destination) |})
          end
        else
          inr (Some {| WeatherService.current := Some c;
                       WeatherService.forecast := Some None;
                       WeatherService.location := Some (PyStr destination) |})
    end.
Proof.
  intros Hkey (text & first & rest & Hgeo & Hlat & Hlon)
         (wtext & payload & Hweather & Hcurrent).
  unfold current_of in Hcurrent.
  destruct (ow_main_of payload) as [main |] eqn:Hmain; [| discriminate].
  destruct (ow_weather_of payload) as [[| condition conditions] |] eqn:Hconds;
    try discriminate.
  destruct (owm_temp main) as [temp |] eqn:Htemp; [| discriminate].
  destruct (owc_description condition) as [descr |] eqn:Hdescr; [| discriminate].
  destruct (owm_humidity main) as [humid |] eqn:Hhumid; [| discriminate].
  injection Hcurrent as <-.
  weather_unfold. rewrite Hkey, Hgeo. cbn [List.length Z.eqb Pos.eqb negb].
  rewrite Hlat, Hlon. cbn [List.length]. rewrite !Nat.add_0_r, Hweather.
  cbn [List.length Z.eqb Pos.eqb negb]. rewrite !Nat.add_0_r.
  replace (n + 1 + 1) with (n + 2) by lia.
  destruct (requests_get_forecast w (n + 2) lat lon) as [e | status ftext json];
    [reflexivity |].
  cbn [List.length].
  destruct (status =? 200)%Z.
  - destruct json as [e | forecast_data]; [reflexivity |].
    cbn [List.length]. rewrite Hmain, Htemp, Hconds. cbn [hd_error List.length].
    rewrite Hdescr, Hhumid. reflexivity.
  - cbn [List.length]. rewrite Hmain, Htemp, Hconds. cbn [hd_error List.length].
    rewrite Hdescr, Hhumid. reflexivity.
Qed.

End Weather.

(** C4, as the code has it: the summary operation never raises; without a
    credential it returns [None] and makes no call; it returns [None] when
    geocoding fails (the request raises, the status is not 200, the body is
    not JSON, no result, a result without coordinates) and when the
    current-conditions fetch fails (the request raises, the status is not
    200, the body is not JSON, a key is missing); when both succeed and the
    forecast request answers with a status other than 200, the summary is
    returned with the current conditions and with [None] as forecast; when
    the forecast request raises, the handler of the whole operation returns
    [None]. *)
Theorem C4_weather_summary_degrades
    (w : World) (self : WeatherService.t) (destination : string)
    (start_date end_date : Z) (n : nat) :
  (exists r t,
      WeatherService.get_weather_summary w self destination start_date end_date n
      = (inr r, t))
  /\ (key_falsy (WeatherService.api_key self) = true ->
      WeatherService.get_weather_summary w self destination start_date end_date n
      = (inr None, []))
  /\ (key_falsy (WeatherService.api_key self) = false ->
      weather_geocode_fails (requests_get_geo w n destination) ->
      fst (WeatherService.get_weather_summary w self destination start_date end_date n)
      = inr None)
  /\ (forall lat lon,
         key_falsy (WeatherService.api_key self) = false ->
         weather_geocode_gives (requests_get_geo w n destination) lat lon ->
         weather_fetch_fails (requests_get_weather w (n + 1) lat lon) ->
         fst (WeatherService.get_weather_summary w self destination start_date end_date n)
         = inr None)
  /\ (forall lat lon c status text json,
         key_falsy (WeatherService.api_key self) = false ->
         weather_geocode_gives (requests_get_geo w n destination) lat lon ->
         weather_fetch_gives (requests_get_weather w (n + 1) lat lon) c ->
         requests_get_forecast w (n + 2) lat lon = HttpResponse status text json ->
         status <> 200%Z ->
         fst (WeatherService.get_weather_summary w self destination start_date end_date n)
         = inr (Some {| WeatherService.current := Some c;
                        WeatherService.forecast := Some None;
                        WeatherService.location := Some (PyStr destination) |}))
  /\ (forall lat lon c e,
         key_falsy (WeatherService.api_key self) = false ->
         weather_geocode_gives (requests_get_geo w n destination) lat lon ->
         weather_fetch_gives (requests_get_weather w (n + 1) lat lon) c ->
         requests_get_forecast w (n + 2) lat lon = HttpRaised e ->
         fst (WeatherService.get_weather_summary w self destination start_date end_date n)
         = inr None).
Proof.
  split; [apply summary_never_raises |].
  split; [apply summary_without_key |].
  split; [apply summary_geocode_fails |].
  split; [apply summary_current_fails |].
  split.
  - intros lat lon c status text json Hkey Hgeo Hcur Hfc Hst.
    rewrite (summary_forecast w self destination start_date end_date n lat lon c Hkey Hgeo Hcur).
    rewrite Hfc. apply Z.eqb_neq in Hst. now rewrite Hst.
  - intros lat lon c e Hkey Hgeo Hcur Hfc.
    rewrite (summary_forecast w self destination start_date end_date n lat lon c Hkey Hgeo Hcur).
    now rewrite Hfc.
Qed.

Lemma C4_witness :
  WeatherService.get_weather_summary Samples.forecast_unavailable
    Samples.weather_client_without_key "Paris" 739000 739007 0
  = (inr None, [])
  /\ fst (WeatherService.get_weather_summary Samples.offline
            Samples.weather_client "Paris" 739000 739007 0)
     = inr None
  /\ fst (WeatherService.get_weather_summary Samples.forecast_unavailable
            Samples.weather_client "Paris" 739000 739007 0)
     = inr (Some {| WeatherService.current :=
                      Some {| WeatherService.temperature := Some (PyFloat "18.4");
                              WeatherService.description := Some (PyStr "light rain");
                              WeatherService.humidity := Some (PyInt 62);
                              WeatherService.wind_speed := Some (PyFloat "3.6") |};
                    WeatherService.forecast := Some None;
                    WeatherService.location := Some (PyStr "Paris") |})
  /\ fst (WeatherService.get_weather_summary Samples.forecast_times_out
            Samples.weather_client "Paris" 739000 739007 0)
     = inr None.
Proof.
  split; [| split; [| split]].
  - apply (C4_weather_summary_degrades Samples.forecast_unavailable
             Samples.weather_client_without_key "Paris" 739000 739007 0).
    reflexivity.
  - apply (C4_weather_summary_degrades Samples.offline
             Samples.weather_client "Paris" 739000 739007 0);
      [reflexivity | exact I].
  - apply (proj1 (proj2 (proj2 (proj2 (proj2
             (C4_weather_summary_degrades Samples.forecast_unavailable
                Samples.weather_client "Paris" 739000 739007 0)))))
             (PyFloat "48.8589") (PyFloat "2.32") _ 503%Z "Service Unavailable"
             (inl (Exn EValueError "no JSON"))).
    + reflexivity.
    + exists "[...]", Samples.paris, []. repeat split.
    + exists "{...}", Samples.mild. split; reflexivity.
    + reflexivity.
    + discriminate.
  - apply (proj2 (proj2 (proj2 (proj2 (proj2
             (C4_weather_summary_degrades Samples.forecast_times_out
                Samples.weather_client "Paris" 739000 739007 0)))))
             (PyFloat "48.8589") (PyFloat "2.32")
             {| WeatherService.temperature := Some (PyFloat "18.4");
                WeatherService.description := Some (PyStr "light rain");
                WeatherService.humidity := Some (PyInt 62);
                WeatherService.wind_speed := Some (PyFloat "3.6") |}
             Samples.timed_out).
    + reflexivity.
    + exists "[...]", Samples.paris, []. repeat split.
    + exists "{...}", Samples.mild. split; reflexivity.
    + reflexivity.
Defined.

(** C4, as the specification words it, fails: with geocoding and current
    conditions answered and the forecast request timing out, the forecast
    fetch is the only one that fails, and the operation returns [None]. *)
Lemma C4_forecast_timeout_gives_None :
  key_falsy (WeatherService.api_key Samples.weather_client) = false
  /\ weather_geocode_gives (requests_get_geo Samples.forecast_times_out 0 "Paris")
       (PyFloat "48.8589") (PyFloat "2.32")
  /\ weather_fetch_gives
       (requests_get_weather Samples.forecast_times_out 1 (PyFloat "48.8589") (PyFloat "2.32"))
       {| WeatherService.temperature := Some (PyFloat "18.4");
          WeatherService.description := Some (PyStr "light rain");
          WeatherService.humidity := Some (PyInt 62);
          WeatherService.wind_speed := Some (PyFloat "3.6") |}
  /\ fetch_fails
       (requests_get_forecast Samples.forecast_times_out 2 (PyFloat "48.8589") (PyFloat "2.32"))
  /\ WeatherService.get_weather_summary Samples.forecast_times_out
       Samples.weather_client "Paris" 739000 739007 0
     = (inr None,
        [ WeatherGeocode "Paris";
          WeatherCurrent (PyFloat "48.8589") (PyFloat "2.32");
          WeatherForecast (PyFloat "48.8589") (PyFloat "2.32");
          Print "Error fetching weather: read timed out" ])
  /\ ~ forecast_failure_always_degrades.
Proof.
  assert (Hgeo : weather_geocode_gives (requests_get_geo Samples.forecast_times_out 0 "Paris")
                   (PyFloat "48.8589") (PyFloat "2.32")).
  { exists "[...]", Samples.paris, []. repeat split. }
  assert (Hcur : weather_fetch_gives
                   (requests_get_weather Samples.forecast_times_out 1
                      (PyFloat "48.8589") (PyFloat "2.32"))
                   {| WeatherService.temperature := Some (PyFloat "18.4");
                      WeatherService.description := Some (PyStr "light rain");
                      WeatherService.humidity := Some (PyInt 62);
                      WeatherService.wind_speed := Some (PyFloat "3.6") |}).
  { exists "{...}", Samples.mild. split; reflexivity. }
  split; [reflexivity |].
  split; [exact Hgeo |].
  split; [exact Hcur |].
  split; [exact I |].
  split; [vm_compute; reflexivity |].
  intros Hspec.
  destruct (Hspec Samples.forecast_times_out Samples.weather_client "Paris"
              739000%Z 739007%Z 0 _ _ _ eq_refl Hgeo Hcur I)
    as (summary & Hrun & _).
  vm_compute in Hrun. discriminate Hrun.
Qed.

Section WeatherFormat.

Variable w : World.

Lemma py_title_of_text (description : option pyval) (n : nat) :
  textual description = true ->
  WeatherService.py_title w (get description (PyStr "N/A")) n
  = (inr (shown_title w description), []).
Proof.
  destruct description as [[] |]; intros H; try discriminate H; reflexivity.
Qed.

Lemma shown_get (field : option pyval) :
  py_str (get field (PyStr "N/A")) = shown field.
Proof. destruct field; reflexivity. Qed.

Lemma format_of_summary (d : WeatherService.weather_dict) (n : nat) :
  WeatherService.falsy (Some d) = false ->
  textual (description_of (Some d)) = true ->
  WeatherService.format_weather_summary w (Some d) n = (inr (weather_block w d), []).
Proof.
  intros Hfalsy Htext.
  unfold WeatherService.format_weather_summary. rewrite Hfalsy.
  cbn [get]. unfold bind.
  assert (Hd : textual (WeatherService.description
                          (get (WeatherService.current d) WeatherService.empty_current))
               = true).
  { unfold description_of in Htext. destruct (WeatherService.current d); [exact Htext |].
    reflexivity. }
  rewrite (py_title_of_text _ n Hd). cbn [List.length app]. unfold ret.
  rewrite !shown_get. unfold weather_block, PyStr.join. cbn [String.concat].
  rewrite !app_assoc_string. reflexivity.
Qed.

(** A description that is there and is not a string makes the operation
    raise: [.title()] is called on whatever [get] returns. *)
Lemma format_of_untitled_description (weather_data : option WeatherService.weather_dict)
    (v : pyval) (n : nat) :
  description_of weather_data = Some v ->
  textual (Some v) = false ->
  WeatherService.format_weather_summary w weather_data n
  = (inl (no_attribute v "title"), []).
Proof.
  intros Hv Htext. destruct weather_data as [d |]; [| discriminate Hv].
  unfold description_of in Hv.
  destruct (WeatherService.current d) as [c |] eqn:Hc; [| discriminate Hv].
  unfold WeatherService.format_weather_summary, WeatherService.falsy.
  rewrite Hc. cbn [get]. unfold bind. rewrite Hc. cbn [get]. rewrite Hv. cbn [get].
  destruct v; try discriminate Htext; reflexivity.
Qed.

End WeatherFormat.

(** C9, as amended: formatting returns a text and raises nothing for
    [None], for the empty dictionary and for every summary whose
    description, when present, is a string: [None] gives "Weather
    information unavailable.", and a summary gives the block of four lines
    in which each of temperature, description, humidity and wind speed that
    is missing reads "N/A". *)
Theorem C9_weather_format_never_fails_on_text
    (w : World) (weather_data : option WeatherService.weather_dict) (n : nat) :
  textual (description_of weather_data) = true ->
  exists text,
    WeatherService.format_weather_summary w weather_data n = (inr text, [])
    /\ (WeatherService.falsy weather_data = true ->
        text = "Weather information unavailable.")
    /\ (forall d, weather_data = Some d -> WeatherService.falsy weather_data = false ->
                  text = weather_block w d)
    /\ shown None = "N/A" /\ shown_title w None = "N/A".
Proof.
  intros Htext.
  destruct (WeatherService.falsy weather_data) eqn:Hfalsy.
  - exists "Weather information unavailable.".
    split; [| split; [reflexivity | split; [discriminate | split; reflexivity]]].
    unfold WeatherService.format_weather_summary. now rewrite Hfalsy.
  - destruct weather_data as [d |]; [| discriminate Hfalsy].
    exists (weather_block w d).
    split; [now apply format_of_summary |].
    split; [discriminate |].
    split; [| split; reflexivity].
    intros d' Heq _. now injection Heq as <-.
Qed.

Lemma C9_witness :
  textual (description_of (Some Samples.partial_summary)) = true
  /\ WeatherService.format_weather_summary Samples.all_up (Some Samples.partial_summary) 0
     = (inr (PyStr.join PyStr.nl
               [ "**Weather in Paris:**";
                 "";
                 "ğŸŒ¡ï¸ Temperature: N/AÂ°C";
                 "â˜ï¸ Conditions: N/A";
                 "ğŸ’§ Humidity: 62%";
                 "ğŸ’¨ Wind Speed: N/A m/s";
                 "" ]), []).
Proof.
  split; [reflexivity |].
  destruct (C9_weather_format_never_fails_on_text
              Samples.all_up (Some Samples.partial_summary) 0 eq_refl)
    as (text & Hrun & _ & Hblock & _).
  rewrite Hrun, (Hblock Samples.partial_summary eq_refl eq_refl).
  reflexivity.
Defined.

(** C9, as the specification words it, fails: the summary that
    [get_weather_summary] returns when the description of the current
    conditions is null makes the formatting raise. *)
Lemma C9_null_description_raises :
  WeatherService.get_weather_summary Cases.null_description Samples.weather_client
    "Paris" 739000 739007 0
  = (inr (Some Cases.null_summary),
     [ WeatherGeocode "Paris";
       WeatherCurrent (PyFloat "48.8589") (PyFloat "2.32");
       WeatherForecast (PyFloat "48.8589") (PyFloat "2.32") ])
  /\ WeatherService.format_weather_summary Cases.null_description
       (Some Cases.null_summary) 0
     = (inl (Exn EAttributeError "'NoneType' object has no attribute 'title'"), [])
  /\ ~ formatting_never_fails.
Proof.
  assert (Hraises : WeatherService.format_weather_summary Cases.null_description
                      (Some Cases.null_summary) 0
                    = (inl (Exn EAttributeError
                              "'NoneType' object has no attribute 'title'"), []))
    by reflexivity.
  split; [reflexivity |].
  split; [exact Hraises |].
  intros Hclaim.
  destruct (Hclaim Cases.null_description (Some Cases.null_summary) 0) as (text & t & Hrun).
  rewrite Hraises in Hrun. discriminate Hrun.
Qed.

(* ===================================================================== *)
(** ** The sections of an itinerary, line by line *)
(* ===================================================================== *)

Section Lines.

Lemma split_nl_not_nil (s : string) : PyStr.split_nl s <> [].
Proof.
  induction s as [| c r IH]; simpl; [discriminate |].
  destruct (Ascii.eqb c (ascii_of_nat 10)); [discriminate |].
  destruct (PyStr.split_nl r); [contradiction | discriminate].
Qed.

Lemma join_cons (sep x : string) (l : list string) :
  l <> [] -> PyStr.join sep (x :: l) = x ++ sep ++ PyStr.join sep l.
Proof. destruct l; [contradiction | reflexivity]. Qed.

Lemma join_split_nl (s : string) : PyStr.join PyStr.nl (PyStr.split_nl s) = s.
Proof.
  induction s as [| c r IH]; [reflexivity |].
  simpl PyStr.split_nl.
  destruct (Ascii.eqb c (ascii_of_nat 10)) eqn:Hc.
  - apply Ascii.eqb_eq in Hc. subst c.
    rewrite join_cons by apply split_nl_not_nil. now rewrite IH.
  - pose proof (split_nl_not_nil r) as Hne.
    destruct (PyStr.split_nl r) as [| l ls]; [contradiction |].
    destruct ls as [| l' ls'].
    + simpl in *. now rewrite IH.
    + rewrite join_cons by discriminate. rewrite join_cons in IH by discriminate.
      rewrite <- IH. reflexivity.
Qed.

Lemma split_nl_one_line (s : string) : Forall one_line (PyStr.split_nl s).
Proof.
  induction s as [| c r IH]; simpl.
  - repeat constructor. intros [].
  - destruct (Ascii.eqb c (ascii_of_nat 10)) eqn:Hc.
    + constructor; [intros [] | exact IH].
    + destruct (PyStr.split_nl r) as [| l ls]; [repeat constructor |].
      * intros [H | []]. apply Ascii.eqb_neq in Hc. congruence.
      * inversion IH as [| ? ? Hl Hls]; subst. constructor; [| exact Hls].
        intros [H | H]; [apply Ascii.eqb_neq in Hc; congruence | now apply Hl].
Qed.

Lemma split_nl_of_one_line (x : string) : one_line x -> PyStr.split_nl x = [x].
Proof.
  induction x as [| c r IH]; intros Hx; [reflexivity |].
  simpl. destruct (Ascii.eqb c (ascii_of_nat 10)) eqn:Hc.
  - apply Ascii.eqb_eq in Hc. exfalso. apply Hx. left. now symmetry.
  - rewrite IH; [reflexivity |]. intros H. apply Hx. now right.
Qed.

Lemma split_nl_app (x r : string) :
  one_line x -> PyStr.split_nl (x ++ String (ascii_of_nat 10) r) = x :: PyStr.split_nl r.
Proof.
  induction x as [| c x IH]; intros Hx.
  - reflexivity.
  - simpl. destruct (Ascii.eqb c (ascii_of_nat 10)) eqn:Hc.
    + apply Ascii.eqb_eq in Hc. exfalso. apply Hx. left. now symmetry.
    + rewrite IH; [reflexivity |]. intros H. apply Hx. now right.
Qed.

Lemma split_nl_join (content : list string) :
  content <> [] -> Forall one_line content ->
  PyStr.split_nl (PyStr.join PyStr.nl content) = content.
Proof.
  induction content as [| x rest IH]; intros Hne Hall; [contradiction |].
  inversion Hall as [| ? ? Hx Hrest]; subst.
  destruct rest as [| y rest'].
  - simpl. now apply split_nl_of_one_line.
  - rewrite join_cons by discriminate. unfold PyStr.nl. simpl append.
    rewrite split_nl_app by assumption.
    f_equal. apply IH; [discriminate | assumption].
Qed.

End Lines.

Section Spaces.

Lemma lstrip_unfold (s : string) :
  PyStr.lstrip s
  = match PyStr.after_space s with
    | Some r => PyStr.lstrip r
    | None => s
    end.
Proof.
  destruct s as [| c1 [| c2 [| c3 r]]]; cbn [PyStr.lstrip PyStr.after_space];
    try reflexivity.
  - destruct (PyStr.is_space1 c1); reflexivity.
  - destruct (PyStr.is_space1 c1); [reflexivity |].
    destruct (PyStr.is_space2 c1 c2); reflexivity.
  - destruct (PyStr.is_space1 c1); [reflexivity |].
    destruct (PyStr.is_space2 c1 c2); [reflexivity |].
    destruct (PyStr.is_space3 c1 c2 c3); reflexivity.
Qed.

(** What [after_space] drops: one, two or three bytes, none of them plain. *)
Lemma after_space_cases (s r : string) :
  PyStr.after_space s = Some r ->
  exists pre, s = pre ++ r /\ pre <> ""
              /\ Forall (fun c => plain c = false) (chars pre).
Proof.
  assert (H1 : forall c, PyStr.is_space1 c = true -> plain c = false).
  { intros c H. unfold plain. now rewrite H. }
  assert (Hhigh : forall c n, PyStr.code c = n -> 128 <= n -> plain c = false).
  { intros c n Hc Hn. unfold plain. rewrite Hc.
    replace (Nat.ltb n 128) with false by (symmetry; apply Nat.ltb_ge; exact Hn).
    apply andb_false_r. }
  assert (H2 : forall c1 c2, PyStr.is_space2 c1 c2 = true ->
                             plain c1 = false /\ plain c2 = false).
  { intros c1 c2 H. unfold PyStr.is_space2 in H.
    apply andb_true_iff in H. destruct H as [Ha Hb].
    apply Nat.eqb_eq in Ha. apply orb_true_iff in Hb.
    split; [eapply Hhigh; [exact Ha | lia] |].
    destruct Hb as [Hb | Hb]; apply Nat.eqb_eq in Hb; (eapply Hhigh; [exact Hb | lia]). }
  assert (H3 : forall c1 c2 c3, PyStr.is_space3 c1 c2 c3 = true ->
                                plain c1 = false /\ plain c2 = false /\ plain c3 = false).
  { intros c1 c2 c3 H. unfold PyStr.is_space3 in H.
    assert (Hcodes : 128 <= PyStr.code c1 /\ 128 <= PyStr.code c2 /\ 128 <= PyStr.code c3).
    { repeat (apply orb_true_iff in H; destruct H as [H | H]);
        repeat (apply andb_true_iff in H; destruct H as [H ?]);
        repeat match goal with
               | E : Nat.eqb _ _ = true |- _ => apply Nat.eqb_eq in E
               | E : Nat.leb _ _ = true |- _ => apply Nat.leb_le in E
               | E : (_ || _) = true |- _ => apply orb_true_iff in E; destruct E as [E | E]
               | E : (_ && _) = true |- _ => apply andb_true_iff in E; destruct E as [E ?]
               end; lia. }
    destruct Hcodes as (Ha & Hb & Hc).
    repeat split; eapply Hhigh; (reflexivity || assumption). }
  destruct s as [| c1 r1]; [discriminate |]. cbn [PyStr.after_space].
  destruct (PyStr.is_space1 c1) eqn:E1.
  { intros H. injection H as <-. exists (String c1 ""). repeat split; [discriminate |].
    repeat constructor. now apply H1. }
  destruct r1 as [| c2 r2]; [discriminate |].
  destruct (PyStr.is_space2 c1 c2) eqn:E2.
  { intros H. injection H as <-. exists (String c1 (String c2 "")).
    destruct (H2 _ _ E2). repeat split; [discriminate |]. repeat constructor; assumption. }
  destruct r2 as [| c3 r3]; [discriminate |].
  destruct (PyStr.is_space3 c1 c2 c3) eqn:E3; [| discriminate].
  intros H. injection H as <-. exists (String c1 (String c2 (String c3 ""))).
  destruct (H3 _ _ _ E3) as (? & ? & ?).
  repeat split; [discriminate |]. repeat constructor; assumption.
Qed.

Lemma length_app_string (a b : string) :
  String.length (a ++ b) = String.length a + String.length b.
Proof. induction a as [| c a IH]; simpl; [reflexivity | now rewrite IH]. Qed.

(** Induction along the white space a text starts with. *)
Lemma space_ind (P : string -> Prop) :
  (forall s, PyStr.after_space s = None -> P s) ->
  (forall s r, PyStr.after_space s = Some r -> P r -> P s) ->
  forall s, P s.
Proof.
  intros Hnone Hsome s.
  remember (String.length s) as n eqn:Hn. revert s Hn.
  induction n as [n IH] using lt_wf_ind. intros s Hn.
  destruct (PyStr.after_space s) as [r |] eqn:Hs; [| now apply Hnone].
  apply (Hsome s r Hs).
  destruct (after_space_cases s r Hs) as (pre & -> & Hpre & _).
  apply (IH (String.length r)); [| reflexivity].
  subst n. rewrite length_app_string.
  destruct pre; [contradiction | simpl; lia].
Qed.

(** No white space is left at the start. *)
Lemma lstrip_head (s : string) : PyStr.after_space (PyStr.lstrip s) = None.
Proof.
  induction s as [s Hs | s r Hs IH] using space_ind; rewrite lstrip_unfold, Hs.
  - exact Hs.
  - exact IH.
Qed.

Lemma lstrip_fixed (s : string) : PyStr.after_space s = None -> PyStr.lstrip s = s.
Proof. intros H. now rewrite lstrip_unfold, H. Qed.

Lemma after_space_app (a b r : string) :
  PyStr.after_space a = Some r -> PyStr.after_space (a ++ b) = Some (r ++ b).
Proof.
  destruct a as [| c1 r1]; [discriminate |]. cbn [PyStr.after_space append].
  destruct (PyStr.is_space1 c1); [intros H; now injection H as <- |].
  destruct r1 as [| c2 r2]; [discriminate |]. cbn [append].
  destruct (PyStr.is_space2 c1 c2); [intros H; now injection H as <- |].
  destruct r2 as [| c3 r3]; [discriminate |]. cbn [append].
  destruct (PyStr.is_space3 c1 c2 c3); [intros H; now injection H as <- | discriminate].
Qed.

(** White space followed by a text: stripping the whole strips the text. *)
Lemma lstrip_app (a u : string) :
  PyStr.lstrip a = "" -> PyStr.lstrip (a ++ u) = PyStr.lstrip u.
Proof.
  induction a as [a Ha | a r Ha IH] using space_ind; intros Hall.
  - rewrite (lstrip_fixed a Ha) in Hall. subst a. reflexivity.
  - rewrite lstrip_unfold, Ha in Hall.
    rewrite (lstrip_unfold (a ++ u)), (after_space_app a u r Ha). now apply IH.
Qed.

Lemma rstrip_cons (c : ascii) (r : string) :
  PyStr.rstrip (String c r)
  = match PyStr.lstrip (String c r) with
    | EmptyString => EmptyString
    | _ => String c (PyStr.rstrip r)
    end.
Proof. reflexivity. Qed.

(** What [rstrip] drops is white space. *)
Lemma rstrip_split (s : string) :
  exists u, s = PyStr.rstrip s ++ u /\ PyStr.lstrip u = "".
Proof.
  induction s as [| c r (u & Hr & Hu)]; [now exists "" |].
  rewrite rstrip_cons.
  destruct (PyStr.lstrip (String c r)) as [| c' r'] eqn:Hall.
  - exists (String c r). split; [reflexivity | exact Hall].
  - exists u. split; [| exact Hu]. cbn [append]. now rewrite <- Hr.
Qed.

Lemma rstrip_rstrip (s : string) : PyStr.rstrip (PyStr.rstrip s) = PyStr.rstrip s.
Proof.
  induction s as [| c r IH]; [reflexivity |].
  rewrite rstrip_cons.
  destruct (PyStr.lstrip (String c r)) as [| c' r'] eqn:Hall; [reflexivity |].
  rewrite rstrip_cons, IH.
  destruct (PyStr.lstrip (String c (PyStr.rstrip r))) as [| c'' r''] eqn:Hcut;
    [| reflexivity].
  destruct (rstrip_split r) as (u & Hr & Hu).
  assert (Hwhole : PyStr.lstrip (String c (PyStr.rstrip r) ++ u) = "").
  { now rewrite (lstrip_app _ u Hcut). }
  cbn [append] in Hwhole. rewrite <- Hr, Hall in Hwhole. discriminate Hwhole.
Qed.

(** Dropping white space at the end brings none to the start. *)
Lemma rstrip_head (s : string) :
  PyStr.after_space s = None -> PyStr.after_space (PyStr.rstrip s) = None.
Proof.
  intros Hs. destruct (PyStr.after_space (PyStr.rstrip s)) as [r |] eqn:Hcut;
    [| reflexivity].
  destruct (rstrip_split s) as (u & Hsplit & _).
  pose proof (after_space_app _ u r Hcut) as H.
  rewrite <- Hsplit, Hs in H. discriminate H.
Qed.

Lemma strip_fixed (s : string) :
  PyStr.lstrip (PyStr.strip s) = PyStr.strip s
  /\ PyStr.rstrip (PyStr.strip s) = PyStr.strip s
  /\ PyStr.strip (PyStr.strip s) = PyStr.strip s.
Proof.
  assert (Hl : PyStr.lstrip (PyStr.strip s) = PyStr.strip s).
  { apply lstrip_fixed. unfold PyStr.strip. apply rstrip_head, lstrip_head. }
  assert (Hr : PyStr.rstrip (PyStr.strip s) = PyStr.strip s).
  { unfold PyStr.strip. apply rstrip_rstrip. }
  repeat split; [exact Hl | exact Hr |].
  unfold PyStr.strip at 1. now rewrite Hl.
Qed.

(** White space of more than one byte is stripped at both ends, and only
    white space is. *)
Lemma strip_of_wide_spaces :
  PyStr.strip (Cases.nbsp ++ " Day 1" ++ Cases.em_space ++ PyStr.nl) = "Day 1"
  /\ PyStr.strip (Cases.zero_width_space ++ "Day 1" ++ Cases.zero_width_space)
     = Cases.zero_width_space ++ "Day 1" ++ Cases.zero_width_space.
Proof. split; vm_compute; reflexivity. Qed.

End Spaces.

Section Characters.

Variable p : ascii -> bool.

Lemma has_char_cons (c : ascii) (r : string) :
  has_char p (String c r) = p c || has_char p r.
Proof. reflexivity. Qed.

Lemma has_char_app (a b : string) :
  has_char p (a ++ b) = has_char p a || has_char p b.
Proof.
  induction a as [| c a IH]; [reflexivity |].
  cbn [append]. now rewrite !has_char_cons, IH, orb_assoc.
Qed.

Lemma has_char_truthy (s : string) : has_char p s = true -> PyStr.truthy s = true.
Proof. destruct s; [discriminate | reflexivity]. Qed.

Hypothesis p_plain : forall c, p c = true -> plain c = true.

Lemma has_char_of_space (pre : string) :
  Forall (fun c => plain c = false) (chars pre) -> has_char p pre = false.
Proof.
  induction pre as [| c pre IH]; [reflexivity |].
  intros H. inversion H as [| c' l Hc Hl]; subst.
  rewrite has_char_cons, (IH Hl), orb_false_r.
  destruct (p c) eqn:Hp; [| reflexivity].
  apply p_plain in Hp. congruence.
Qed.

Lemma has_char_lstrip (s : string) : has_char p (PyStr.lstrip s) = has_char p s.
Proof.
  induction s as [s Hs | s r Hs IH] using space_ind; rewrite lstrip_unfold, Hs.
  - reflexivity.
  - destruct (after_space_cases s r Hs) as (pre & -> & _ & Hpre).
    now rewrite IH, has_char_app, (has_char_of_space pre Hpre).
Qed.

Lemma has_char_rstrip (s : string) : has_char p (PyStr.rstrip s) = has_char p s.
Proof.
  induction s as [| c r IH]; [reflexivity |].
  rewrite rstrip_cons.
  destruct (PyStr.lstrip (String c r)) as [| c' r'] eqn:Hall.
  - rewrite <- (has_char_lstrip (String c r)), Hall. reflexivity.
  - now rewrite !has_char_cons, IH.
Qed.

Lemma has_char_strip (s : string) : has_char p (PyStr.strip s) = has_char p s.
Proof. unfold PyStr.strip. now rewrite has_char_rstrip, has_char_lstrip. Qed.

End Characters.

Section Removal.

Variable p : ascii -> bool.

Lemma has_char_without_hash (s : string) :
  p "#"%char = false ->
  has_char p (PyStr.replace s "#" "") = has_char p s.
Proof.
  intros Hp. unfold PyStr.replace.
  induction s as [| c r IH]; [reflexivity |].
  cbn [PyStr.replace_from String.prefix].
  destruct (ascii_dec "#" c) as [<- | Hc].
  - replace (String.prefix "" r) with true by (destruct r; reflexivity).
    cbn [String.length Nat.sub append]. now rewrite IH, has_char_cons, Hp.
  - rewrite !has_char_cons. now rewrite IH.
Qed.

Lemma has_char_without_stars_from (s : string) :
  p "*"%char = false ->
  has_char p (PyStr.replace_from "**" "" s 0) = has_char p s
  /\ has_char p (PyStr.replace_from "**" "" s 1)
     = match s with
       | EmptyString => false
       | String _ r => has_char p r
       end.
Proof.
  intros Hp. induction s as [| c r [IH0 IH1]]; [split; reflexivity |].
  split.
  - cbn [PyStr.replace_from String.prefix].
    destruct (ascii_dec "*" c) as [<- | Hc].
    + destruct r as [| c' r'].
      * reflexivity.
      * cbn [String.prefix]. destruct (ascii_dec "*" c') as [<- | Hc'].
        -- replace (String.prefix "" r') with true by (destruct r'; reflexivity).
           cbn [String.length Nat.sub append]. cbn [has_char chars list_ascii_of_string] in IH1.
           rewrite IH1, !has_char_cons, Hp. reflexivity.
        -- rewrite !has_char_cons. rewrite IH0, has_char_cons. reflexivity.
    + rewrite !has_char_cons. now rewrite IH0.
  - cbn [PyStr.replace_from]. exact IH0.
Qed.

Lemma has_char_without_stars (s : string) :
  p "*"%char = false ->
  has_char p (PyStr.replace s "**" "") = has_char p s.
Proof. intros Hp. apply has_char_without_stars_from, Hp. Qed.

Lemma has_char_of_prefix (pre s : string) :
  String.prefix pre s = true -> has_char p pre = true -> has_char p s = true.
Proof.
  revert s. induction pre as [| a pre IH]; intros s Hpre Hhas; [discriminate |].
  destruct s as [| b s]; [discriminate |].
  simpl in Hpre. destruct (ascii_dec a b) as [<- | Hab]; [| discriminate].
  rewrite has_char_cons in *. destruct (p a); [reflexivity |].
  simpl in *. now apply IH.
Qed.

Lemma has_char_of_contains (sub s : string) :
  PyStr.contains sub s = true -> has_char p sub = true -> has_char p s = true.
Proof.
  intros Hc Hhas. induction s as [| b s IH].
  - simpl in Hc. rewrite orb_false_r in Hc.
    destruct sub.
    + cbv in Hhas. discriminate Hhas.
    + discriminate Hc.
  - cbn [PyStr.contains] in Hc. apply orb_true_iff in Hc. destruct Hc as [Hpre | Hrest].
    + eapply has_char_of_prefix; eassumption.
    + rewrite has_char_cons. rewrite (IH Hrest). apply orb_true_r.
Qed.

End Removal.

Section Labels.

Lemma is_d_cases (c : ascii) :
  is_d c = true ->
  plain c = true /\ Ascii.eqb c "#" = false /\ Ascii.eqb c "*" = false.
Proof.
  destruct c as [[] [] [] [] [] [] [] []]; vm_compute; intros H;
    try discriminate H; repeat split.
Qed.

Lemma has_d_lower (s : string) :
  has_char (Ascii.eqb "d"%char) (PyStr.lower s) = has_char is_d s.
Proof.
  induction s as [| c r IH]; [reflexivity |].
  simpl PyStr.lower. rewrite !has_char_cons, IH. unfold is_d.
  now rewrite Ascii.eqb_sym.
Qed.

Lemma d_not_space (c : ascii) : Ascii.eqb "d"%char c = true -> plain c = true.
Proof. intros H. apply Ascii.eqb_eq in H. subst c. reflexivity. Qed.

Lemma is_d_not_space (c : ascii) : is_d c = true -> plain c = true.
Proof. intros H. now apply is_d_cases. Qed.

(** A header line holds the letter d. *)
Lemma header_has_d (line : string) :
  App.starts_section line = true -> has_char is_d line = true.
Proof.
  unfold App.starts_section. intros H.
  rewrite <- has_d_lower, <- (has_char_strip _ d_not_space).
  set (l := PyStr.strip (PyStr.lower line)) in *.
  apply orb_true_iff in H. destruct H as [H | H].
  - apply orb_true_iff in H. destruct H as [H | H].
    + apply orb_true_iff in H. destruct H as [H | H];
        (eapply has_char_of_prefix; [exact H | reflexivity]).
    + eapply has_char_of_prefix; [exact H | reflexivity].
  - apply andb_true_iff in H. destruct H as [_ H].
    eapply has_char_of_contains; [exact H | reflexivity].
Qed.

(** The label of a line holds the letter d as soon as the line does. *)
Lemma label_keeps_d (line : string) :
  has_char is_d (App.section_label line) = has_char is_d line.
Proof.
  unfold App.section_label.
  rewrite (has_char_strip _ is_d_not_space).
  rewrite has_char_without_stars by reflexivity.
  rewrite has_char_without_hash by reflexivity.
  apply (has_char_strip _ is_d_not_space).
Qed.

Lemma header_label_truthy (line : string) :
  App.starts_section line = true -> PyStr.truthy (App.section_label line) = true.
Proof.
  intros H. apply (has_char_truthy is_d).
  rewrite label_keeps_d. now apply header_has_d.
Qed.

Lemma marker_starts_section (line : string) :
  App.is_day_marker line = true -> App.starts_section line = true.
Proof.
  unfold App.is_day_marker, App.starts_section. intros ->. reflexivity.
Qed.

End Labels.

Section Splitting.

Lemma sections_of_app (t u : trace) :
  App.sections_of (t ++ u)%list = (App.sections_of t ++ App.sections_of u)%list.
Proof. unfold App.sections_of. apply flat_map_app. Qed.

Lemma body_lines_app (t u : trace) :
  body_lines (t ++ u)%list = (body_lines t ++ body_lines u)%list.
Proof.
  unfold body_lines. now rewrite sections_of_app, flat_map_app, filter_app.
Qed.

Lemma body_lines_of_section (day : string) (content : list string) :
  Forall one_line content ->
  body_lines [StExpander day (PyStr.join PyStr.nl content)] = filter PyStr.truthy content.
Proof.
  intros Hall. unfold body_lines. cbn [App.sections_of flat_map snd app].
  rewrite app_nil_r.
  destruct content as [| x rest]; [reflexivity |].
  rewrite split_nl_join; [reflexivity | discriminate | assumption].
Qed.

Lemma split_days_expanders (lines : list string) (current_day : option string)
    (current_content : list string) :
  Forall (fun e => is_expander e = true) (App.split_days lines current_day current_content).
Proof.
  revert current_day current_content.
  induction lines as [| line rest IH]; intros current_day current_content; simpl.
  - destruct current_day as [day |]; [| constructor].
    destruct (PyStr.truthy day); repeat constructor.
  - destruct (App.starts_section line).
    + apply Forall_app. split; [| apply IH].
      destruct current_day; repeat constructor.
    + destruct current_day; apply IH.
Qed.

Lemma split_days_labels (lines : list string) (current_day : option string)
    (current_content : list string) :
  (forall day, current_day = Some day -> PyStr.truthy day = true) ->
  map fst (App.sections_of (App.split_days lines current_day current_content))
  = match current_day with
    | Some day => day :: map App.section_label (filter App.starts_section lines)
    | None => due_labels lines
    end.
Proof.
  revert current_day current_content.
  induction lines as [| line rest IH]; intros current_day current_content Hday.
  - simpl. destruct current_day as [day |]; [| reflexivity].
    now rewrite (Hday day eq_refl).
  - unfold due_labels. cbn [App.split_days filter].
    destruct (App.starts_section line) eqn:Hline.
    + rewrite sections_of_app, map_app, IH.
      * destruct current_day; reflexivity.
      * intros day Heq. injection Heq as <-. now apply header_label_truthy.
    + destruct current_day as [day |].
      * now rewrite IH.
      * rewrite IH; [reflexivity |]. intros day Heq. now injection Heq as <-.
Qed.

Lemma split_days_bodies (lines : list string) (current_day : option string)
    (current_content : list string) :
  Forall one_line lines -> Forall one_line current_content ->
  (current_day = None -> current_content = []) ->
  (forall day, current_day = Some day -> PyStr.truthy day = true) ->
  body_lines (App.split_days lines current_day current_content)
  = (filter PyStr.truthy current_content
     ++ filter PyStr.truthy (filter (fun line => negb (App.starts_section line)) lines))%list.
Proof.
  revert current_day current_content.
  induction lines as [| line rest IH];
    intros current_day current_content Hlines Hcontent Hnone Hday.
  - simpl. rewrite app_nil_r. destruct current_day as [day |].
    + rewrite (Hday day eq_refl). now apply body_lines_of_section.
    + now rewrite (Hnone eq_refl).
  - inversion Hlines as [| ? ? Hline Hrest]; subst.
    cbn [App.split_days filter].
    destruct (App.starts_section line) eqn:Hhead; cbn [negb].
    + assert (Hlabel : forall day, Some (App.section_label line) = Some day ->
                                   PyStr.truthy day = true).
      { intros day Heq. injection Heq as <-. now apply header_label_truthy. }
      rewrite body_lines_app.
      rewrite (IH (Some (App.section_label line)) [] Hrest (Forall_nil _)
                 ltac:(discriminate) Hlabel).
      cbn [filter app].
      destruct current_day as [day |].
      * now rewrite body_lines_of_section.
      * now rewrite (Hnone eq_refl).
    + assert (Hnew : Forall one_line (current_content ++ [line])%list).
      { apply Forall_app. split; [assumption | now constructor]. }
      destruct current_day as [day |].
      * rewrite (IH (Some day) _ Hrest Hnew ltac:(discriminate) Hday).
        rewrite filter_app. cbn [filter]. rewrite <- app_assoc.
        destruct (PyStr.truthy line); reflexivity.
      * assert (Hover : forall day, Some "Overview" = Some day -> PyStr.truthy day = true).
        { intros day Heq. now injection Heq as <-. }
        rewrite (IH (Some "Overview") _ Hrest Hnew ltac:(discriminate) Hover).
        rewrite filter_app. cbn [filter]. rewrite <- app_assoc.
        destruct (PyStr.truthy line); reflexivity.
Qed.

Lemma due_labels_not_nil (lines : list string) :
  App.has_day_markers lines = true -> due_labels lines <> [].
Proof.
  unfold App.has_day_markers. intros H. apply existsb_exists in H.
  destruct H as (line & Hin & Hmark). apply marker_starts_section in Hmark.
  unfold due_labels. intros Hnil. apply app_eq_nil in Hnil. destruct Hnil as [_ Hnil].
  apply map_eq_nil in Hnil.
  assert (Hf : In line (filter App.starts_section lines)) by (apply filter_In; auto).
  rewrite Hnil in Hf. contradiction.
Qed.

End Splitting.

(** X1: when the itinerary has a day marker, the display loop of [main]
    draws expanders only, and at least one; their labels are, in the order
    of the text, "Overview" when the first line is not a header, then the
    cleaned label of every header line. *)
Theorem sections_follow_the_headers (itinerary_text : string) :
  App.has_day_markers (PyStr.split_nl itinerary_text) = true ->
  map fst (App.sections_of (App.show_itinerary itinerary_text))
  = due_labels (PyStr.split_nl itinerary_text)
  /\ Forall (fun e => is_expander e = true) (App.show_itinerary itinerary_text)
  /\ App.show_itinerary itinerary_text <> [].
Proof.
  intros Hmark. unfold App.show_itinerary. rewrite Hmark.
  assert (Hlabels : map fst (App.sections_of
                       (App.split_days (PyStr.split_nl itinerary_text) None []))
                    = due_labels (PyStr.split_nl itinerary_text)).
  { apply split_days_labels. discriminate. }
  split; [exact Hlabels |].
  split; [apply split_days_expanders |].
  intros Hnil. rewrite Hnil in Hlabels. simpl in Hlabels.
  symmetry in Hlabels. now apply due_labels_not_nil in Hlabels.
Qed.

Lemma sections_follow_the_headers_witness :
  map fst (App.sections_of (App.show_itinerary Cases.guide))
  = ["Overview"; "Day 1: Arrival"; "Day 2"]
  /\ map fst (App.sections_of (App.show_itinerary Cases.indented)) = ["Day 1"; "Day 2"].
Proof.
  split.
  - exact (proj1 (sections_follow_the_headers Cases.guide eq_refl)).
  - exact (proj1 (sections_follow_the_headers Cases.indented eq_refl)).
Defined.

(** X2: the display loop loses no content.  When the itinerary has a day
    marker, the non-empty lines of the bodies of the expanders are the
    non-empty lines of the text that are not headers, in the order of the
    text. *)
Theorem sections_keep_every_line (itinerary_text : string) :
  App.has_day_markers (PyStr.split_nl itinerary_text) = true ->
  body_lines (App.show_itinerary itinerary_text)
  = filter PyStr.truthy
      (filter (fun line => negb (App.starts_section line)) (PyStr.split_nl itinerary_text)).
Proof.
  intros Hmark. unfold App.show_itinerary. rewrite Hmark.
  rewrite split_days_bodies; try reflexivity; try constructor.
  - apply split_nl_one_line.
  - discriminate.
Qed.

Lemma sections_keep_every_line_witness :
  body_lines (App.show_itinerary Cases.guide)
  = ["Welcome to Paris"; "- Louvre"; "- Versailles"]
  /\ body_lines (App.show_itinerary Cases.indented) = ["Visit museum"; "Relax at beach"].
Proof.
  split.
  - exact (sections_keep_every_line Cases.guide eq_refl).
  - exact (sections_keep_every_line Cases.indented eq_refl).
Defined.

(* ===================================================================== *)
(** ** What the providers return and raise *)
(* ===================================================================== *)

Section Generation.

Variable w : World.
Variables source destination start_date end_date : string.
Variable duration : Z.
Variable budget : string.
Variable interests : list string.
Variable travel_type : string.

(** Whatever leaves the hosted variant is an [Exception] whose text starts
    with "Error generating itinerary: ". *)
Lemma openai_generate_cases (self : OpenAIService.t) (n : nat) :
  let prompt := OpenAIService.prompt source destination start_date end_date
                  duration budget interests travel_type in
  let sent := [OpenAIChat (OpenAIService.model self) OpenAIService.system_prompt prompt] in
  let run := OpenAIService.generate_itinerary w self source destination
               start_date end_date duration budget interests travel_type n in
  match openai_chat_create w n (OpenAIService.model self)
          OpenAIService.system_prompt prompt with
  | inl e => run = (inl (Exn EException ("Error generating itinerary: " ++ exn_msg e)), sent)
  | inr [] =>
      run = (inl (Exn EException "Error generating itinerary: list index out of range"), sent)
  | inr (None :: _) =>
      run = (inl (Exn EException
                    "Error generating itinerary: 'NoneType' object has no attribute 'strip'"),
             sent)
  | inr (Some text :: _) => run = (inr (PyStr.strip text), sent)
  end.
Proof.
  cbv zeta. unfold OpenAIService.generate_itinerary.
  generalize (OpenAIService.prompt source destination start_date end_date
                duration budget interests travel_type) as prompt.
  intros prompt.
  unfold try_except, bind, call, lift, lookup, raise, ret.
  destruct (openai_chat_create w n _ _ _) as [e | [| [text |] rest]]; reflexivity.
Qed.

Lemma ollama_generate_cases (self : OllamaService.t) (n : nat) :
  let prompt := OllamaService.prompt source destination start_date end_date
                  duration budget interests travel_type in
  let sent := [OllamaChat (OllamaService.base_url self) (OllamaService.model self)
                 OllamaService.system_prompt prompt] in
  let run := OllamaService.generate_itinerary w self source destination
               start_date end_date duration budget interests travel_type n in
  let failure (e : exn) : string :=
    if is_Timeout e
    then "Ollama request timed out. The model might be too slow or not responding."
    else if is_RequestException e then "Error connecting to Ollama: " ++ exn_msg e
    else "Error generating itinerary: " ++ exn_msg e in
  match requests_post_chat w n (OllamaService.base_url self ++ "/api/chat")
          (OllamaService.model self) OllamaService.system_prompt prompt with
  | HttpRaised e => run = (inl (Exn EException (failure e)), sent)
  | HttpResponse status text json =>
      if (status =? 200)%Z then
        match json with
        | inl e => run = (inl (Exn EException (failure e)), sent)
        | inr result =>
            match get (om_content (get (oc_message result) {| om_content := None |}))
                      (PyStr "") with
            | PyStr content => run = (inr (PyStr.strip content), sent)
            | content =>
                run = (inl (Exn EException
                              ("Error generating itinerary: "
                               ++ exn_msg (no_attribute content "strip"))),
                       sent)
            end
        end
      else run = (inl (Exn EException
                         ("Error generating itinerary: Ollama API error: "
                          ++ PyStr.of_Z status ++ " - " ++ text)), sent)
  end.
Proof.
  cbv zeta. unfold OllamaService.generate_itinerary.
  generalize (OllamaService.prompt source destination start_date end_date
                duration budget interests travel_type) as prompt.
  intros prompt.
  unfold try_except, bind, call, response_of, lift, raise, ret.
  destruct (requests_post_chat w n _ _ _ _) as [e | status text json]; cbn [List.length].
  - destruct (is_Timeout e); [reflexivity |]. destruct (is_RequestException e); reflexivity.
  - destruct (status =? 200)%Z; cbn [negb]; [| reflexivity].
    destruct json as [e | result]; cbn [List.length].
    + destruct (is_Timeout e); [reflexivity |]. destruct (is_RequestException e); reflexivity.
    + destruct (get (om_content _) _); reflexivity.
Qed.

End Generation.

Lemma prefix_of_app (a b : string) : String.prefix a (a ++ b) = true.
Proof.
  induction a as [| c a IH]; simpl.
  - destruct b; reflexivity.
  - destruct (ascii_dec c c) as [_ | Hne]; [exact IH | contradiction].
Qed.

(** X3: whatever goes wrong in [OpenAIService.generate_itinerary] (the
    request raises, the list of choices is empty, the reply has no content),
    the caller sees an [Exception] whose message starts with
    "Error generating itinerary: ", and exactly one request was made. *)
Theorem hosted_failures_are_wrapped
    (w : World) (self : OpenAIService.t)
    (source destination start_date end_date : string) (duration : Z)
    (budget : string) (interests : list string) (travel_type : string) (n : nat)
    (e : exn) (t : trace) :
  OpenAIService.generate_itinerary w self source destination start_date end_date
    duration budget interests travel_type n = (inl e, t) ->
  exn_cls e = EException
  /\ String.prefix "Error generating itinerary: " (exn_msg e) = true
  /\ count is_generation t = 1
  /\ List.length t = 1.
Proof.
  intros Hrun.
  pose proof (openai_generate_cases w source destination start_date end_date
                duration budget interests travel_type self n) as Hcases.
  cbv zeta in Hcases.
  destruct (openai_chat_create w n _ _ _) as [e' | [| [text |] rest]];
    rewrite Hcases in Hrun; inversion Hrun; subst; repeat split;
    try apply (prefix_of_app "Error generating itinerary: ");
    reflexivity.
Qed.

Lemma hosted_failures_are_wrapped_witness :
  OpenAIService.generate_itinerary Samples.offline
    {| OpenAIService.api_key := "sk-key"; OpenAIService.model := "gpt-3.5-turbo" |}
    "New York" "Paris" "March 01, 2025" "March 07, 2025" 7 "medium" ["food"] "solo" 0
  = (inl (Exn EException "Error generating itinerary: connection refused"),
     [OpenAIChat "gpt-3.5-turbo" OpenAIService.system_prompt
        (OpenAIService.prompt "New York" "Paris" "March 01, 2025" "March 07, 2025" 7
           "medium" ["food"] "solo")])
  /\ exn_cls (Exn EException "Error generating itinerary: connection refused") = EException
  /\ String.prefix "Error generating itinerary: "
       (exn_msg (Exn EException "Error generating itinerary: connection refused")) = true.
Proof.
  assert (Hrun : OpenAIService.generate_itinerary Samples.offline
    {| OpenAIService.api_key := "sk-key"; OpenAIService.model := "gpt-3.5-turbo" |}
    "New York" "Paris" "March 01, 2025" "March 07, 2025" 7 "medium" ["food"] "solo" 0
  = (inl (Exn EException "Error generating itinerary: connection refused"),
     [OpenAIChat "gpt-3.5-turbo" OpenAIService.system_prompt
        (OpenAIService.prompt "New York" "Paris" "March 01, 2025" "March 07, 2025" 7
           "medium" ["food"] "solo")])) by reflexivity.
  split; [exact Hrun |].
  destruct (hosted_failures_are_wrapped _ _ _ _ _ _ _ _ _ _ _ _ _ Hrun) as (Hc & Hp & _).
  split; assumption.
Defined.

(** X4: [OllamaService.generate_itinerary] makes one request and raises
    [Exception] only.  A timeout gives the timed-out message; another
    request error gives "Error connecting to Ollama: ..."; any other
    exception is wrapped in "Error generating itinerary: ..."; so is the
    error the method raises itself for a status other than 200, whose
    message thus reads "Error generating itinerary: Ollama API error: ...". *)
Theorem local_failures_tell_their_cause
    (w : World) (self : OllamaService.t)
    (source destination start_date end_date : string) (duration : Z)
    (budget : string) (interests : list string) (travel_type : string) (n : nat) :
  let prompt := OllamaService.prompt source destination start_date end_date
                  duration budget interests travel_type in
  let answer := requests_post_chat w n (OllamaService.base_url self ++ "/api/chat")
                  (OllamaService.model self) OllamaService.system_prompt prompt in
  let run := OllamaService.generate_itinerary w self source destination
               start_date end_date duration budget interests travel_type n in
  (forall e, answer = HttpRaised e -> is_Timeout e = true ->
     fst run = inl (Exn EException
                      "Ollama request timed out. The model might be too slow or not responding."))
  /\ (forall e, answer = HttpRaised e -> is_Timeout e = false ->
        is_RequestException e = true ->
        fst run = inl (Exn EException ("Error connecting to Ollama: " ++ exn_msg e)))
  /\ (forall e, answer = HttpRaised e -> is_RequestException e = false ->
        fst run = inl (Exn EException ("Error generating itinerary: " ++ exn_msg e)))
  /\ (forall status text json, answer = HttpResponse status text json -> status <> 200%Z ->
        fst run = inl (Exn EException
                         ("Error generating itinerary: Ollama API error: "
                          ++ PyStr.of_Z status ++ " - " ++ text)))
  /\ (forall e t, run = (inl e, t) -> exn_cls e = EException)
  /\ snd run = [OllamaChat (OllamaService.base_url self) (OllamaService.model self)
                  OllamaService.system_prompt prompt].
Proof.
  cbv zeta.
  pose proof (ollama_generate_cases w source destination start_date end_date
                duration budget interests travel_type self n) as Hcases.
  cbv zeta in Hcases.
  destruct (requests_post_chat w n _ _ _ _) as [e' | status text json].
  - rewrite Hcases. cbn [fst snd]. repeat split.
    + intros e He Ht. injection He as <-. now rewrite Ht.
    + intros e He Ht Hr. injection He as <-. now rewrite Ht, Hr.
    + intros e He Hr. injection He as <-.
      assert (Ht : is_Timeout e' = false).
      { unfold is_Timeout, is_RequestException in *. destruct (exn_cls e'); congruence. }
      now rewrite Ht, Hr.
    + intros ? ? ? H. discriminate H.
    + intros e t H. now injection H as <- _.
  - destruct (status =? 200)%Z eqn:Hst.
    + apply Z.eqb_eq in Hst.
      destruct json as [e' | result].
      * rewrite Hcases. cbn [fst snd]. repeat split; try (intros; discriminate).
        -- intros ? ? ? H Hne. injection H as -> _ _. contradiction.
        -- intros e t H. now injection H as <- _.
      * destruct (get (om_content _) _); rewrite Hcases; cbn [fst snd]; repeat split;
          try (intros; discriminate);
          try (intros ? ? ? H Hne; injection H as -> _ _; contradiction);
          try (intros e t H; now injection H as <- _).
    + rewrite Hcases. cbn [fst snd]. repeat split; try (intros; discriminate).
      * intros ? ? ? H _. now injection H as <- <- _.
      * intros e t H. now injection H as <- _.
Qed.

Lemma local_failures_tell_their_cause_witness :
  fst (OllamaService.generate_itinerary Samples.placeholder_env Cases.local_client
         "New York" "Paris" "March 01, 2025" "March 07, 2025" 7 "medium" ["food"] "solo" 0)
  = inl (Exn EException
           "Ollama request timed out. The model might be too slow or not responding.").
Proof.
  apply (proj1 (local_failures_tell_their_cause Samples.placeholder_env Cases.local_client
                  "New York" "Paris" "March 01, 2025" "March 07, 2025" 7 "medium"
                  ["food"] "solo" 0) Samples.timed_out);
    reflexivity.
Defined.

(** X5: a reply of the local model with status 200 that has no message,
    or a message without content, is not an error:
    [OllamaService.generate_itinerary] returns the empty string. *)
Theorem local_reply_without_content_is_empty
    (w : World) (self : OllamaService.t)
    (source destination start_date end_date : string) (duration : Z)
    (budget : string) (interests : list string) (travel_type : string) (n : nat)
    (text : string) (result : ollama_chat) :
  requests_post_chat w n (OllamaService.base_url self ++ "/api/chat")
    (OllamaService.model self) OllamaService.system_prompt
    (OllamaService.prompt source destination start_date end_date
       duration budget interests travel_type)
  = HttpResponse 200 text (inr result) ->
  oc_message result = None \/ oc_message result = Some {| om_content := None |} ->
  fst (OllamaService.generate_itinerary w self source destination
         start_date end_date duration budget interests travel_type n)
  = inr "".
Proof.
  intros Hanswer Hempty.
  pose proof (ollama_generate_cases w source destination start_date end_date
                duration budget interests travel_type self n) as Hcases.
  cbv zeta in Hcases. rewrite Hanswer in Hcases. cbn [Z.eqb Pos.eqb] in Hcases.
  destruct Hempty as [Hm | Hm]; rewrite Hm in Hcases; cbn [get om_content] in Hcases;
    now rewrite Hcases.
Qed.

Lemma local_reply_without_content_is_empty_witness :
  fst (OllamaService.generate_itinerary Cases.silent_model Cases.local_client
         "New York" "Paris" "March 01, 2025" "March 07, 2025" 7 "medium" ["food"] "solo" 0)
  = inr "".
Proof.
  apply (local_reply_without_content_is_empty Cases.silent_model Cases.local_client
           "New York" "Paris" "March 01, 2025" "March 07, 2025" 7 "medium" ["food"] "solo"
           0 "{}" {| oc_message := None |}).
  - reflexivity.
  - left. reflexivity.
Defined.

(** X6: the text either provider returns carries no white space at
    either end (stripping it again changes nothing), and it cost exactly
    one generation request. *)
Theorem generated_text_is_stripped
    (w : World) (p : App.provider)
    (source destination start_date end_date : string) (duration : Z)
    (budget : string) (interests : list string) (travel_type : string) (n : nat)
    (itinerary : string) (t : trace) :
  App.generate_with w p source destination start_date end_date
    duration budget interests travel_type n = (inr itinerary, t) ->
  PyStr.strip itinerary = itinerary
  /\ PyStr.lstrip itinerary = itinerary
  /\ PyStr.rstrip itinerary = itinerary
  /\ count is_generation t = 1 /\ List.length t = 1.
Proof.
  intros Hrun.
  assert (Hstripped : exists text, itinerary = PyStr.strip text
                                   /\ count is_generation t = 1 /\ List.length t = 1).
  { destruct p as [s | s]; cbn [App.generate_with] in Hrun.
    - pose proof (ollama_generate_cases w source destination start_date end_date
                    duration budget interests travel_type s n) as Hcases.
      cbv zeta in Hcases.
      destruct (requests_post_chat w n _ _ _ _) as [e | status text json].
      + rewrite Hcases in Hrun. discriminate Hrun.
      + destruct (status =? 200)%Z; [| rewrite Hcases in Hrun; discriminate Hrun].
        destruct json as [e | result]; [rewrite Hcases in Hrun; discriminate Hrun |].
        destruct (get (om_content _) _) as [| | | | content];
          rewrite Hcases in Hrun; try discriminate Hrun.
        injection Hrun as <- <-. eauto.
    - pose proof (openai_generate_cases w source destination start_date end_date
                    duration budget interests travel_type s n) as Hcases.
      cbv zeta in Hcases.
      destruct (openai_chat_create w n _ _ _) as [e | [| [text |] rest]];
        rewrite Hcases in Hrun; try discriminate Hrun.
      injection Hrun as <- <-. eauto. }
  destruct Hstripped as (text & -> & Hcount & Hlen).
  destruct (strip_fixed text) as (Hleft & Hright & Hboth).
  repeat split; assumption.
Qed.

Lemma generated_text_is_stripped_witness :
  App.generate_with Samples.all_up
    (App.Local {| OllamaService.base_url := "http://localhost:11434";
                  OllamaService.model := "llama3.2" |})
    "New York" "Paris" "March 01, 2025" "March 07, 2025" 7 "medium" ["food"] "solo" 0
  = (inr Texts.two_days,
     [OllamaChat "http://localhost:11434" "llama3.2" OllamaService.system_prompt
        (OllamaService.prompt "New York" "Paris" "March 01, 2025" "March 07, 2025" 7
           "medium" ["food"] "solo")])
  /\ PyStr.strip Texts.two_days = Texts.two_days.
Proof.
  assert (Hrun : App.generate_with Samples.all_up
    (App.Local {| OllamaService.base_url := "http://localhost:11434";
                  OllamaService.model := "llama3.2" |})
    "New York" "Paris" "March 01, 2025" "March 07, 2025" 7 "medium" ["food"] "solo" 0
  = (inr Texts.two_days,
     [OllamaChat "http://localhost:11434" "llama3.2" OllamaService.system_prompt
        (OllamaService.prompt "New York" "Paris" "March 01, 2025" "March 07, 2025" 7
           "medium" ["food"] "solo")])) by (vm_compute; reflexivity).
  split; [exact Hrun |].
  exact (proj1 (generated_text_is_stripped _ _ _ _ _ _ _ _ _ _ _ _ _ Hrun)).
Defined.

(* ===================================================================== *)
(** ** The registry and the sidebar, case by case *)
(* ===================================================================== *)

Section RegistryMore.

Variable w : World.

Lemma describe_ollama_text (e : exn) : App.describe_ollama e = "Ollama: " ++ exn_msg e.
Proof.
  unfold App.describe_ollama.
  destruct (is_ValueError e); [| reflexivity].
  destruct (_ || _); reflexivity.
Qed.

Lemma complaint_length {S} (describe : exn -> string) (r : (exn + S) * trace) :
  List.length (complaint describe r) = failed (slot r).
Proof. unfold complaint, slot. destruct (fst r); reflexivity. Qed.

Lemma contains_in_app (sub a s : string) :
  PyStr.contains sub s = true -> PyStr.contains sub (a ++ s) = true.
Proof.
  intros H. induction a as [| c a IH]; [exact H |].
  cbn [append PyStr.contains]. rewrite IH. apply orb_true_r.
Qed.

Lemma ollama_init_cases (n : nat) :
  let url := probe_url w in
  let sent := [OllamaTags url] in
  match requests_get_tags w (url ++ "/api/tags") with
  | HttpRaised e =>
      OllamaService.init w n
      = (inl (if is_RequestException e
              then Exn EValueError ("Cannot connect to Ollama at " ++ url
                                    ++ ". Make sure Ollama is running: " ++ exn_msg e)
              else e), sent)
  | HttpResponse status _ _ =>
      OllamaService.init w n
      = (if (status =? 200)%Z
         then inr {| OllamaService.base_url := url;
                     OllamaService.model := getenv_default w "OLLAMA_MODEL" "llama3.2" |}
         else inl (Exn EValueError ("Ollama server not responding at " ++ url)), sent)
  end.
Proof.
  cbv zeta. unfold OllamaService.init, bind, try_except, call, response_of, raise, ret.
  fold (probe_url w).
  destruct (requests_get_tags w _) as [e | status text json]; cbn [List.length].
  - destruct (is_RequestException e); reflexivity.
  - destruct (status =? 200)%Z; cbn [negb]; [reflexivity |].
    reflexivity.
Qed.

End RegistryMore.

(** X7: [initialize_services] never raises and makes the liveness probe
    only.  Its weather slot is always filled, with the key of the
    environment whatever it is; each of the other three slots holds the
    client its constructor returned, and the list of errors has one line
    for each of these three slots that is empty. *)
Theorem registry_is_always_built (w : World) (n : nat) :
  exists services errors,
    App.initialize_services w n = (inr (services, errors), [OllamaTags (probe_url w)])
    /\ App.weather services
       = Some {| WeatherService.api_key := getenv w "OPENWEATHER_API_KEY";
                 WeatherService.base_url := "http://api.openweathermap.org/data/2.5" |}
    /\ List.length errors
       = failed (App.openai services) + failed (App.ollama services)
         + failed (App.places services)
    /\ App.openai services = slot (OpenAIService.init w 0)
    /\ App.ollama services = slot (OllamaService.init w 0)
    /\ App.places services = slot (PlacesService.init w 0).
Proof.
  exists (registry_services w), (registry_errors w).
  split; [apply initialize_services_run |].
  split; [reflexivity |].
  split; [| repeat split].
  unfold registry_errors, registry_services. cbn [App.openai App.ollama App.places].
  rewrite !length_app, !complaint_length. lia.
Qed.

(** X8: [OllamaService.__init__] makes one probe.  A request error gives
    the [ValueError] "Cannot connect to Ollama at <url>. ...", a status other
    than 200 the [ValueError] "Ollama server not responding at <url>", and a
    status 200 the client of that URL.  Whenever the constructor raises,
    the registry is still built, with an empty local slot, the line
    "Ollama: <message>" among its errors, and no local option to offer. *)
Theorem unreachable_local_model_is_reported (w : World) (n : nat) :
  let url := probe_url w in
  let answer := requests_get_tags w (url ++ "/api/tags") in
  (forall e, answer = HttpRaised e -> is_RequestException e = true ->
     OllamaService.init w n
     = (inl (Exn EValueError ("Cannot connect to Ollama at " ++ url
                              ++ ". Make sure Ollama is running: " ++ exn_msg e)),
        [OllamaTags url]))
  /\ (forall status text json, answer = HttpResponse status text json -> status <> 200%Z ->
        OllamaService.init w n
        = (inl (Exn EValueError ("Ollama server not responding at " ++ url)),
           [OllamaTags url]))
  /\ (forall text json, answer = HttpResponse 200 text json ->
        OllamaService.init w n
        = (inr {| OllamaService.base_url := url;
                  OllamaService.model := getenv_default w "OLLAMA_MODEL" "llama3.2" |},
           [OllamaTags url]))
  /\ (forall e t, OllamaService.init w n = (inl e, t) ->
        exists services errors,
          fst (App.initialize_services w n) = inr (services, errors)
          /\ App.ollama services = None
          /\ In ("Ollama: " ++ exn_msg e) errors
          /\ ~ In "Ollama (Local)" (App.ai_service_options services)).
Proof.
  cbv zeta. pose proof (ollama_init_cases w n) as Hcases. cbv zeta in Hcases.
  split; [| split; [| split]].
  - intros e He Hreq. rewrite He in Hcases. now rewrite Hreq in Hcases.
  - intros status text json He Hne. rewrite He in Hcases.
    apply Z.eqb_neq in Hne. now rewrite Hne in Hcases.
  - intros text json He. now rewrite He in Hcases.
  - intros e t Hraise. exists (registry_services w), (registry_errors w).
    rewrite ollama_init_clock in Hraise.
    assert (Hslot : App.ollama (registry_services w) = None).
    { unfold registry_services, slot. cbn [App.ollama]. now rewrite Hraise. }
    split; [now rewrite initialize_services_run |].
    split; [exact Hslot |].
    split.
    + unfold registry_errors, complaint. rewrite Hraise. cbn [fst].
      apply in_or_app. right. apply in_or_app. left.
      rewrite describe_ollama_text. now left.
    + unfold App.ai_service_options. rewrite Hslot. cbn [App.truthy app].
      destruct (App.truthy _); [| intros []].
      intros [H | []]. discriminate H.
Qed.

Lemma unreachable_local_model_is_reported_witness :
  OllamaService.init Samples.offline 0
  = (inl (Exn EValueError
            "Cannot connect to Ollama at http://localhost:11434. Make sure Ollama is running: connection refused"),
     [OllamaTags "http://localhost:11434"]).
Proof.
  apply (proj1 (unreachable_local_model_is_reported Samples.offline 0) Samples.refused);
    reflexivity.
Defined.

(** X9: the constructors of the hosted client and of the places client
    raise [ValueError] only, and make no request. *)
Theorem constructor_failures_are_value_errors (w : World) (n : nat) :
  (forall e t, OpenAIService.init w n = (inl e, t) -> is_ValueError e = true /\ t = [])
  /\ (forall e t, PlacesService.init w n = (inl e, t) -> is_ValueError e = true /\ t = []).
Proof.
  split; intros e t.
  - unfold OpenAIService.init, try_except, raise, ret.
    destruct (key_falsy _ || _).
    + intros H. injection H as <- <-. split; reflexivity.
    + destruct (openai_OpenAI w _ _); intros H; [| discriminate H].
      injection H as <- <-. split; reflexivity.
  - unfold PlacesService.init, try_except, raise, ret.
    destruct (key_falsy _ || _).
    + intros H. injection H as <- <-. split; reflexivity.
    + destruct (googlemaps_Client w _); intros H; [| discriminate H].
      injection H as <- <-. split; reflexivity.
Qed.

Lemma constructor_failures_are_value_errors_witness :
  OpenAIService.init Samples.offline 0
  = (inl (Exn EValueError "OPENAI_API_KEY not found in environment variables"), [])
  /\ is_ValueError (Exn EValueError "OPENAI_API_KEY not found in environment variables") = true.
Proof.
  assert (H : OpenAIService.init Samples.offline 0
              = (inl (Exn EValueError "OPENAI_API_KEY not found in environment variables"), []))
    by reflexivity.
  split; [exact H |].
  exact (proj1 (proj1 (constructor_failures_are_value_errors Samples.offline 0) _ _ H)).
Defined.

(** X10: [initialize_services] tells a missing key from another failure by
    the words "not found" in the message.  With a proper hosted key set, a
    failure of the client library whose own message holds these words is
    reported as "OpenAI: API key not configured. ...". *)
Theorem client_error_can_read_as_missing_key (w : World) (n : nat) (key : string) (e : exn) :
  getenv w "OPENAI_API_KEY" = Some key ->
  PyStr.truthy key = true ->
  key <> "your_openai_api_key_here" ->
  openai_OpenAI w (OpenAIService.without_proxies (getenv w)) key = Some e ->
  PyStr.contains "not found" (exn_msg e) = true ->
  exists services errors,
    fst (App.initialize_services w n) = inr (services, errors)
    /\ App.openai services = None
    /\ In "OpenAI: API key not configured. Please add your OPENAI_API_KEY to the .env file."
          errors.
Proof.
  intros Hkey Htruthy Hne Hctor Hmsg.
  assert (Hinit : OpenAIService.init w 0
            = (inl (Exn EValueError ("Failed to initialize OpenAI client: " ++ exn_msg e)), [])).
  { unfold OpenAIService.init, try_except, raise, ret. rewrite Hkey.
    cbn [key_falsy get]. rewrite Htruthy. cbn [negb orb].
    apply String.eqb_neq in Hne. unfold OpenAIService.placeholder. rewrite Hne, Hctor.
    reflexivity. }
  exists (registry_services w), (registry_errors w).
  split; [now rewrite initialize_services_run |].
  split.
  - unfold registry_services, slot. cbn [App.openai]. now rewrite Hinit.
  - unfold registry_errors, complaint. rewrite Hinit. cbn [fst].
    apply in_or_app. left. left.
    unfold App.describe_openai. cbn [is_ValueError exn_cls exn_msg].
    rewrite (contains_in_app "not found" "Failed to initialize OpenAI client: " _ Hmsg).
    reflexivity.
Qed.

Lemma client_error_can_read_as_missing_key_witness :
  exists services errors,
    fst (App.initialize_services Cases.broken_client 0) = inr (services, errors)
    /\ App.openai services = None
    /\ In "OpenAI: API key not configured. Please add your OPENAI_API_KEY to the .env file."
          errors.
Proof.
  apply (client_error_can_read_as_missing_key Cases.broken_client 0 "sk-live"
           Cases.missing_module); try reflexivity.
  discriminate.
Defined.

(** X11: without a places key (unset, empty or the placeholder of the
    template) the constructor of the places client raises its [ValueError]
    and makes no request; the registry is built with an empty places slot
    and the line "Google Places: API key not configured. ...", and every
    run of [main] shows the warning and that line. *)
Theorem missing_places_key_is_reported
    (w : World) (h : App.Helpers) (inp : App.Inputs) (n : nat) :
  key_falsy (getenv w "GOOGLE_PLACES_API_KEY") = true
  \/ getenv w "GOOGLE_PLACES_API_KEY" = Some "your_google_places_api_key_here" ->
  let line := "Google Places: API key not configured. Please add your GOOGLE_PLACES_API_KEY to the .env file." in
  PlacesService.init w n
  = (inl (Exn EValueError "GOOGLE_PLACES_API_KEY not found in environment variables"), [])
  /\ (exists services errors,
        fst (App.initialize_services w n) = inr (services, errors)
        /\ App.places services = None
        /\ In line errors)
  /\ In (StWarning "⚠️ Some services are unavailable. Please check your API keys in the .env file.")
        (events_of (App.main w h inp))
  /\ In (StError line) (events_of (App.main w h inp)).
Proof.
  intros Hkey. cbv zeta.
  assert (Hinit : forall m, PlacesService.init w m
            = (inl (Exn EValueError "GOOGLE_PLACES_API_KEY not found in environment variables"),
               [])).
  { intros m. unfold PlacesService.init.
    destruct Hkey as [Hkey | Hkey]; rewrite Hkey; reflexivity. }
  assert (Hline : In "Google Places: API key not configured. Please add your GOOGLE_PLACES_API_KEY to the .env file."
                     (registry_errors w)).
  { unfold registry_errors. rewrite (Hinit 0).
    apply in_or_app. right. apply in_or_app. right. left. reflexivity. }
  split; [apply Hinit |].
  split.
  { exists (registry_services w), (registry_errors w).
    rewrite initialize_services_run. cbn [fst].
    split; [reflexivity |]. split; [| exact Hline].
    unfold registry_services, slot. cbn [App.places]. rewrite (Hinit 0). reflexivity. }
  assert (Hshown : forall e, In e (service_warnings (registry_errors w)) ->
                             In e (events_of (App.main w h inp))).
  { intros e He. unfold events_of. rewrite main_run. cbv zeta. cbn [snd].
    apply in_or_app. left. unfold prelude_events.
    apply in_or_app. right. apply in_or_app. right. apply in_or_app. left. exact He. }
  destruct (registry_errors w) as [| first rest] eqn:Herrors; [contradiction |].
  split; apply Hshown; unfold service_warnings.
  - left. reflexivity.
  - right. apply in_map. exact Hline.
Qed.

Lemma missing_places_key_is_reported_witness :
  In (StError "Google Places: API key not configured. Please add your GOOGLE_PLACES_API_KEY to the .env file.")
     (events_of (App.main Samples.placeholder_env Samples.helpers Samples.trip)).
Proof.
  apply (missing_places_key_is_reported Samples.placeholder_env Samples.helpers
           Samples.trip 0).
  left. reflexivity.
Defined.

Section Sidebar.

Variable services : App.Services.
Variable inp : App.Inputs.

Lemma options_cases :
  App.ai_service_options services
  = match App.ollama services, App.openai services with
    | Some _, Some _ => ["Ollama (Local)"; "OpenAI"]
    | Some _, None => ["Ollama (Local)"]
    | None, Some _ => ["OpenAI"]
    | None, None => []
    end.
Proof.
  unfold App.ai_service_options.
  destruct (App.ollama services), (App.openai services); reflexivity.
Qed.

Lemma picked_is_offered (chosen : string) :
  picked services inp = Some chosen -> In chosen (App.ai_service_options services).
Proof.
  unfold picked. destruct (App.ai_service_options services) as [| o rest] eqn:Ho;
    [discriminate |].
  intros H. injection H as <-. unfold App.st_radio.
  destruct (nth_in_or_default (App.radio_choice inp) (o :: rest) (nth 0 (o :: rest) ""))
    as [Hin | Hdef]; [exact Hin |].
  rewrite Hdef. left. reflexivity.
Qed.

Lemma picked_has_provider (chosen : string) :
  picked services inp = Some chosen ->
  PyStr.truthy chosen = true /\ exists p, provider_of services chosen = Some p.
Proof.
  intros Hp. apply picked_is_offered in Hp. rewrite options_cases in Hp.
  unfold provider_of.
  destruct (App.ollama services) as [l |], (App.openai services) as [o |];
    simpl in Hp; intuition (subst; cbn; eauto).
Qed.

End Sidebar.

(** X12: the service the sidebar returns is one of the two options, and
    its client is in the registry; so the "service is not available" error
    of [main] cannot be reached through the sidebar.  The local option is
    the default, and the only one left when the other client is missing. *)
Theorem sidebar_offers_only_what_exists
    (services : App.Services) (inp : App.Inputs) (n : nat) (chosen : string) :
  fst (App.sidebar services inp n) = inr (Some chosen) ->
  ((chosen = "Ollama (Local)" /\ App.ollama services <> None)
   \/ (chosen = "OpenAI" /\ App.openai services <> None))
  /\ (App.radio_choice inp = 0 -> App.ollama services <> None -> chosen = "Ollama (Local)")
  /\ (App.ollama services = None -> chosen = "OpenAI")
  /\ (App.openai services = None -> chosen = "Ollama (Local)").
Proof.
  rewrite sidebar_run. cbn [fst]. intros H. injection H as H.
  pose proof (picked_is_offered services inp chosen H) as Hin.
  unfold picked in H. rewrite options_cases in H, Hin.
  destruct (App.ollama services) as [l |], (App.openai services) as [o |];
    try discriminate H; simpl in Hin.
  - split; [| split; [| split]].
    + destruct Hin as [<- | [<- | []]]; [left | right]; split; congruence.
    + intros Hc _. injection H as <-. unfold App.st_radio. now rewrite Hc.
    + discriminate.
    + discriminate.
  - destruct Hin as [<- | []]. repeat split; try congruence. left. split; congruence.
  - destruct Hin as [<- | []]. repeat split; try congruence.
    right. split; congruence.
Qed.

Lemma sidebar_offers_only_what_exists_witness :
  ("Ollama (Local)" = "Ollama (Local)"
   /\ App.ollama (registry_services Samples.all_up) <> None)
  \/ ("Ollama (Local)" = "OpenAI"
      /\ App.openai (registry_services Samples.all_up) <> None).
Proof.
  exact (proj1 (sidebar_offers_only_what_exists (registry_services Samples.all_up)
                  Samples.trip 0 "Ollama (Local)" eq_refl)).
Defined.

(* ===================================================================== *)
(** ** What the enrichment clients return *)
(* ===================================================================== *)

Ltac break_atom :=
  match goal with
  | |- context [match ?x with _ => _ end] =>
      lazymatch x with
      | context [match _ with _ => _ end] => fail
      | _ => destruct x eqn:?
      end
  end.

Ltac break_atom_in H :=
  match type of H with
  | context [match ?x with _ => _ end] =>
      lazymatch x with
      | context [match _ with _ => _ end] => fail
      | _ => destruct x eqn:?
      end
  end.

Section WeatherMore.

Variable w : World.
Variable self : WeatherService.t.
Variable destination : string.
Variables start_date end_date : Z.

Lemma summary_shape (n : nat) (d : WeatherService.weather_dict) (t : trace) :
  WeatherService.get_weather_summary w self destination start_date end_date n
  = (inr (Some d), t) ->
  exists lat lon temp descr humid wind fc,
    t = [WeatherGeocode destination; WeatherCurrent lat lon; WeatherForecast lat lon]
    /\ d = {| WeatherService.current :=
                Some {| WeatherService.temperature := Some temp;
                        WeatherService.description := Some descr;
                        WeatherService.humidity := Some humid;
                        WeatherService.wind_speed := Some wind |};
              WeatherService.forecast := Some fc;
              WeatherService.location := Some (PyStr destination) |}.
Proof.
  weather_unfold. intros H.
  repeat (break_atom_in H; cbn [List.length fst snd app negb hd_error] in H;
          try discriminate H);
    inversion H; subst; repeat eexists.
Qed.

Lemma summary_calls (n : nat) :
  let t := snd (WeatherService.get_weather_summary w self destination start_date end_date n) in
  count is_enrichment t <= 3
  /\ count is_generation t = 0
  /\ count is_places_call t = 0
  /\ count opens_result t = 0
  /\ count is_network t <= 3
  /\ (key_falsy (WeatherService.api_key self) = false ->
      exists rest, t = WeatherGeocode destination :: rest).
Proof.
  cbv zeta. weather_unfold.
  repeat (break_atom; cbn [List.length fst snd app negb hd_error]);
    repeat split; try (cbv; lia); try discriminate; try (intros _; eauto).
Qed.

End WeatherMore.

Section PlacesMore.

Variable w : World.
Variable self : PlacesService.t.
Variable destination : string.
Variable limit : Z.

Lemma slice_to_length {A} (xs : list A) :
  (0 <= limit)%Z -> List.length (slice_to xs limit) <= Z.to_nat limit.
Proof.
  intros H. unfold slice_to. apply Z.leb_le in H. rewrite H.
  rewrite length_firstn. lia.
Qed.

Lemma search_entries (type_ : string) (entry : gm_place -> PlacesService.dict)
    (what : string) (n : nat) (found : list PlacesService.dict) (t : trace) :
  PlacesService.search w self destination limit type_ entry what n = (inr found, t) ->
  exists places,
    found = map entry places
    /\ ((0 <= limit)%Z -> List.length places <= Z.to_nat limit).
Proof.
  unfold PlacesService.search, try_except, bind, call, lift, lookup, raise, emit, ret.
  intros H.
  repeat (break_atom_in H; cbn [List.length fst snd app] in H; try discriminate H);
    inversion H; subst;
    try (exists []; split; [reflexivity | intros; simpl; lia]).
  eexists. split; [reflexivity | apply slice_to_length].
Qed.

Lemma search_calls (type_ : string) (entry : gm_place -> PlacesService.dict)
    (what : string) (n : nat) :
  let t := snd (PlacesService.search w self destination limit type_ entry what n) in
  (exists rest, t = PlacesGeocode destination :: rest
                /\ count is_places_call rest <= 1)
  /\ count is_enrichment t <= 2
  /\ count is_generation t = 0
  /\ count is_weather_call t = 0
  /\ count opens_result t = 0
  /\ count is_network t <= 2.
Proof.
  cbv zeta.
  unfold PlacesService.search, try_except, bind, call, lift, lookup, raise, emit, ret.
  repeat (break_atom; cbn [List.length fst snd app]);
    (split; [eexists; split; [reflexivity | cbv; lia] |]);
    repeat split; cbv; lia.
Qed.

End PlacesMore.

Lemma plain_entry_displayable (p : gm_place) : displayable (PlacesService.plain_entry p).
Proof. repeat split; discriminate. Qed.

Lemma restaurant_entry_displayable (p : gm_place) :
  displayable (PlacesService.restaurant_entry p).
Proof. repeat split; discriminate. Qed.

(** X13: a places search returns at most [limit] entries (for a limit that
    is not negative), each holding the keys "name", "rating", "address" and
    "place_id" that [main] indexes, with "price_level" for restaurants and
    for restaurants only; it starts with the geocoding request and makes at
    most one more request. *)
Theorem places_search_is_bounded
    (w : World) (self : PlacesService.t) (destination : string) (limit : Z)
    (c : PlacesService.category) (n : nat)
    (found : list PlacesService.dict) (t : trace) :
  PlacesService.get_by c w self destination limit n = (inr found, t) ->
  ((0 <= limit)%Z -> List.length found <= Z.to_nat limit)
  /\ Forall displayable found
  /\ Forall (fun d => PlacesService.dict_get d "price_level" <> None
                      <-> c = PlacesService.Restaurant) found
  /\ (exists rest, t = PlacesGeocode destination :: rest /\ count is_places_call rest <= 1)
  /\ count is_enrichment t <= 2.
Proof.
  rewrite get_by_is_search. intros Hrun.
  destruct (search_entries _ _ _ _ _ _ _ _ _ _ Hrun) as (places & -> & Hlen).
  pose proof (search_calls w self destination limit (place_type c)
                (match c with
                 | PlacesService.Restaurant => PlacesService.restaurant_entry
                 | _ => PlacesService.plain_entry
                 end) (place_label c) n) as Hcalls.
  cbv zeta in Hcalls. rewrite Hrun in Hcalls. cbn [snd] in Hcalls.
  destruct Hcalls as (Hfirst & Henr & _).
  split; [intros H; rewrite length_map; auto |].
  split; [| split; [| split; assumption]].
  - apply Forall_forall. intros d Hd. apply in_map_iff in Hd.
    destruct Hd as (p & <- & _).
    destruct c; [apply plain_entry_displayable | apply restaurant_entry_displayable
                | apply plain_entry_displayable].
  - apply Forall_forall. intros d Hd. apply in_map_iff in Hd.
    destruct Hd as (p & <- & _).
    destruct c; cbn; split; intros H; try discriminate H; try reflexivity; try congruence.
Qed.

Lemma places_search_is_bounded_witness :
  Forall displayable [PlacesService.restaurant_entry Samples.bistro]
  /\ count is_enrichment [PlacesGeocode "Paris"; PlacesNearby (PyFloat "48.8606")
                            (PyFloat "2.3376") "restaurant"] <= 2.
Proof.
  pose proof (places_search_is_bounded Samples.all_up Samples.places_client "Paris" 5
                PlacesService.Restaurant 0 _ _ eq_refl) as H.
  exact (conj (proj1 (proj2 H)) (proj2 (proj2 (proj2 (proj2 H))))).
Defined.

(** X14: a summary [get_weather_summary] returns is complete: it was built
    from three requests (geocoding, current conditions, forecast, the last
    two at the same coordinates) with a key configured; it holds the
    destination as its location, all four fields of the current conditions
    and the forecast key, and it is not falsy, so that [main] goes on to
    format it. *)
Theorem weather_summary_is_complete
    (w : World) (self : WeatherService.t) (destination : string)
    (start_date end_date : Z) (n : nat)
    (d : WeatherService.weather_dict) (t : trace) :
  WeatherService.get_weather_summary w self destination start_date end_date n
  = (inr (Some d), t) ->
  (exists lat lon,
      t = [WeatherGeocode destination; WeatherCurrent lat lon; WeatherForecast lat lon])
  /\ WeatherService.location d = Some (PyStr destination)
  /\ (exists c, WeatherService.current d = Some c
                /\ WeatherService.temperature c <> None
                /\ WeatherService.description c <> None
                /\ WeatherService.humidity c <> None
                /\ WeatherService.wind_speed c <> None)
  /\ WeatherService.forecast d <> None
  /\ WeatherService.falsy (Some d) = false
  /\ key_falsy (WeatherService.api_key self) = false.
Proof.
  intros Hrun.
  destruct (summary_shape w self destination start_date end_date n d t Hrun)
    as (lat & lon & temp & descr & humid & wind & fc & -> & ->).
  split; [now exists lat, lon |].
  split; [reflexivity |].
  split; [eexists; split; [reflexivity | repeat split; discriminate] |].
  split; [discriminate |].
  split; [reflexivity |].
  destruct (key_falsy (WeatherService.api_key self)) eqn:Hkey; [| reflexivity].
  unfold WeatherService.get_weather_summary in Hrun. rewrite Hkey in Hrun.
  discriminate Hrun.
Qed.

Lemma weather_summary_is_complete_witness :
  exists lat lon,
    snd (WeatherService.get_weather_summary Samples.forecast_unavailable
           Samples.weather_client "Paris" 739000 739007 0)
    = [WeatherGeocode "Paris"; WeatherCurrent lat lon; WeatherForecast lat lon].
Proof.
  destruct (WeatherService.get_weather_summary Samples.forecast_unavailable
              Samples.weather_client "Paris" 739000 739007 0) as [r t] eqn:Hrun.
  vm_compute in Hrun. injection Hrun as <- <-.
  exact (proj1 (weather_summary_is_complete Samples.forecast_unavailable
                  Samples.weather_client "Paris" 739000 739007 0 _ _ eq_refl)).
Defined.

(* ===================================================================== *)
(** ** Bounds on what a computation causes *)
(* ===================================================================== *)

Section Bounds.

Context {A B : Type}.
Variable p : event -> bool.

Lemma bounded_ret (a : A) : bounded p 0 (ret a).
Proof. intros n. cbn. lia. Qed.

Lemma bounded_raise (e : exn) : bounded p 0 (@raise A e).
Proof. intros n. cbn. lia. Qed.

Lemma bounded_weaken (k k' : nat) (c : M A) : bounded p k c -> k <= k' -> bounded p k' c.
Proof. intros H Hk n. specialize (H n). lia. Qed.

Lemma bounded_bind (k1 k2 : nat) (c : M A) (f : A -> M B) :
  bounded p k1 c -> (forall a, bounded p k2 (f a)) -> bounded p (k1 + k2) (bind c f).
Proof.
  intros Hc Hf n. unfold bind. specialize (Hc n).
  destruct (c n) as [[e | a] t]; cbn [snd] in *; [lia |].
  specialize (Hf a (n + List.length t)).
  destruct (f a (n + List.length t)) as [r t']. cbn [snd] in *.
  rewrite count_app. lia.
Qed.

Lemma bounded_try_except (k1 k2 : nat) (c : M A) (h : exn -> M A) :
  bounded p k1 c -> (forall e, bounded p k2 (h e)) -> bounded p (k1 + k2) (try_except c h).
Proof.
  intros Hc Hh n. unfold try_except. specialize (Hc n).
  destruct (c n) as [[e | a] t]; cbn [snd] in *; [| lia].
  specialize (Hh e (n + List.length t)).
  destruct (h e (n + List.length t)) as [r t']. cbn [snd] in *.
  rewrite count_app. lia.
Qed.

End Bounds.

Section BoundsMore.

Variable p : event -> bool.

Lemma bounded_emit (e : event) : p e = false -> bounded p 0 (emit e).
Proof. intros H n. unfold count. cbn. now rewrite H. Qed.

Lemma bounded_for_each {A} (xs : list A) (body : A -> M unit) :
  (forall x, In x xs -> bounded p 0 (body x)) -> bounded p 0 (for_each xs body).
Proof.
  induction xs as [| x rest IH]; intros H; cbn [for_each].
  - apply bounded_ret.
  - apply (bounded_bind p 0 0).
    + apply H. now left.
    + intros _. apply IH. intros y Hy. apply H. now right.
Qed.

Lemma bounded_emit_all (t : trace) : count p t = 0 -> bounded p 0 (App.emit_all t).
Proof.
  intros H n. unfold App.emit_all.
  rewrite (for_each_emit (fun e => e)). cbn [snd]. rewrite map_id. lia.
Qed.

End BoundsMore.

Section Raising.

Context {A B : Type}.
Variable Q : exn -> Prop.

Lemma raises_only_ret (a : A) : raises_only Q (ret a).
Proof. intros n e t H. discriminate H. Qed.

Lemma raises_only_bind (c : M A) (f : A -> M B) :
  raises_only Q c ->
  (forall n a t, c n = (inr a, t) -> raises_only Q (f a)) ->
  raises_only Q (bind c f).
Proof.
  intros Hc Hf n e t. unfold bind.
  destruct (c n) as [[e' | a] t'] eqn:Hrun.
  - intros H. injection H as <- _. eapply Hc, Hrun.
  - destruct (f a (n + List.length t')) as [r t''] eqn:Hnext.
    intros H. injection H as -> _. eapply (Hf n a t' Hrun), Hnext.
Qed.

Lemma raises_only_try_except (c : M A) (h : exn -> M A) :
  (forall e, raises_only Q (h e)) -> raises_only Q (try_except c h).
Proof.
  intros Hh n e t. unfold try_except.
  destruct (c n) as [[e' | a] t']; [| discriminate].
  destruct (h e' (n + List.length t')) as [r t''] eqn:Hnext.
  intros H. injection H as -> _. eapply Hh, Hnext.
Qed.

End Raising.

Lemma raises_only_emit (Q : exn -> Prop) (e : event) : raises_only Q (emit e).
Proof. intros n e' t H. discriminate H. Qed.

Lemma raises_only_for_each {A} (Q : exn -> Prop) (xs : list A) (body : A -> M unit) :
  (forall x, In x xs -> raises_only Q (body x)) -> raises_only Q (for_each xs body).
Proof.
  induction xs as [| x rest IH]; intros H; cbn [for_each].
  - apply raises_only_ret.
  - apply raises_only_bind.
    + apply H. now left.
    + intros _ _ _ _. apply IH. intros y Hy. apply H. now right.
Qed.

Lemma raises_only_emit_all (Q : exn -> Prop) (t : trace) : raises_only Q (App.emit_all t).
Proof.
  intros n e t' H. unfold App.emit_all in H.
  rewrite (for_each_emit (fun e => e)) in H. discriminate H.
Qed.

Lemma raises_only_weaken {A} (Q Q' : exn -> Prop) (c : M A) :
  raises_only Q c -> (forall e, Q e -> Q' e) -> raises_only Q' c.
Proof. intros H Himp n e t Hrun. eapply Himp, H, Hrun. Qed.

Lemma count_le_count (p q : event -> bool) (t : trace) :
  (forall e, p e = true -> q e = true) -> count p t <= count q t.
Proof.
  intros H. unfold count. induction t as [| e t IH]; simpl; [lia |].
  destruct (p e) eqn:Hp.
  - rewrite (H e Hp). simpl. lia.
  - destruct (q e); simpl; lia.
Qed.

Lemma weather_call_is_enrichment (e : event) :
  is_weather_call e = true -> is_enrichment e = true.
Proof. destruct e; simpl; congruence. Qed.

Lemma places_call_is_enrichment (e : event) :
  is_places_call e = true -> is_enrichment e = true.
Proof. destruct e; simpl; congruence. Qed.

Section Display.

Variable p : event -> bool.
Hypothesis p_quiet : quiet p.

Lemma item_bounded (d : PlacesService.dict) (key : string) : bounded p 0 (App.item d key).
Proof.
  unfold App.item, lookup. destruct (PlacesService.dict_get d key);
    [apply bounded_ret | apply bounded_raise].
Qed.

Lemma show_plain_bounded (d : PlacesService.dict) : bounded p 0 (App.show_plain d).
Proof.
  unfold App.show_plain.
  apply (bounded_bind p 0 0); [apply item_bounded | intros name].
  apply (bounded_bind p 0 0); [apply bounded_emit, p_quiet; reflexivity | intros _].
  apply (bounded_bind p 0 0); [apply item_bounded | intros address].
  apply bounded_emit, p_quiet; reflexivity.
Qed.

Lemma str_repeat_quiet (w : World) (s : string) (k : Z) (n : nat) :
  snd (str_repeat w s k n) = [].
Proof.
  unfold str_repeat. destruct (_ || _); [reflexivity |].
  destruct (k <? 1)%Z; [reflexivity |]. destruct (k =? 1)%Z; [reflexivity |].
  destruct (allocates w n k); reflexivity.
Qed.

Lemma price_str_bounded (w : World) (d : PlacesService.dict) :
  bounded p 0 (App.price_str w d).
Proof.
  intros n. unfold App.price_str.
  destruct (get (PlacesService.dict_get d "price_level") (PyStr ""));
    try rewrite str_repeat_quiet; cbn; lia.
Qed.

Lemma show_restaurant_bounded (w : World) (d : PlacesService.dict) :
  bounded p 0 (App.show_restaurant w d).
Proof.
  unfold App.show_restaurant.
  apply (bounded_bind p 0 0); [apply price_str_bounded | intros price].
  apply (bounded_bind p 0 0); [apply item_bounded | intros name].
  apply (bounded_bind p 0 0); [apply bounded_emit, p_quiet; reflexivity | intros _].
  apply (bounded_bind p 0 0); [apply item_bounded | intros address].
  apply bounded_emit, p_quiet; reflexivity.
Qed.

Lemma show_list_bounded (title : string) (found : list PlacesService.dict)
    (show : PlacesService.dict -> M unit) :
  (forall d, bounded p 0 (show d)) -> bounded p 0 (App.show_list title found show).
Proof.
  intros Hshow. unfold App.show_list. destruct found as [| d rest]; [apply bounded_ret |].
  apply (bounded_bind p 0 0); [apply bounded_emit, p_quiet; reflexivity | intros _].
  apply bounded_for_each. intros x _. apply Hshow.
Qed.

Lemma format_no_events (w : World) (weather_data : option WeatherService.weather_dict)
    (n : nat) :
  snd (WeatherService.format_weather_summary w weather_data n) = [].
Proof.
  unfold WeatherService.format_weather_summary, bind, WeatherService.py_title, raise, ret.
  destruct (WeatherService.falsy weather_data); [reflexivity |].
  destruct (get (WeatherService.description _) _); reflexivity.
Qed.

Lemma show_weather_bounded (w : World) (services : App.Services) (destination : string)
    (start_dt end_dt : Z) (k : nat) :
  (forall ws, bounded p k
                (WeatherService.get_weather_summary w ws destination start_dt end_dt)) ->
  bounded p k (App.show_weather w services destination start_dt end_dt).
Proof.
  intros Hget. unfold App.show_weather.
  destruct (App.weather services) as [ws |];
    [| eapply bounded_weaken; [apply bounded_ret | lia]].
  destruct (negb (key_falsy (WeatherService.api_key ws)));
    [| eapply bounded_weaken; [apply bounded_ret | lia]].
  apply (bounded_bind p 0 k); [apply bounded_emit, p_quiet; reflexivity | intros _].
  apply (bounded_bind p 0 k); [apply bounded_emit, p_quiet; reflexivity | intros _].
  apply (bounded_bind p 0 k); [apply bounded_emit, p_quiet; reflexivity | intros _].
  replace k with (k + 0) by lia.
  apply bounded_bind; [apply Hget | intros weather_data].
  destruct (negb (WeatherService.falsy weather_data)); [| apply bounded_ret].
  apply (bounded_bind p 0 0).
  - intros n. rewrite format_no_events. cbn. lia.
  - intros summary. apply bounded_emit, p_quiet; reflexivity.
Qed.

Lemma show_weather_without_key (w : World) (services : App.Services) (destination : string)
    (start_dt end_dt : Z) :
  (forall ws, App.weather services = Some ws ->
              key_falsy (WeatherService.api_key ws) = true) ->
  forall n, App.show_weather w services destination start_dt end_dt n = (inr tt, []).
Proof.
  intros Hkey n. unfold App.show_weather.
  destruct (App.weather services) as [ws |]; [| reflexivity].
  now rewrite (Hkey ws eq_refl).
Qed.

Lemma show_places_bounded (w : World) (services : App.Services) (destination : string)
    (k : nat) :
  (forall ps type_ entry what,
      bounded p k (PlacesService.search w ps destination 5 type_ entry what)) ->
  bounded p (k + (k + k)) (App.show_places w services destination).
Proof.
  intros Hsearch. unfold App.show_places.
  destruct (App.places services) as [ps |];
    [| eapply bounded_weaken; [apply bounded_ret | lia]].
  apply (bounded_bind p 0 (k + (k + k)));
    [apply bounded_emit, p_quiet; reflexivity | intros _].
  apply (bounded_bind p 0 (k + (k + k)));
    [apply bounded_emit, p_quiet; reflexivity | intros _].
  apply (bounded_bind p 0 (k + (k + k)));
    [apply bounded_emit, p_quiet; reflexivity | intros _].
  apply bounded_bind; [apply Hsearch | intros attractions].
  apply (bounded_bind p 0 (k + k));
    [apply show_list_bounded, show_plain_bounded | intros _].
  apply bounded_bind; [apply Hsearch | intros restaurants].
  apply (bounded_bind p 0 k);
    [apply show_list_bounded, show_restaurant_bounded | intros _].
  replace k with (k + 0) at 1 by lia.
  apply bounded_bind; [apply Hsearch | intros cafes].
  apply show_list_bounded, show_plain_bounded.
Qed.

End Display.

(* ===================================================================== *)
(** ** A whole run of [main] *)
(* ===================================================================== *)

Section Run.

Variable w : World.
Variable h : App.Helpers.

Lemma show_itinerary_draws (itinerary_text : string) :
  Forall (fun e => is_network e = false /\ opens_result e = false)
         (App.show_itinerary itinerary_text).
Proof.
  unfold App.show_itinerary. destruct (App.has_day_markers _).
  - eapply Forall_impl; [| apply split_days_expanders].
    intros e He. destruct e; try discriminate He. split; reflexivity.
  - repeat constructor.
Qed.

Lemma show_itinerary_count (p : event -> bool) (itinerary_text : string) :
  quiet p -> count p (App.show_itinerary itinerary_text) = 0.
Proof.
  intros Hq. apply count_zero_iff.
  eapply Forall_impl; [| apply show_itinerary_draws].
  intros e [He _]. now apply Hq.
Qed.

Lemma results_bounded (p : event -> bool) (services : App.Services) (inp : App.Inputs)
    (itinerary : string) (kw kp : nat) :
  quiet p ->
  bounded p kw (App.show_weather w services (App.destination inp)
                  (App.start_date inp) (App.end_date inp)) ->
  bounded p kp (App.show_places w services (App.destination inp)) ->
  bounded p (kw + kp) (results w services inp itinerary).
Proof.
  intros Hq Hw Hp. unfold results.
  apply (bounded_bind p 0 (kw + kp)); [apply bounded_emit, Hq; reflexivity | intros _].
  apply (bounded_bind p 0 (kw + kp)); [apply bounded_emit, Hq; reflexivity | intros _].
  apply (bounded_bind p 0 (kw + kp));
    [apply bounded_emit_all, show_itinerary_count, Hq | intros _].
  apply bounded_bind; [exact Hw | intros _; exact Hp].
Qed.

(** The block of [main] that follows the checks, for a selected provider. *)
Lemma generate_run (services : App.Services) (inp : App.Inputs)
    (chosen : string) (obj : App.provider) (n : nat) :
  valid_request h inp ->
  PyStr.truthy chosen = true ->
  provider_of services chosen = Some obj ->
  App.generate w h services (Some chosen) inp n
  = match generation w h inp obj (n + 2) with
    | (inl e, t) =>
        (inr tt,
         (announcement h inp chosen ++ t
          ++ [StError ("❌ Error generating itinerary: " ++ exn_msg e)])%list)
    | (inr itinerary, t) =>
        let after := results w services inp itinerary (n + 2 + List.length t) in
        (fst after, (announcement h inp chosen ++ t ++ snd after)%list)
    end.
Proof.
  intros (Hsrc & Hdst & Hdates) Htruthy Hobj.
  unfold App.generate.
  destruct (App.source inp) as [| c1 s1] eqn:Es; [contradiction |].
  destruct (App.destination inp) as [| c2 s2] eqn:Ed; [contradiction |].
  cbn [PyStr.truthy negb orb].
  destruct (App.validate_dates h (App.start_date inp) (App.end_date inp))
    as [is_valid error_msg] eqn:Ev.
  cbn [fst] in Hdates. subst is_valid. cbn [negb]. rewrite Htruthy. cbn [negb].
  unfold provider_of in Hobj. unfold announcement, service_name_of, generation, results, enrichment.
  rewrite ?Es, ?Ed.
  destruct (String.eqb chosen "Ollama (Local)"); rewrite Hobj;
    unfold bind at 1; unfold emit at 1; cbn [List.length];
    unfold bind at 1; unfold emit at 1; cbn [List.length];
    unfold bind at 1; unfold try_except at 1; unfold bind at 1;
    replace (n + 1 + 1) with (n + 2) by lia;
    (destruct (App.generate_with w obj _ _ _ _ _ _ _ _ (n + 2)) as [[e | itinerary] t];
     [ unfold bind at 1, emit at 1, ret; cbn [List.length app fst snd];
       rewrite ?app_nil_r; reflexivity
     | unfold ret at 1; cbn [List.length app fst snd]; rewrite ?app_nil_r, ?Nat.add_0_r;
       match goal with
       | |- context [fst ?X] => destruct X as [r' t'']
       end; reflexivity ]).
Qed.

End Run.

Section RunBounds.

Variable w : World.
Variable h : App.Helpers.
Variable p : event -> bool.
Hypothesis p_quiet : quiet p.

Lemma generate_bounded (services : App.Services) (ai_service : option string)
    (inp : App.Inputs) (kg kr : nat) :
  (forall obj, bounded p kg (generation w h inp obj)) ->
  (forall itinerary, bounded p kr (results w services inp itinerary)) ->
  bounded p (kg + kr) (App.generate w h services ai_service inp).
Proof.
  intros Hgen Hres.
  assert (Hstop : forall msg, bounded p (kg + kr) (emit (StError msg))).
  { intros msg. eapply bounded_weaken; [apply bounded_emit, p_quiet; reflexivity | lia]. }
  unfold App.generate.
  destruct (_ || _); [apply Hstop |].
  destruct (App.validate_dates h _ _) as [is_valid error_msg].
  destruct (negb is_valid); [apply Hstop |].
  destruct ai_service as [chosen |]; [| apply Hstop].
  destruct (negb (PyStr.truthy chosen)); [apply Hstop |].
  destruct (String.eqb chosen "Ollama (Local)").
  - destruct (option_map App.Local (App.ollama services)) as [obj |]; [| apply Hstop].
    apply (bounded_bind p 0 (kg + kr)); [apply bounded_emit, p_quiet; reflexivity | intros _].
    apply (bounded_bind p 0 (kg + kr)); [apply bounded_emit, p_quiet; reflexivity | intros _].
    apply bounded_bind.
    + replace kg with (kg + 0 + 0) by lia. apply bounded_try_except.
      * apply bounded_bind; [apply Hgen | intros itinerary; apply bounded_ret].
      * intros e. apply (bounded_bind p 0 0);
          [apply bounded_emit, p_quiet; reflexivity | intros _; apply bounded_ret].
    + intros [itinerary |]; [apply Hres |].
      eapply bounded_weaken; [apply bounded_ret | lia].
  - destruct (option_map App.Hosted (App.openai services)) as [obj |]; [| apply Hstop].
    apply (bounded_bind p 0 (kg + kr)); [apply bounded_emit, p_quiet; reflexivity | intros _].
    apply (bounded_bind p 0 (kg + kr)); [apply bounded_emit, p_quiet; reflexivity | intros _].
    apply bounded_bind.
    + replace kg with (kg + 0 + 0) by lia. apply bounded_try_except.
      * apply bounded_bind; [apply Hgen | intros itinerary; apply bounded_ret].
      * intros e. apply (bounded_bind p 0 0);
          [apply bounded_emit, p_quiet; reflexivity | intros _; apply bounded_ret].
    + intros [itinerary |]; [apply Hres |].
      eapply bounded_weaken; [apply bounded_ret | lia].
Qed.

Lemma welcome_bounded : bounded p 0 App.welcome.
Proof.
  unfold App.welcome.
  apply (bounded_bind p 0 0); [apply bounded_emit, p_quiet; reflexivity | intros _].
  apply bounded_emit, p_quiet; reflexivity.
Qed.

(** A bound for a whole run of [main]: what precedes the button, then the
    provider call, then the results. *)
Lemma main_bounded (inp : App.Inputs) (kg kr : nat) :
  (forall obj, bounded p kg (generation w h inp obj)) ->
  (forall itinerary, bounded p kr (results w (registry_services w) inp itinerary)) ->
  count p (events_of (App.main w h inp)) <= count p (prelude_events w) + (kg + kr).
Proof.
  intros Hgen Hres. unfold events_of. rewrite main_run. cbv zeta. cbn [snd].
  rewrite count_app. apply Nat.add_le_mono_l.
  destruct (App.generate_button inp).
  - now apply generate_bounded.
  - eapply Nat.le_trans; [apply welcome_bounded | lia].
Qed.

End RunBounds.

Section RunRaises.

Variable w : World.
Variable h : App.Helpers.

Lemma item_of_displayable (d : PlacesService.dict) (key : string) (n : nat) :
  PlacesService.dict_get d key <> None ->
  exists v, App.item d key n = (inr v, []).
Proof.
  intros H. unfold App.item, lookup.
  destruct (PlacesService.dict_get d key) as [v |]; [| contradiction].
  now exists v.
Qed.

Lemma show_plain_returns (Q : exn -> Prop) (d : PlacesService.dict) :
  displayable d -> raises_only Q (App.show_plain d).
Proof.
  intros (Hname & _ & Haddr & _) n e t. unfold App.show_plain, bind.
  destruct (item_of_displayable d "name" n Hname) as (v & ->).
  cbn [List.length]. unfold emit at 1. cbn [List.length].
  destruct (item_of_displayable d "address" (n + 0 + 1) Haddr) as (a & ->).
  unfold emit. intros H. discriminate H.
Qed.

Lemma str_repeat_raises (s : string) (k : Z) : raises_only repeat_failure (str_repeat w s k).
Proof.
  intros n e t. unfold str_repeat, repeat_failure.
  destruct (_ || _); [intros H; injection H as <- _; now left |].
  destruct (k <? 1)%Z; [discriminate |]. destruct (k =? 1)%Z; [discriminate |].
  destruct (allocates w n k); [discriminate |].
  intros H; injection H as <- _; now right.
Qed.

Lemma price_str_raises (d : PlacesService.dict) :
  raises_only repeat_failure (App.price_str w d).
Proof.
  unfold App.price_str.
  destruct (get (PlacesService.dict_get d "price_level") (PyStr ""));
    try apply str_repeat_raises; apply raises_only_ret.
Qed.

(** Showing a restaurant fails in the repetition of the price sign only. *)
Lemma show_restaurant_raises (d : PlacesService.dict) :
  displayable d -> raises_only repeat_failure (App.show_restaurant w d).
Proof.
  intros (Hname & _ & Haddr & _). unfold App.show_restaurant.
  apply raises_only_bind; [apply price_str_raises | intros _ price _ _].
  intros n e t. unfold bind.
  destruct (item_of_displayable d "name" n Hname) as (v & ->).
  cbn [List.length]. unfold emit at 1. cbn [List.length].
  destruct (item_of_displayable d "address" (n + 0 + 1) Haddr) as (a & ->).
  unfold emit. intros H. discriminate H.
Qed.

Lemma show_list_returns (Q : exn -> Prop) (title : string)
    (found : list PlacesService.dict) (show : PlacesService.dict -> M unit) :
  (forall d, In d found -> raises_only Q (show d)) ->
  raises_only Q (App.show_list title found show).
Proof.
  intros Hshow. unfold App.show_list. destruct found as [| d rest]; [apply raises_only_ret |].
  apply raises_only_bind; [apply raises_only_emit | intros _ _ _ _].
  now apply raises_only_for_each.
Qed.

Lemma search_returns (Q : exn -> Prop) (ps : PlacesService.t) (destination : string)
    (limit : Z) (type_ : string) (entry : gm_place -> PlacesService.dict) (what : string) :
  raises_only Q (PlacesService.search w ps destination limit type_ entry what).
Proof.
  intros n e t Hrun.
  destruct (search_never_raises w ps destination limit type_ entry what n) as (found & t' & H).
  rewrite H in Hrun. discriminate Hrun.
Qed.

Lemma found_are_displayable (ps : PlacesService.t) (destination : string) (limit : Z)
    (type_ : string) (entry : gm_place -> PlacesService.dict) (what : string)
    (n : nat) (found : list PlacesService.dict) (t : trace) :
  (forall place, displayable (entry place)) ->
  PlacesService.search w ps destination limit type_ entry what n = (inr found, t) ->
  forall d, In d found -> displayable d.
Proof.
  intros Hentry Hrun d Hd.
  destruct (search_entries _ _ _ _ _ _ _ _ _ _ Hrun) as (places & -> & _).
  apply in_map_iff in Hd. destruct Hd as (place & <- & _). apply Hentry.
Qed.

(** The places block fails in the repetition of the price sign only. *)
Lemma show_places_raises (services : App.Services) (destination : string) :
  raises_only repeat_failure (App.show_places w services destination).
Proof.
  unfold App.show_places. destruct (App.places services) as [ps |];
    [| apply raises_only_ret].
  apply raises_only_bind; [apply raises_only_emit | intros _ _ _ _].
  apply raises_only_bind; [apply raises_only_emit | intros _ _ _ _].
  apply raises_only_bind; [apply raises_only_emit | intros _ _ _ _].
  apply raises_only_bind; [apply search_returns | intros n1 attractions t1 H1].
  apply raises_only_bind.
  { apply show_list_returns. intros d Hd. apply show_plain_returns.
    unfold PlacesService.get_attractions in H1.
    exact (found_are_displayable _ _ _ _ _ _ _ _ _ plain_entry_displayable H1 d Hd). }
  intros _ _ _ _.
  apply raises_only_bind; [apply search_returns | intros n2 restaurants t2 H2].
  apply raises_only_bind.
  { apply show_list_returns. intros d Hd. apply show_restaurant_raises.
    unfold PlacesService.get_restaurants in H2.
    exact (found_are_displayable _ _ _ _ _ _ _ _ _ restaurant_entry_displayable H2 d Hd). }
  intros _ _ _ _.
  apply raises_only_bind; [apply search_returns | intros n3 cafes t3 H3].
  apply show_list_returns. intros d Hd. apply show_plain_returns.
  unfold PlacesService.get_cafes in H3.
  exact (found_are_displayable _ _ _ _ _ _ _ _ _ plain_entry_displayable H3 d Hd).
Qed.

Lemma show_places_raises_with_client (services : App.Services) (destination : string) :
  raises_only (fun _ => App.places services <> None)
    (App.show_places w services destination).
Proof.
  intros n e t. unfold App.show_places.
  destruct (App.places services) as [ps |]; [intros _; discriminate | discriminate].
Qed.

Lemma format_raises_untitled (weather_data : option WeatherService.weather_dict) :
  raises_only title_failure (WeatherService.format_weather_summary w weather_data).
Proof.
  intros n e t. unfold WeatherService.format_weather_summary, bind,
    WeatherService.py_title, raise, ret.
  destruct (WeatherService.falsy weather_data); [discriminate |].
  destruct (get (WeatherService.description _) _) as [| b | k | r | s] eqn:Hv; intros H;
    try discriminate H; injection H as <- _;
    [exists PyNone | exists (PyBool b) | exists (PyInt k) | exists (PyFloat r)];
    split; reflexivity.
Qed.

Lemma show_weather_raises (services : App.Services) (destination : string)
    (start_dt end_dt : Z) :
  raises_only title_failure
    (App.show_weather w services destination start_dt end_dt).
Proof.
  unfold App.show_weather. destruct (App.weather services) as [ws |];
    [| apply raises_only_ret].
  destruct (negb (key_falsy (WeatherService.api_key ws))); [| apply raises_only_ret].
  apply raises_only_bind; [apply raises_only_emit | intros _ _ _ _].
  apply raises_only_bind; [apply raises_only_emit | intros _ _ _ _].
  apply raises_only_bind; [apply raises_only_emit | intros _ _ _ _].
  apply raises_only_bind.
  - intros n e t Hrun.
    destruct (summary_never_raises w ws destination start_dt end_dt n) as (r & t' & H).
    rewrite H in Hrun. discriminate Hrun.
  - intros _ weather_data _ _.
    destruct (negb (WeatherService.falsy weather_data)); [| apply raises_only_ret].
    apply raises_only_bind; [apply format_raises_untitled | intros _ summary _ _].
    apply raises_only_emit.
Qed.

Lemma show_weather_raises_with_key (services : App.Services) (destination : string)
    (start_dt end_dt : Z) :
  raises_only (fun _ => exists ws, App.weather services = Some ws
                                   /\ key_falsy (WeatherService.api_key ws) = false)
    (App.show_weather w services destination start_dt end_dt).
Proof.
  intros n e t Hrun.
  destruct (App.weather services) as [ws |] eqn:Hws.
  - destruct (key_falsy (WeatherService.api_key ws)) eqn:Hkey; [| now exists ws].
    rewrite show_weather_without_key in Hrun; [discriminate Hrun |].
    intros ws' Hws'. rewrite Hws in Hws'. now injection Hws' as <-.
  - rewrite show_weather_without_key in Hrun; [discriminate Hrun |].
    intros ws' Hws'. rewrite Hws in Hws'. discriminate Hws'.
Qed.

Lemma results_raise (Q : exn -> Prop) (services : App.Services) (inp : App.Inputs)
    (itinerary : string) :
  raises_only Q (enrichment w services inp) ->
  raises_only Q (results w services inp itinerary).
Proof.
  intros Hrest. unfold results.
  apply raises_only_bind; [apply raises_only_emit | intros _ _ _ _].
  apply raises_only_bind; [apply raises_only_emit | intros _ _ _ _].
  apply raises_only_bind; [apply raises_only_emit_all | intros _ _ _ _].
  exact Hrest.
Qed.

Lemma generate_raises (Q : exn -> Prop) (services : App.Services)
    (ai_service : option string) (inp : App.Inputs) :
  raises_only Q (enrichment w services inp) ->
  raises_only Q (App.generate w h services ai_service inp).
Proof.
  intros Hrest. unfold App.generate.
  destruct (_ || _); [apply raises_only_emit |].
  destruct (App.validate_dates h _ _) as [is_valid error_msg].
  destruct (negb is_valid); [apply raises_only_emit |].
  destruct ai_service as [chosen |]; [| apply raises_only_emit].
  destruct (negb (PyStr.truthy chosen)); [apply raises_only_emit |].
  destruct (String.eqb chosen "Ollama (Local)").
  - destruct (option_map App.Local (App.ollama services)) as [obj |];
      [| apply raises_only_emit].
    apply raises_only_bind; [apply raises_only_emit | intros _ _ _ _].
    apply raises_only_bind; [apply raises_only_emit | intros _ _ _ _].
    apply raises_only_bind.
    + apply raises_only_try_except. intros e.
      apply raises_only_bind; [apply raises_only_emit | intros _ _ _ _; apply raises_only_ret].
    + intros _ [itinerary |] _ _;
        [exact (results_raise Q services inp itinerary Hrest) | apply raises_only_ret].
  - destruct (option_map App.Hosted (App.openai services)) as [obj |];
      [| apply raises_only_emit].
    apply raises_only_bind; [apply raises_only_emit | intros _ _ _ _].
    apply raises_only_bind; [apply raises_only_emit | intros _ _ _ _].
    apply raises_only_bind.
    + apply raises_only_try_except. intros e.
      apply raises_only_bind; [apply raises_only_emit | intros _ _ _ _; apply raises_only_ret].
    + intros _ [itinerary |] _ _;
        [exact (results_raise Q services inp itinerary Hrest) | apply raises_only_ret].
Qed.

End RunRaises.

Section WholeRun.

Variable w : World.
Variable h : App.Helpers.

Lemma quiet_generation : quiet is_generation.
Proof. intros e; destruct e; simpl; congruence. Qed.

Lemma quiet_enrichment : quiet is_enrichment.
Proof. intros e; destruct e; simpl; congruence. Qed.

Lemma quiet_weather_call : quiet is_weather_call.
Proof. intros e; destruct e; simpl; congruence. Qed.

Lemma quiet_places_call : quiet is_places_call.
Proof. intros e; destruct e; simpl; congruence. Qed.

Lemma quiet_network : quiet is_network.
Proof. intros e H; exact H. Qed.

Lemma silent_count (p : event -> bool) (t : trace) :
  quiet p -> Forall (fun e => is_network e = false) t -> count p t = 0.
Proof.
  intros Hq Ht. apply count_zero_iff.
  eapply Forall_impl; [| exact Ht]. intros e He. now apply Hq.
Qed.

(** Of the events before the button only the probe is a call. *)
Lemma prelude_count (p : event -> bool) :
  quiet p -> count p (prelude_events w) = count p [OllamaTags (probe_url w)].
Proof.
  intros Hq. unfold prelude_events. rewrite !count_app.
  rewrite (silent_count p page_header Hq) by (unfold page_header; repeat constructor).
  rewrite (silent_count p (service_warnings _) Hq).
  - rewrite (silent_count p (sidebar_events _) Hq); [lia |].
    unfold sidebar_events. destruct (App.ai_service_options _); simpl; repeat constructor.
  - destruct (registry_errors w) as [| e rest]; [constructor |].
    unfold service_warnings. constructor; [reflexivity |].
    apply Forall_forall. intros x Hx. apply in_map_iff in Hx.
    destruct Hx as (y & <- & _). reflexivity.
Qed.

(** The provider call is one generation request. *)
Lemma generation_one_call (inp : App.Inputs) (obj : App.provider) (n : nat) :
  exists e, snd (generation w h inp obj n) = [e]
            /\ is_generation e = true /\ is_enrichment e = false
            /\ opens_result e = false.
Proof.
  destruct obj as [s | s]; unfold generation, App.generate_with.
  - rewrite ollama_sends_its_prompt. eexists. repeat split.
  - rewrite openai_sends_its_prompt. eexists. repeat split.
Qed.

Lemma generation_bounded (p : event -> bool) (inp : App.Inputs) (obj : App.provider) :
  bounded p 1 (generation w h inp obj).
Proof.
  intros n. destruct (generation_one_call inp obj n) as (e & -> & _).
  unfold count. cbn [filter]. destruct (p e); cbn [List.length]; lia.
Qed.

Lemma generation_unseen (p : event -> bool) (inp : App.Inputs) (obj : App.provider) :
  (forall e, is_generation e = true -> p e = false) ->
  bounded p 0 (generation w h inp obj).
Proof.
  intros Hp n. destruct (generation_one_call inp obj n) as (e & -> & He & _).
  unfold count. cbn [filter]. rewrite (Hp e He). cbn [List.length]. lia.
Qed.

Lemma summary_bounded (p : event -> bool) (k : nat) (ws : WeatherService.t)
    (destination : string) (start_dt end_dt : Z) :
  (forall t, count is_enrichment t <= 3 -> count is_generation t = 0 ->
             count is_places_call t = 0 -> count is_network t <= 3 -> count p t <= k) ->
  bounded p k (WeatherService.get_weather_summary w ws destination start_dt end_dt).
Proof.
  intros Hp n.
  destruct (summary_calls w ws destination start_dt end_dt n) as (H1 & H2 & H3 & _ & H5 & _).
  now apply Hp.
Qed.

Lemma search_bounded (p : event -> bool) (k : nat) (ps : PlacesService.t)
    (destination : string) (limit : Z) (type_ : string)
    (entry : gm_place -> PlacesService.dict) (what : string) :
  (forall t, count is_enrichment t <= 2 -> count is_generation t = 0 ->
             count is_weather_call t = 0 -> count is_network t <= 2 -> count p t <= k) ->
  bounded p k (PlacesService.search w ps destination limit type_ entry what).
Proof.
  intros Hp n.
  destruct (search_calls w ps destination limit type_ entry what n)
    as (_ & H1 & H2 & H3 & _ & H5).
  now apply Hp.
Qed.

Lemma enrichment_bounded (p : event -> bool) (services : App.Services) (inp : App.Inputs)
    (kw kp : nat) :
  quiet p ->
  (forall ws, bounded p kw
                (WeatherService.get_weather_summary w ws (App.destination inp)
                   (App.start_date inp) (App.end_date inp))) ->
  (forall ps type_ entry what,
      bounded p kp (PlacesService.search w ps (App.destination inp) 5 type_ entry what)) ->
  bounded p (kw + (kp + (kp + kp))) (enrichment w services inp).
Proof.
  intros Hq Hw Hp. unfold enrichment.
  apply bounded_bind; [now apply show_weather_bounded | intros _].
  now apply show_places_bounded.
Qed.

Lemma results_within (p : event -> bool) (services : App.Services) (inp : App.Inputs)
    (itinerary : string) (kw kp : nat) :
  quiet p ->
  (forall ws, bounded p kw
                (WeatherService.get_weather_summary w ws (App.destination inp)
                   (App.start_date inp) (App.end_date inp))) ->
  (forall ps type_ entry what,
      bounded p kp (PlacesService.search w ps (App.destination inp) 5 type_ entry what)) ->
  bounded p (kw + (kp + (kp + kp))) (results w services inp itinerary).
Proof.
  intros Hq Hw Hp. apply results_bounded; [exact Hq | |].
  - now apply show_weather_bounded.
  - now apply show_places_bounded.
Qed.

Lemma count_weather_le (t : trace) : count is_weather_call t <= count is_enrichment t.
Proof. apply count_le_count, weather_call_is_enrichment. Qed.

Lemma count_places_le (t : trace) : count is_places_call t <= count is_enrichment t.
Proof. apply count_le_count, places_call_is_enrichment. Qed.

(** The weather slot of the registry is always filled, with the key of
    the environment. *)
Lemma registry_weather :
  App.weather (registry_services w)
  = Some {| WeatherService.api_key := getenv w "OPENWEATHER_API_KEY";
            WeatherService.base_url := "http://api.openweathermap.org/data/2.5" |}.
Proof. reflexivity. Qed.

Lemma registry_places_missing :
  key_falsy (getenv w "GOOGLE_PLACES_API_KEY") = true
  \/ getenv w "GOOGLE_PLACES_API_KEY" = Some "your_google_places_api_key_here" ->
  App.places (registry_services w) = None.
Proof.
  intros Hkey. unfold registry_services, slot, PlacesService.init. cbn [App.places].
  destruct Hkey as [Hkey | Hkey]; rewrite Hkey; reflexivity.
Qed.

Lemma results_run (services : App.Services) (inp : App.Inputs) (itinerary : string)
    (n : nat) :
  results w services inp itinerary n
  = let after := enrichment w services inp
                   (n + 2 + List.length (App.show_itinerary itinerary)) in
    (fst after, (itinerary_header ++ App.show_itinerary itinerary ++ snd after)%list).
Proof.
  unfold results, itinerary_header.
  unfold bind at 1. unfold emit at 1. cbn [List.length].
  unfold bind at 1. unfold emit at 1. cbn [List.length].
  unfold bind at 1. unfold App.emit_all.
  rewrite (for_each_emit (fun e => e)), map_id.
  replace (n + 1 + 1 + List.length (App.show_itinerary itinerary))
    with (n + 2 + List.length (App.show_itinerary itinerary)) by lia.
  cbv zeta.
  destruct (enrichment w services inp _) as [r t]. reflexivity.
Qed.

Lemma enrichment_raises (Q : exn -> Prop) (services : App.Services) (inp : App.Inputs) :
  raises_only Q (App.show_weather w services (App.destination inp)
                   (App.start_date inp) (App.end_date inp)) ->
  raises_only Q (App.show_places w services (App.destination inp)) ->
  raises_only Q (enrichment w services inp).
Proof.
  intros Hweather Hplaces. unfold enrichment.
  apply raises_only_bind; [exact Hweather | intros _ _ _ _; exact Hplaces].
Qed.

Lemma raises_only_and {A} (Q1 Q2 : exn -> Prop) (c : M A) :
  raises_only Q1 c -> raises_only Q2 c -> raises_only (fun e => Q1 e /\ Q2 e) c.
Proof. intros H1 H2 n e t H. split; [eapply H1 | eapply H2]; exact H. Qed.

(** What the two blocks below the itinerary can raise, and what it takes. *)
Lemma enrichment_failures (services : App.Services) (inp : App.Inputs) :
  raises_only
    (fun e =>
       (title_failure e
        /\ exists ws, App.weather services = Some ws
                      /\ key_falsy (WeatherService.api_key ws) = false)
       \/ (repeat_failure e /\ App.places services <> None))
    (enrichment w services inp).
Proof.
  apply enrichment_raises.
  - eapply raises_only_weaken;
      [exact (raises_only_and _ _ _ (show_weather_raises w _ _ _ _)
                (show_weather_raises_with_key w _ _ _ _)) |].
    intros e He. now left.
  - eapply raises_only_weaken;
      [exact (raises_only_and _ _ _ (show_places_raises w _ _)
                (show_places_raises_with_client w _ _)) |].
    intros e He. now right.
Qed.

Lemma announcement_count (p : event -> bool) (inp : App.Inputs) (chosen : string) :
  quiet p -> count p (announcement h inp chosen) = 0.
Proof. intros Hq. apply silent_count; [exact Hq |]. repeat constructor. Qed.

End WholeRun.

(** A run makes at most one generation call. *)
Lemma run_generation_bound (w : World) (h : App.Helpers) (inp : App.Inputs) :
  count is_generation (events_of (App.main w h inp)) <= 1.
Proof.
  pose proof (main_bounded w h is_generation quiet_generation inp 1 (0 + (0 + (0 + 0)))) as H.
  rewrite (prelude_count w _ quiet_generation) in H.
  eapply Nat.le_trans; [apply H | unfold count; cbn; lia];
    [intros obj; apply generation_bounded |].
  intros itinerary. apply results_within; [apply quiet_generation | |].
  - intros ws. apply summary_bounded. intros; lia.
  - intros ps type_ entry what. apply search_bounded. intros; lia.
Qed.

(** X15: whatever the world answers and whatever the inputs, one run of
    [main] makes at most one generation request, three weather requests and
    six places requests: at most eleven requests, the probe included. *)
Theorem a_run_makes_few_calls (w : World) (h : App.Helpers) (inp : App.Inputs) :
  let t := events_of (App.main w h inp) in
  count is_generation t <= 1
  /\ count is_weather_call t <= 3
  /\ count is_places_call t <= 6
  /\ count is_enrichment t <= 9
  /\ count is_network t <= 11.
Proof.
  cbv zeta. repeat split.
  - apply run_generation_bound.
  - pose proof (main_bounded w h is_weather_call quiet_weather_call inp 0
                  (3 + (0 + (0 + 0)))) as H.
    rewrite (prelude_count w _ quiet_weather_call) in H.
    eapply Nat.le_trans; [apply H | unfold count; cbn; lia];
      [intros obj; apply generation_unseen; intros e; destruct e; simpl; congruence |].
    intros itinerary. apply results_within; [apply quiet_weather_call | |].
    + intros ws. apply summary_bounded. intros t Ht _ _ _.
      pose proof (count_weather_le t). lia.
    + intros ps type_ entry what. apply search_bounded. intros; lia.
  - pose proof (main_bounded w h is_places_call quiet_places_call inp 0
                  (0 + (2 + (2 + 2)))) as H.
    rewrite (prelude_count w _ quiet_places_call) in H.
    eapply Nat.le_trans; [apply H | unfold count; cbn; lia];
      [intros obj; apply generation_unseen; intros e; destruct e; simpl; congruence |].
    intros itinerary. apply results_within; [apply quiet_places_call | |].
    + intros ws. apply summary_bounded. intros; lia.
    + intros ps type_ entry what. apply search_bounded. intros t Ht _ _ _.
      pose proof (count_places_le t). lia.
  - pose proof (main_bounded w h is_enrichment quiet_enrichment inp 0
                  (3 + (2 + (2 + 2)))) as H.
    rewrite (prelude_count w _ quiet_enrichment) in H.
    eapply Nat.le_trans; [apply H | unfold count; cbn; lia];
      [intros obj; apply generation_unseen; intros e; destruct e; simpl; congruence |].
    intros itinerary. apply results_within; [apply quiet_enrichment | |].
    + intros ws. apply summary_bounded. intros; lia.
    + intros ps type_ entry what. apply search_bounded. intros; lia.
  - pose proof (main_bounded w h is_network quiet_network inp 1
                  (3 + (2 + (2 + 2)))) as H.
    rewrite (prelude_count w _ quiet_network) in H.
    eapply Nat.le_trans; [apply H | unfold count; cbn; lia];
      [intros obj; apply generation_bounded |].
    intros itinerary. apply results_within; [apply quiet_network | |].
    + intros ws. apply summary_bounded. intros; lia.
    + intros ps type_ entry what. apply search_bounded. intros; lia.
Qed.

(** X16: without a weather key no run of [main] makes a weather request;
    without a places key (unset, empty or the placeholder of the template)
    no run makes a places request. *)
Theorem enrichment_needs_its_key (w : World) (h : App.Helpers) (inp : App.Inputs) :
  let t := events_of (App.main w h inp) in
  (key_falsy (getenv w "OPENWEATHER_API_KEY") = true -> count is_weather_call t = 0)
  /\ (key_falsy (getenv w "GOOGLE_PLACES_API_KEY") = true
      \/ getenv w "GOOGLE_PLACES_API_KEY" = Some "your_google_places_api_key_here" ->
      count is_places_call t = 0).
Proof.
  cbv zeta. split; intros Hkey.
  - pose proof (main_bounded w h is_weather_call quiet_weather_call inp 0 (0 + 0)) as H.
    rewrite (prelude_count w _ quiet_weather_call) in H.
    apply Nat.le_0_r.
    eapply Nat.le_trans; [apply H | unfold count; cbn; lia];
      [intros obj; apply generation_unseen; intros e; destruct e; simpl; congruence |].
    intros itinerary. apply results_bounded; [apply quiet_weather_call | |].
    + intros n. rewrite show_weather_without_key; [cbn; lia |].
      intros ws Hws. rewrite registry_weather in Hws. injection Hws as <-. exact Hkey.
    + change 0 with (0 + (0 + 0)).
      apply show_places_bounded; [apply quiet_weather_call |].
      intros ps type_ entry what. apply search_bounded. intros; lia.
  - pose proof (main_bounded w h is_places_call quiet_places_call inp 0 (0 + 0)) as H.
    rewrite (prelude_count w _ quiet_places_call) in H.
    apply Nat.le_0_r.
    eapply Nat.le_trans; [apply H | unfold count; cbn; lia];
      [intros obj; apply generation_unseen; intros e; destruct e; simpl; congruence |].
    intros itinerary. apply results_bounded; [apply quiet_places_call | |].
    + apply show_weather_bounded; [apply quiet_places_call |].
      intros ws. apply summary_bounded. intros; lia.
    + intros n. unfold App.show_places.
      rewrite (registry_places_missing w Hkey). cbn. lia.
Qed.

Lemma enrichment_needs_its_key_witness :
  count is_weather_call
    (events_of (App.main Samples.placeholder_env Samples.helpers Samples.trip)) = 0
  /\ count is_places_call
       (events_of (App.main Samples.placeholder_env Samples.helpers Samples.trip)) = 0.
Proof.
  split.
  - apply (proj1 (enrichment_needs_its_key Samples.placeholder_env Samples.helpers
                    Samples.trip)).
    reflexivity.
  - apply (proj2 (enrichment_needs_its_key Samples.placeholder_env Samples.helpers
                    Samples.trip)).
    left. reflexivity.
Defined.

(** X17: when the provider call raises, [main] does not: the run ends after
    the line "❌ Error generating itinerary: <message>", having made one
    generation request, no enrichment request, and drawn no result. *)
Theorem failed_generation_ends_the_run
    (w : World) (h : App.Helpers) (inp : App.Inputs)
    (chosen : string) (obj : App.provider) (e : exn) (t : trace) :
  valid_request h inp ->
  App.generate_button inp = true ->
  picked (registry_services w) inp = Some chosen ->
  provider_of (registry_services w) chosen = Some obj ->
  provider_call w h inp obj = (inl e, t) ->
  let shown := (prelude_events w ++ announcement h inp chosen ++ t
                ++ [StError ("❌ Error generating itinerary: " ++ exn_msg e)])%list in
  App.main w h inp 0 = (inr tt, shown)
  /\ count is_generation shown = 1
  /\ count is_enrichment shown = 0
  /\ count opens_result shown = 0.
Proof.
  intros Hvalid Hbutton Hpicked Hobj Hcall. cbv zeta.
  destruct (picked_has_provider _ _ _ Hpicked) as (Htruthy & _).
  split.
  - rewrite main_run. cbv zeta. rewrite Hbutton, Hpicked.
    rewrite (generate_run w h _ inp chosen obj _ Hvalid Htruthy Hobj).
    cbn [Nat.add]. unfold provider_call in Hcall. rewrite Hcall. reflexivity.
  - unfold provider_call in Hcall.
    destruct (generation_one_call w h inp obj (List.length (prelude_events w) + 2))
      as (ev & Ht & Hgen & Henr & Hres).
    rewrite Hcall in Ht. cbn [snd] in Ht. subst t.
    destruct (prelude_calls w) as (_ & Hpg & Hpe).
    rewrite !count_app, Hpg, Hpe, (prelude_draws_no_result w).
    unfold count. cbn [announcement filter is_generation is_enrichment opens_result app].
    rewrite Hgen, Henr, Hres. cbn. repeat split.
Qed.

Lemma failed_generation_ends_the_run_witness :
  App.main Samples.placeholder_env Samples.helpers Samples.trip 0
  = (inr tt,
     (prelude_events Samples.placeholder_env
      ++ announcement Samples.helpers Samples.trip "Ollama (Local)"
      ++ [OllamaChat "http://localhost:11434" "llama3.2" OllamaService.system_prompt
            (OllamaService.prompt "New York" "Paris, France" "739000" "739007" 8
               "medium" ["culture"; "food"] "solo")]
      ++ [StError "❌ Error generating itinerary: Ollama request timed out. The model might be too slow or not responding."])%list).
Proof.
  refine (proj1 (failed_generation_ends_the_run Samples.placeholder_env Samples.helpers
                   Samples.trip "Ollama (Local)" (App.Local Cases.local_client)
                   (Exn EException
                      "Ollama request timed out. The model might be too slow or not responding.")
                   _ _ _ _ _ _)).
  - repeat split; [discriminate | discriminate].
  - reflexivity.
  - reflexivity.
  - reflexivity.
  - reflexivity.
Defined.

(** X18: when the provider call returns, the itinerary is drawn in full
    before the first enrichment request is made; what follows makes no
    generation request and at most nine enrichment requests, and the run
    either returns or raises one of the two failures of the blocks below
    the itinerary: the one of [.title()] on a description that is not a
    string, or the one of the repetition of the price sign. *)
Theorem itinerary_is_drawn_before_enrichment
    (w : World) (h : App.Helpers) (inp : App.Inputs)
    (chosen : string) (obj : App.provider) (itinerary : string) (t : trace) :
  valid_request h inp ->
  App.generate_button inp = true ->
  picked (registry_services w) inp = Some chosen ->
  provider_of (registry_services w) chosen = Some obj ->
  provider_call w h inp obj = (inr itinerary, t) ->
  let drawn := (prelude_events w ++ announcement h inp chosen ++ t
                ++ itinerary_header ++ App.show_itinerary itinerary)%list in
  exists rest,
    events_of (App.main w h inp) = (drawn ++ rest)%list
    /\ count is_enrichment drawn = 0
    /\ count is_generation drawn = 1
    /\ count is_generation rest = 0
    /\ count is_enrichment rest <= 9
    /\ (result_of (App.main w h inp) = inr tt
        \/ exists e, result_of (App.main w h inp) = inl e
                     /\ (title_failure e \/ repeat_failure e)).
Proof.
  intros Hvalid Hbutton Hpicked Hobj Hcall. cbv zeta.
  destruct (picked_has_provider _ _ _ Hpicked) as (Htruthy & _).
  unfold provider_call in Hcall.
  set (m := 0 + List.length (prelude_events w) + 2 + List.length t + 2
            + List.length (App.show_itinerary itinerary)).
  exists (snd (enrichment w (registry_services w) inp m)).
  assert (Hrun : App.main w h inp 0
                 = (fst (enrichment w (registry_services w) inp m),
                    ((prelude_events w ++ announcement h inp chosen ++ t
                      ++ itinerary_header ++ App.show_itinerary itinerary)
                     ++ snd (enrichment w (registry_services w) inp m))%list)).
  { rewrite main_run. cbv zeta. rewrite Hbutton, Hpicked.
    rewrite (generate_run w h _ inp chosen obj _ Hvalid Htruthy Hobj).
    cbn [Nat.add]. rewrite Hcall. cbv zeta. rewrite results_run. cbv zeta.
    cbn [fst snd]. subst m. cbn [Nat.add].
    rewrite <- !app_assoc. reflexivity. }
  unfold events_of, result_of. rewrite Hrun. cbn [fst snd].
  split; [reflexivity |].
  destruct (generation_one_call w h inp obj (List.length (prelude_events w) + 2))
    as (ev & Ht & Hgen & Henr & Hres).
  rewrite Hcall in Ht. cbn [snd] in Ht. subst t.
  destruct (prelude_calls w) as (_ & Hpg & Hpe).
  split; [| split; [| split; [| split]]].
  - rewrite !count_app, Hpe, (announcement_count h _ inp chosen quiet_enrichment),
      (show_itinerary_count _ itinerary quiet_enrichment).
    unfold count. cbn [filter itinerary_header is_enrichment]. rewrite Henr. reflexivity.
  - rewrite !count_app, Hpg, (announcement_count h _ inp chosen quiet_generation),
      (show_itinerary_count _ itinerary quiet_generation).
    unfold count. cbn [filter itinerary_header is_generation]. rewrite Hgen. reflexivity.
  - apply Nat.le_0_r.
    apply (enrichment_bounded w is_generation (registry_services w) inp 0 0
             quiet_generation).
    + intros ws. apply summary_bounded. intros; lia.
    + intros ps type_ entry what. apply search_bounded. intros; lia.
  - apply (enrichment_bounded w is_enrichment (registry_services w) inp 3 2
             quiet_enrichment).
    + intros ws. apply summary_bounded. intros; lia.
    + intros ps type_ entry what. apply search_bounded. intros; lia.
  - destruct (enrichment w (registry_services w) inp m) as [[e | []] rest] eqn:Hrest.
    + right. exists e. split; [reflexivity |].
      destruct (enrichment_failures w _ inp m e rest Hrest) as [[He _] | [He _]];
        [now left | now right].
    + left. reflexivity.
Qed.

Lemma itinerary_is_drawn_before_enrichment_witness :
  exists rest,
    events_of (App.main Samples.all_up Samples.helpers Samples.trip)
    = ((prelude_events Samples.all_up
        ++ announcement Samples.helpers Samples.trip "Ollama (Local)"
        ++ [OllamaChat "http://localhost:11434" "llama3.2" OllamaService.system_prompt
              (OllamaService.prompt "New York" "Paris, France" "739000" "739007" 8
                 "medium" ["culture"; "food"] "solo")]
        ++ itinerary_header ++ App.show_itinerary Texts.two_days) ++ rest)%list
    /\ count is_enrichment rest <= 9.
Proof.
  destruct (itinerary_is_drawn_before_enrichment Samples.all_up Samples.helpers
              Samples.trip "Ollama (Local)" (App.Local Cases.local_client)
              Texts.two_days
              [OllamaChat "http://localhost:11434" "llama3.2" OllamaService.system_prompt
                 (OllamaService.prompt "New York" "Paris, France" "739000" "739007" 8
                    "medium" ["culture"; "food"] "solo")])
    as (rest & Hrun & _ & _ & _ & Hbound & _).
  - repeat split; [discriminate | discriminate].
  - reflexivity.
  - reflexivity.
  - reflexivity.
  - reflexivity.
  - exists rest. split; [exact Hrun | exact Hbound].
Defined.

(** X19: provided the widgets, [print] and the helpers do not raise, two
    failures only escape [main], both below the itinerary and so after the
    button was pressed: the [AttributeError] of [.title()] on a description
    of the current conditions that is not a string, which takes a weather
    key; and the [OverflowError] or [MemoryError] of the repetition of the
    price sign, which takes a places key. *)
Theorem main_fails_only_below_the_itinerary
    (w : World) (h : App.Helpers) (inp : App.Inputs) (e : exn) :
  result_of (App.main w h inp) = inl e ->
  App.generate_button inp = true
  /\ ((title_failure e /\ key_falsy (getenv w "OPENWEATHER_API_KEY") = false)
      \/ (repeat_failure e /\ key_falsy (getenv w "GOOGLE_PLACES_API_KEY") = false)).
Proof.
  unfold result_of. rewrite main_run. cbv zeta. cbn [fst].
  destruct (App.generate_button inp).
  - destruct (App.generate w h (registry_services w) (picked (registry_services w) inp)
                inp (0 + List.length (prelude_events w))) as [r t] eqn:Hrun.
    cbn [fst]. intros ->. split; [reflexivity |].
    destruct (generate_raises w h _ (registry_services w)
                (picked (registry_services w) inp) inp
                (enrichment_failures w (registry_services w) inp) _ _ _ Hrun)
      as [(He & ws & Hws & Hkey) | (He & Hplaces)].
    + left. rewrite registry_weather in Hws. injection Hws as <-. now split.
    + right. split; [exact He |].
      destruct (key_falsy (getenv w "GOOGLE_PLACES_API_KEY")) eqn:Hkey; [| reflexivity].
      contradiction Hplaces. apply registry_places_missing. now left.
  - unfold App.welcome, bind, emit. cbn [fst]. discriminate.
Qed.

Lemma main_fails_only_below_the_itinerary_witness :
  result_of (App.main Cases.null_description Samples.helpers Samples.trip)
  = inl (Exn EAttributeError "'NoneType' object has no attribute 'title'")
  /\ App.generate_button Samples.trip = true.
Proof.
  assert (H : result_of (App.main Cases.null_description Samples.helpers Samples.trip)
              = inl (Exn EAttributeError "'NoneType' object has no attribute 'title'"))
    by (vm_compute; reflexivity).
  split; [exact H |].
  exact (proj1 (main_fails_only_below_the_itinerary Cases.null_description
                  Samples.helpers Samples.trip _ H)).
Defined.

(** The other failure, met: a restaurant whose price level is 2^63 stops
    the run while the places block is drawn, the itinerary and the
    attractions having been shown. *)
Lemma huge_price_level_escapes :
  let run := App.main Cases.huge_price_level Samples.helpers Samples.trip in
  result_of run
  = inl (Exn EOverflowError "cannot fit 'int' into an index-sized integer")
  /\ App.sections_of (events_of run)
     = [("Day 1", "Visit museum"); ("Day 2", "Relax at beach")]
  /\ In (StSubheader "🍽️ Top Restaurants") (events_of run)
  /\ count is_weather_call (events_of run) = 0.
Proof.
  cbv zeta. repeat split; try (vm_compute; reflexivity).
  vm_compute. tauto.
Qed.

(** X20: while the button is not pressed a run of [main] returns after the
    welcome message; it draws no result and makes no generation or
    enrichment request: its only request is the probe of the registry. *)
Theorem nothing_is_requested_before_the_button
    (w : World) (h : App.Helpers) (inp : App.Inputs) (n : nat) :
  App.generate_button inp = false ->
  App.main w h inp n = (inr tt, (prelude_events w ++ welcome_events)%list)
  /\ count is_generation (prelude_events w ++ welcome_events)%list = 0
  /\ count is_enrichment (prelude_events w ++ welcome_events)%list = 0
  /\ count opens_result (prelude_events w ++ welcome_events)%list = 0
  /\ count is_network (prelude_events w ++ welcome_events)%list = 1.
Proof.
  intros Hbutton. split.
  - rewrite main_run. cbv zeta. rewrite Hbutton. reflexivity.
  - destruct (prelude_calls w) as (_ & Hpg & Hpe).
    rewrite !count_app, Hpg, Hpe, (prelude_draws_no_result w),
      (prelude_count w _ quiet_network).
    repeat split.
Qed.

Lemma nothing_is_requested_before_the_button_witness :
  count is_network (prelude_events Samples.all_up ++ welcome_events)%list = 1.
Proof.
  apply (nothing_is_requested_before_the_button Samples.all_up Samples.helpers
           Cases.idle 0).
  reflexivity.
Defined.

(** X21: when the button is pressed with a valid request and the sidebar
    had an option to offer, the run reaches the provider: a service was
    picked, its client is in the registry, the run announces the trip and
    makes exactly one generation request. *)
Theorem valid_request_reaches_the_provider
    (w : World) (h : App.Helpers) (inp : App.Inputs) :
  valid_request h inp ->
  App.generate_button inp = true ->
  App.ai_service_options (registry_services w) <> [] ->
  exists chosen obj rest,
    picked (registry_services w) inp = Some chosen
    /\ provider_of (registry_services w) chosen = Some obj
    /\ events_of (App.main w h inp)
       = (prelude_events w ++ announcement h inp chosen
          ++ snd (provider_call w h inp obj) ++ rest)%list
    /\ count is_generation (events_of (App.main w h inp)) = 1.
Proof.
  intros Hvalid Hbutton Hoptions.
  destruct (picked (registry_services w) inp) as [chosen |] eqn:Hpicked.
  2: { unfold picked in Hpicked.
       destruct (App.ai_service_options (registry_services w)); [contradiction | discriminate]. }
  destruct (picked_has_provider _ _ _ Hpicked) as (Htruthy & obj & Hobj).
  assert (Hrun : exists rest,
             events_of (App.main w h inp)
             = (prelude_events w ++ announcement h inp chosen
                ++ snd (provider_call w h inp obj) ++ rest)%list).
  { unfold events_of, provider_call. rewrite main_run. cbv zeta.
    rewrite Hbutton, Hpicked.
    rewrite (generate_run w h _ inp chosen obj _ Hvalid Htruthy Hobj).
    cbn [Nat.add].
    destruct (generation w h inp obj (List.length (prelude_events w) + 2))
      as [[e | itinerary] t]; cbv zeta; cbn [snd]; eexists; reflexivity. }
  destruct Hrun as (rest & Hrun).
  exists chosen, obj, rest. repeat split; try assumption.
  apply Nat.le_antisymm; [apply run_generation_bound |].
  rewrite Hrun. unfold provider_call.
  destruct (generation_one_call w h inp obj (List.length (prelude_events w) + 2))
    as (ev & -> & Hgen & _).
  rewrite !count_app. unfold count at 3. cbn [filter]. rewrite Hgen. cbn [List.length]. lia.
Qed.

Lemma valid_request_reaches_the_provider_witness :
  count is_generation
    (events_of (App.main Samples.placeholder_env Samples.helpers Samples.trip)) = 1.
Proof.
  destruct (valid_request_reaches_the_provider Samples.placeholder_env Samples.helpers
              Samples.trip) as (chosen & obj & rest & _ & _ & _ & H).
  - repeat split; [discriminate | discriminate].
  - reflexivity.
  - discriminate.
  - exact H.
Defined.
